(** * University-Timetable: the timetable generator and its router

    A shallow embedding of [app/timetable_generator.py] and of the timetable
    routes of [app/routers/timetable.py] (with the tables of [app/models.py]
    and the schemas of [app/schemas.py]), and the properties of the code as it
    is written.

    Conventions of the embedding.
    - A [datetime.time] value is the record of its hour, minute, second and
      microsecond.  Python and SQL order such values lexicographically;
      [time_to_minutes] reads the hour and the minute only.
    - [timetable_generator.py] imports the class [datetime]
      ([from datetime import datetime, timedelta]), so the name
      [datetime.time] in it is the method [datetime.datetime.time] and not
      the class of the times of day: every call [datetime.time(...)] of the
      module raises [TypeError].  The embedding follows the calls as they are
      written; a [Result] carries the text of the exception.
    - A table is the list of its rows in the order the queries return them;
      [db.add] followed by [db.commit] appends a row.
    - [random.shuffle], [time.time] and storage faults on the writes of the
      optimisation are answers of an [Oracle], indexed by the number of the
      call; the generator's state carries the three cursors.
    - The job's [status_log] is ghost state: the list of the values that were
      assigned to [job.status], oldest first. *)

From Stdlib Require Import ZArith QArith Lia List Permutation Bool Ascii String Sorted.
From stdpp Require Import gmap strings list fin_maps.

Local Open Scope string_scope.
Local Open Scope Z_scope.

(** ** Enumerations (schemas.py, models.py) *)

Inductive Day := Monday | Tuesday | Wednesday | Thursday | Friday | Saturday | Sunday.
Inductive CourseType := Theory | Lab.
Inductive RoomType := LectureHall | LabRoom.
Inductive JobStatus := Pending | Running | Completed | Failed.
Inductive OptimizationStrategyEnum :=
  balanced | rooms_strategy | instructors_strategy | students_strategy | minimal_changes.

#[global] Instance Day_eq_dec : EqDecision Day.
Proof. solve_decision. Defined.
#[global] Instance CourseType_eq_dec : EqDecision CourseType.
Proof. solve_decision. Defined.
#[global] Instance RoomType_eq_dec : EqDecision RoomType.
Proof. solve_decision. Defined.
#[global] Instance JobStatus_eq_dec : EqDecision JobStatus.
Proof. solve_decision. Defined.
#[global] Instance Strategy_eq_dec : EqDecision OptimizationStrategyEnum.
Proof. solve_decision. Defined.

(** ** Times of day *)

Record time := Time { hour : Z; minute : Z; second : Z; microsecond : Z }.

#[global] Instance time_eq_dec : EqDecision time.
Proof. solve_decision. Defined.

(** Python and SQL order [time] values lexicographically. *)
Definition time_ltb (a b : time) : bool :=
  (hour a <? hour b)
  || ((hour a =? hour b)
      && ((minute a <? minute b)
          || ((minute a =? minute b)
              && ((second a <? second b)
                  || ((second a =? second b)
                      && (microsecond a <? microsecond b)))))).

Definition time_leb (a b : time) : bool := negb (time_ltb b a).

(** [max(a, b)] and [min(a, b)] keep the first argument on a tie. *)
Definition time_max (a b : time) : time := if time_ltb a b then b else a.
Definition time_min (a b : time) : time := if time_ltb b a then b else a.

(** ** Tables (models.py) *)

Record Programme := {
  p_id : Z;
  p_department_id : Z
}.

Record Course := {
  c_id : Z;
  c_name : string;
  c_type : CourseType;
  c_programme_id : Z;
  c_semester_id : Z;
  c_expected_students : option Z   (* nullable *)
}.

Record Instructor := {
  i_id : Z;
  i_department_id : Z;
  i_max_hours_per_week : Z
}.

Record Room := {
  r_id : Z;
  r_capacity : Z;
  r_type : RoomType
}.

Record Timetable := {
  t_course_id : Z;
  t_instructor_id : Z;
  t_room_id : Z;
  t_day : Day;
  t_start_time : time;
  t_end_time : time;
  t_semester_id : Z
}.

Record InstructorAvailability := {
  ia_instructor_id : Z;
  ia_day : Day;
  ia_start_time : time;
  ia_end_time : time;
  ia_is_available : bool
}.

Record InstructorPreference := {
  ip_instructor_id : Z;
  ip_course_id : Z;
  ip_preference_level : Z
}.

Record TimetableConstraint := {
  tc_name : string;
  tc_constraint_type : string;
  tc_is_hard_constraint : bool;
  tc_weight : Z;
  tc_parameters : option string
}.

(** The value [generate] serialises into [job.result_metrics]; the statistics
    snapshot is a set of floating-point ratios computed from the final tables
    and is left out. *)
Record ResultMetrics := {
  rm_entries_created : Z;
  rm_conflicts : nat;
  rm_execution_time : Q
}.

Record TimetableGenerationJob := {
  j_semester_id : Z;
  j_status : JobStatus;
  j_error_message : option string;
  j_optimization_strategy : OptimizationStrategyEnum;
  j_result_metrics : option ResultMetrics
}.

(** The read-only tables of a run. *)
Record Catalog := {
  programmes : list Programme;
  courses : list Course;
  instructors : list Instructor;
  rooms : list Room;
  instructor_availability : list InstructorAvailability;
  instructor_preference : list InstructorPreference;
  timetable_constraint : list TimetableConstraint
}.

(** ** Schemas of the result (schemas.py) *)

(** [TimeSlot.day] is a [DayEnum]. *)
Record TimeSlot := {
  ts_day : Day;
  ts_start_time : time;
  ts_end_time : time
}.

Record ConflictInfo := {
  conflict_type : string;
  entity_type : string;
  entity_id : Z;
  entity_name : string;
  time_slot : TimeSlot;
  details : string
}.

Record TimetableGenerationResult := {
  res_status : JobStatus;
  res_entries_created : Z;
  res_conflicts_detected : list ConflictInfo;
  res_execution_time_seconds : Q
}.

(** ** Time slot constants *)

Record Hours := { h_start : string; h_end : string }.

Definition DEFAULT_TEACHING_HOURS (day : Day) : Hours :=
  match day with
  | Monday | Tuesday | Wednesday | Thursday | Friday =>
      {| h_start := "08:00"; h_end := "17:00" |}
  | Saturday => {| h_start := "08:00"; h_end := "13:00" |}
  | Sunday => {| h_start := "00:00"; h_end := "00:00" |}
  end.

(** [list(DEFAULT_TEACHING_HOURS.keys())] *)
Definition all_days : list Day :=
  [Monday; Tuesday; Wednesday; Thursday; Friday; Saturday; Sunday].

Definition DEFAULT_LECTURE_DURATION : Z := 60.
Definition DEFAULT_LAB_DURATION : Z := 120.

(** ** Results and exceptions *)

(** What a call gives: a value, or an exception, kept as the text [str(e)]
    that [generate] stores in the job. *)
Inductive Result (A : Type) :=
| Ok (a : A)
| Raise (msg : string).
Arguments Ok {A} a.
Arguments Raise {A} msg.

Definition rbind {A B} (m : Result A) (f : A -> Result B) : Result B :=
  match m with
  | Ok a => f a
  | Raise msg => Raise msg
  end.

Declare Scope res_scope.
Delimit Scope res_scope with res.
Notation "x <- m ;; k" := (rbind m (fun x => k))
  (at level 100, m at next level, right associativity) : res_scope.

(** A loop whose body appends what it finds to a list, or raises. *)
Fixpoint collect {A B} (body : A -> Result (list B)) (l : list A) : Result (list B) :=
  match l with
  | [] => Ok []
  | x :: rest =>
      match body x with
      | Raise msg => Raise msg
      | Ok found_here =>
          match collect body rest with
          | Raise msg => Raise msg
          | Ok found_later => Ok (found_here ++ found_later)%list
          end
      end
  end.

(** ** Helper functions *)

(** The text of the [TypeError] of a call of [datetime.datetime.time] with
    keyword arguments only, as CPython words it. *)
Definition type_error_unbound : string :=
  "unbound method datetime.time() needs an argument".

(** The text of the [TypeError] of the call [datetime.time(0, 0)]: the first
    argument stands where the method expects a [datetime]. *)
Definition type_error_descriptor : string :=
  "descriptor 'time' for 'datetime.datetime' objects doesn't apply to a 'int' object".

(** [datetime.time(hour=..., minute=...)], with [datetime] the class: the
    method is called without the object it belongs to. *)
Definition datetime_time_keywords (hour minute : Z) : Result time :=
  Raise type_error_unbound.

(** [datetime.time(a, b)], with [datetime] the class: an [int] is no
    [datetime]. *)
Definition datetime_time_positional (a b : Z) : Result time :=
  Raise type_error_descriptor.

Definition digit_value (a : ascii) : Z := Z.of_nat (nat_of_ascii a) - 48.

Fixpoint int_of_string (acc : Z) (s : string) : Z :=
  match s with
  | EmptyString => acc
  | String a rest => int_of_string (acc * 10 + digit_value a) rest
  end.

Fixpoint split_colon (s : string) : string * string :=
  match s with
  | EmptyString => (EmptyString, EmptyString)
  | String a rest =>
      if Ascii.eqb a ":"%char then (EmptyString, rest)
      else let '(h, m) := split_colon rest in (String a h, m)
  end.

(** [parse_time]: only ever applied to the entries of
    [DEFAULT_TEACHING_HOURS], which are well-formed "HH:MM" texts. *)
Definition parse_time (time_str : string) : Result time :=
  let '(h, m) := split_colon time_str in
  datetime_time_keywords (int_of_string 0 h) (int_of_string 0 m).

Definition time_to_minutes (t : time) : Z := hour t * 60 + minute t.

Definition minutes_to_time (minutes : Z) : Result time :=
  datetime_time_keywords (minutes / 60) (minutes mod 60).

Definition check_time_overlap (start1 end1 start2 end2 : time) : bool :=
  Z.max (time_to_minutes start1) (time_to_minutes start2)
    <? Z.min (time_to_minutes end1) (time_to_minutes end2).

(** Python's [range(start, stop, step)] for a positive step. *)
Definition py_range (start stop step : Z) : list Z :=
  map (fun k => start + Z.of_nat k * step)
      (seq 0 (Z.to_nat ((stop - start + step - 1) / step))).

(** The test [slot_free] of [get_available_time_slots]. *)
Definition slot_free (existing_minutes : list (Z * Z)) (start_minutes end_minutes : Z)
  : bool :=
  forallb (fun '(existing_start, existing_end) =>
             negb (Z.max start_minutes existing_start
                     <? Z.min end_minutes existing_end))
          existing_minutes.

(** The loop of [get_available_time_slots] over the candidate starts. *)
Fixpoint available_from (duration_minutes : Z) (existing_minutes : list (Z * Z))
    (starts : list Z) : Result (list (time * time)) :=
  match starts with
  | [] => Ok []
  | start_minutes :: later =>
      let end_minutes := start_minutes + duration_minutes in
      if slot_free existing_minutes start_minutes end_minutes
      then (start_time <- minutes_to_time start_minutes ;;
            end_time <- minutes_to_time end_minutes ;;
            available_slots <- available_from duration_minutes existing_minutes later ;;
            Ok ((start_time, end_time) :: available_slots))%res
      else available_from duration_minutes existing_minutes later
  end.

Definition get_available_time_slots
    (day : Day) (duration_minutes : Z) (existing_slots : list (time * time))
    (day_start day_end : time) (step_minutes : Z) : Result (list (time * time)) :=
  let day_start_minutes := time_to_minutes day_start in
  let day_end_minutes := time_to_minutes day_end in
  let existing_minutes :=
    map (fun '(s, e) => (time_to_minutes s, time_to_minutes e)) existing_slots in
  available_from duration_minutes existing_minutes
    (py_range day_start_minutes
              (day_end_minutes - duration_minutes + 1) step_minutes).

(** ** The generator object and its mutable state *)

Record ConstraintEntry := {
  ce_name : string;
  ce_is_hard : bool;
  ce_weight : Z;
  ce_params : option string
}.

(** [self]: the fields fixed by [__init__].  [department_ids] and
    [programme_ids] are only tested for truth and membership, so [None] and
    the empty list are both the empty list. *)
Record TimetableGenerator := {
  db : Catalog;
  semester_id : Z;
  strategy : OptimizationStrategyEnum;
  department_ids : list Z;
  programme_ids : list Z;
  respect_existing : bool;
  clear_existing : bool;
  max_iterations : Z;
  time_limit_seconds : Z;
  constraints : gmap string ConstraintEntry
}.

(** What a run mutates: the [Timetable] table, the two result fields of
    [self], the job record, and the cursors into the oracle. *)
Record RunState := {
  timetable : list Timetable;
  entries_created : Z;
  conflicts : list ConflictInfo;
  job : TimetableGenerationJob;
  status_log : list JobStatus;
  shuffles : nat;
  clock_reads : nat;
  commits : nat
}.

Record Oracle := {
  shuffle_courses : nat -> list Course -> list Course;
  shuffle_days : nat -> list Day -> list Day;
  clock : nat -> Q;
  commit_fault : nat -> option string
}.

Definition set_timetable (tt : list Timetable) (st : RunState) : RunState :=
  {| timetable := tt; entries_created := entries_created st;
     conflicts := conflicts st; job := job st; status_log := status_log st;
     shuffles := shuffles st; clock_reads := clock_reads st;
     commits := commits st |}.

Definition set_entries_created (n : Z) (st : RunState) : RunState :=
  {| timetable := timetable st; entries_created := n;
     conflicts := conflicts st; job := job st; status_log := status_log st;
     shuffles := shuffles st; clock_reads := clock_reads st;
     commits := commits st |}.

Definition set_conflicts (cs : list ConflictInfo) (st : RunState) : RunState :=
  {| timetable := timetable st; entries_created := entries_created st;
     conflicts := cs; job := job st; status_log := status_log st;
     shuffles := shuffles st; clock_reads := clock_reads st;
     commits := commits st |}.

Definition set_job (j : TimetableGenerationJob) (log : list JobStatus)
    (st : RunState) : RunState :=
  {| timetable := timetable st; entries_created := entries_created st;
     conflicts := conflicts st; job := j; status_log := log;
     shuffles := shuffles st; clock_reads := clock_reads st;
     commits := commits st |}.

Definition set_cursors (s c k : nat) (st : RunState) : RunState :=
  {| timetable := timetable st; entries_created := entries_created st;
     conflicts := conflicts st; job := job st; status_log := status_log st;
     shuffles := s; clock_reads := c; commits := k |}.

(** ** State and exception monad *)

Definition M (A : Type) : Type := RunState -> Result A * RunState.

Definition ret {A} (a : A) : M A := fun st => (Ok a, st).

Definition bind {A B} (m : M A) (f : A -> M B) : M B :=
  fun st =>
    match m st with
    | (Ok a, st') => f a st'
    | (Raise msg, st') => (Raise msg, st')
    end.

Declare Scope gen_scope.
Delimit Scope gen_scope with gen.
Notation "x <- m ;; k" := (bind m (fun x => k))
  (at level 100, m at next level, right associativity) : gen_scope.
Notation "m ;;; k" := (bind m (fun _ => k))
  (at level 100, right associativity) : gen_scope.

Definition get_state : M RunState := fun st => (Ok st, st).
Definition modify (f : RunState -> RunState) : M unit := fun st => (Ok tt, f st).

(** A call that reads no state of the run. *)
Definition lift {A} (r : Result A) : M A := fun st => (r, st).

(** [try: body except Exception as e: handler(e); raise] *)
Definition try_except_reraise {A} (body : M A) (handler : string -> RunState -> RunState)
  : M A :=
  fun st =>
    match body st with
    | (Ok a, st') => (Ok a, st')
    | (Raise msg, st') => (Raise msg, handler msg st')
    end.

(** [time.time()] *)
Definition time_time (o : Oracle) : M Q :=
  fun st =>
    (Ok (clock o (clock_reads st)),
     set_cursors (shuffles st) (S (clock_reads st)) (commits st) st).

(** [random.shuffle(days)] *)
Definition random_shuffle_days (o : Oracle) (days : list Day) : M (list Day) :=
  fun st =>
    (Ok (shuffle_days o (shuffles st) days),
     set_cursors (S (shuffles st)) (clock_reads st) (commits st) st).

(** [random.shuffle(courses)] *)
Definition random_shuffle_courses (o : Oracle) (cs : list Course) : M (list Course) :=
  fun st =>
    (Ok (shuffle_courses o (shuffles st) cs),
     set_cursors (S (shuffles st)) (clock_reads st) (commits st) st).

(** [self.db.commit()] of a pending write [w]: the write is stored unless the
    storage layer raises. *)
Definition db_commit (o : Oracle) (w : RunState -> RunState) : M unit :=
  fun st =>
    let st' := set_cursors (shuffles st) (clock_reads st) (S (commits st)) st in
    match commit_fault o (commits st) with
    | Some msg => (Raise msg, st')
    | None => (Ok tt, w st')
    end.

(** ** Sorting *)

Fixpoint insert_by {A} (le : A -> A -> bool) (x : A) (l : list A) : list A :=
  match l with
  | [] => [x]
  | y :: r => if le x y then x :: l else y :: insert_by le x r
  end.

(** A stable sort: an element goes in front of the later elements it is
    [le] to. *)
Definition sort_by {A} (le : A -> A -> bool) (l : list A) : list A :=
  foldr (insert_by le) [] l.

(** [sorted(l, key=key, reverse=True)] and [l.sort(key=key, reverse=True)] *)
Definition sort_desc {A} (key : A -> Z) (l : list A) : list A :=
  sort_by (fun x y => key y <=? key x) l.

(** [ORDER BY key] *)
Definition order_by {A} (key : A -> Z) (l : list A) : list A :=
  sort_by (fun x y => key x <=? key y) l.

Definition mem (x : Z) (l : list Z) : bool := existsb (Z.eqb x) l.
Definition nonempty {A} (l : list A) : bool :=
  match l with [] => false | _ => true end.

(** ** Queries *)

Definition _load_constraints (d : Catalog) : gmap string ConstraintEntry :=
  foldl (fun acc c =>
           <[tc_constraint_type c :=
               {| ce_name := tc_name c;
                  ce_is_hard := tc_is_hard_constraint c;
                  ce_weight := tc_weight c;
                  ce_params := tc_parameters c |}]> acc)
        ∅ (timetable_constraint d).

(** The text of the [AttributeError] of [Course.programme.department_id]: the
    relationship attribute of the class has no column attributes. *)
Definition attribute_error : string :=
  "Neither 'InstrumentedAttribute' object nor 'Comparator' object associated with Course.programme has an attribute 'department_id'".

(** With a department filter the query is never built: the argument of its
    [filter] raises. *)
Definition _get_courses_to_schedule (self : TimetableGenerator) : Result (list Course) :=
  let q := List.filter (fun c => c_semester_id c =? semester_id self)
                       (courses (db self)) in
  let q := if nonempty (programme_ids self)
           then List.filter (fun c => mem (c_programme_id c) (programme_ids self)) q
           else q in
  if nonempty (department_ids self)
  then Raise attribute_error
  else Ok q.

Definition _get_instructors (self : TimetableGenerator) : list Instructor :=
  if nonempty (department_ids self)
  then List.filter (fun i => mem (i_department_id i) (department_ids self))
                   (instructors (db self))
  else instructors (db self).

Definition default_hours_set (day : Day) : bool :=
  negb (String.eqb (h_start (DEFAULT_TEACHING_HOURS day)) "00:00")
  || negb (String.eqb (h_end (DEFAULT_TEACHING_HOURS day)) "00:00").

(** The loop over [result.items()] that fills in the default teaching hours:
    [result] is the dictionary, a list of windows for each of the seven
    days. *)
Fixpoint fill_defaults (result : Day -> list (time * time)) (days : list Day)
  : Result (Day -> list (time * time)) :=
  match days with
  | [] => Ok result
  | day :: rest =>
      if negb (nonempty (result day)) && default_hours_set day
      then (start_time <- parse_time (h_start (DEFAULT_TEACHING_HOURS day)) ;;
            end_time <- parse_time (h_end (DEFAULT_TEACHING_HOURS day)) ;;
            fill_defaults
              (fun d => if bool_decide (d = day)
                        then (result d ++ [(start_time, end_time)])%list
                        else result d)
              rest)%res
      else fill_defaults result rest
  end.

(** The windows recorded as available, day by day, before the defaults are
    filled in. *)
Definition recorded_availability (self : TimetableGenerator) (instructor_id : Z)
  : Day -> list (time * time) :=
  let availabilities :=
    List.filter (fun a => (ia_instructor_id a =? instructor_id)
                          && Bool.eqb (ia_is_available a) true)
                (instructor_availability (db self)) in
  fun day =>
    map (fun a => (ia_start_time a, ia_end_time a))
        (List.filter (fun a => bool_decide (ia_day a = day)) availabilities).

Definition _get_instructor_availability (self : TimetableGenerator) (instructor_id : Z)
  : Result (Day -> list (time * time)) :=
  fill_defaults (recorded_availability self instructor_id) all_days.

Definition _get_instructor_preferences (self : TimetableGenerator) (instructor_id : Z)
  : gmap Z Z :=
  foldl (fun acc p => <[ip_course_id p := ip_preference_level p]> acc) ∅
        (List.filter (fun p => ip_instructor_id p =? instructor_id)
                     (instructor_preference (db self))).

Definition truthy (n : option Z) : bool :=
  match n with Some k => negb (k =? 0) | None => false end.

Definition or_zero (n : option Z) : Z :=
  match n with Some k => k | None => 0 end.

Definition _get_suitable_rooms (self : TimetableGenerator) (course : Course) : list Room :=
  let q := List.filter
             (fun r => match c_type course with
                       | Theory => bool_decide (r_type r = LectureHall)
                       | Lab => bool_decide (r_type r = LabRoom)
                       end) (rooms (db self)) in
  if truthy (c_expected_students course)
  then
    let n := or_zero (c_expected_students course) in
    order_by (fun r => Z.abs (r_capacity r - n))
             (List.filter (fun r => n <=? r_capacity r) q)
  else order_by r_capacity q.

Definition _get_suitable_instructors (self : TimetableGenerator) (course : Course)
  : list (Instructor * Z) :=
  let result :=
    map (fun instructor =>
           let preferences := _get_instructor_preferences self (i_id instructor) in
           (instructor, default 3 (preferences !! c_id course)))
        (_get_instructors self) in
  sort_desc snd result.

Definition _get_room_bookings (self : TimetableGenerator) (tt : list Timetable)
    (room_id : Z) (day : Day) : list (time * time) :=
  map (fun b => (t_start_time b, t_end_time b))
      (List.filter (fun b => (t_room_id b =? room_id)
                             && bool_decide (t_day b = day)
                             && (t_semester_id b =? semester_id self)) tt).

Definition _get_instructor_bookings (self : TimetableGenerator) (tt : list Timetable)
    (instructor_id : Z) (day : Day) : list (time * time) :=
  map (fun b => (t_start_time b, t_end_time b))
      (List.filter (fun b => (t_instructor_id b =? instructor_id)
                             && bool_decide (t_day b = day)
                             && (t_semester_id b =? semester_id self)) tt).

Definition _calculate_instructor_hours (self : TimetableGenerator) (tt : list Timetable)
    (instructor_id : Z) : Z :=
  let bookings :=
    List.filter (fun b => (t_instructor_id b =? instructor_id)
                          && (t_semester_id b =? semester_id self)) tt in
  let total_minutes :=
    foldl (fun total b =>
             total + (time_to_minutes (t_end_time b) - time_to_minutes (t_start_time b)))
          0 bookings in
  total_minutes / 60.

(** ** Slot finder *)

Record Slot := {
  slot_day : Day;
  slot_start_time : time;
  slot_end_time : time
}.

Definition course_duration (course : Course) : Z :=
  if bool_decide (c_type course = Lab) then DEFAULT_LAB_DURATION
  else DEFAULT_LECTURE_DURATION.

Definition slot_works_for_room (room_bookings : list (time * time))
    (slot : time * time) : bool :=
  forallb (fun '(room_start, room_end) =>
             negb (check_time_overlap (fst slot) (snd slot) room_start room_end))
          room_bookings.

(** The loop [for day in days] of [_find_time_slot]. *)
Fixpoint find_in_days (self : TimetableGenerator) (tt : list Timetable)
    (course : Course) (instructor : Instructor) (room : Room)
    (instructor_availability : Day -> list (time * time)) (days : list Day)
  : Result (option Slot) :=
  match days with
  | [] => Ok None
  | day :: rest =>
      if String.eqb (h_start (DEFAULT_TEACHING_HOURS day)) "00:00"
      then find_in_days self tt course instructor room instructor_availability rest
      else
        let duration_minutes := course_duration course in
        let instructor_bookings := _get_instructor_bookings self tt (i_id instructor) day in
        let room_bookings := _get_room_bookings self tt (r_id room) day in
        (day_start <- parse_time (h_start (DEFAULT_TEACHING_HOURS day)) ;;
         day_end <- parse_time (h_end (DEFAULT_TEACHING_HOURS day)) ;;
         instructor_slots <-
           collect (fun '(avail_start, avail_end) =>
                      get_available_time_slots day duration_minutes instructor_bookings
                        (time_max avail_start day_start) (time_min avail_end day_end) 30)
                   (instructor_availability day) ;;
         match List.find (slot_works_for_room room_bookings) instructor_slots with
         | Some (start_time, end_time) =>
             Ok (Some {| slot_day := day; slot_start_time := start_time;
                         slot_end_time := end_time |})
         | None =>
             find_in_days self tt course instructor room instructor_availability rest
         end)%res
  end.

Definition _find_time_slot (self : TimetableGenerator) (o : Oracle)
    (course : Course) (instructor : Instructor) (room : Room) : M (option Slot) :=
  (instructor_availability <- lift (_get_instructor_availability self (i_id instructor)) ;;
   days <- random_shuffle_days o all_days ;;
   st <- get_state ;;
   lift (find_in_days self (timetable st) course instructor room
                      instructor_availability days))%gen.

(** ** Constraint evaluator *)

Definition _check_constraints (self : TimetableGenerator) (tt : list Timetable)
    (course : Course) (instructor : Instructor) (room : Room) (time_slot : Slot)
  : list string :=
  let v1 :=
    if (bool_decide (c_type course = Lab) && negb (bool_decide (r_type room = LabRoom)))
       || (bool_decide (c_type course = Theory) && bool_decide (r_type room = LabRoom))
    then ["RoomTypeMatch"] else [] in
  let v2 :=
    if truthy (c_expected_students course)
       && (r_capacity room <? or_zero (c_expected_students course))
    then ["RoomCapacity"] else [] in
  let instructor_hours := _calculate_instructor_hours self tt (i_id instructor) in
  let duration_hours := course_duration course / 60 in
  let v3 :=
    if i_max_hours_per_week instructor <? instructor_hours + duration_hours
    then ["InstructorMaxHours"] else [] in
  let room_bookings := _get_room_bookings self tt (r_id room) (slot_day time_slot) in
  let v4 :=
    if existsb (fun '(s, e) =>
                  check_time_overlap (slot_start_time time_slot)
                                     (slot_end_time time_slot) s e) room_bookings
    then ["NoRoomConflict"] else [] in
  let instructor_bookings :=
    _get_instructor_bookings self tt (i_id instructor) (slot_day time_slot) in
  let v5 :=
    if existsb (fun '(s, e) =>
                  check_time_overlap (slot_start_time time_slot)
                                     (slot_end_time time_slot) s e) instructor_bookings
    then ["NoInstructorConflict"] else [] in
  v1 ++ v2 ++ v3 ++ v4 ++ v5.

(** ** Commit step *)

Definition is_hard_registered (self : TimetableGenerator) (constraint : string) : bool :=
  match constraints self !! constraint with
  | Some entry => ce_is_hard entry
  | None => false
  end.

Definition constraint_conflict (course : Course) (time_slot : Slot)
    (constraint : string) : ConflictInfo :=
  {| conflict_type := constraint;
     entity_type := "Course";
     entity_id := c_id course;
     entity_name := c_name course;
     time_slot := {| ts_day := slot_day time_slot;
                     ts_start_time := slot_start_time time_slot;
                     ts_end_time := slot_end_time time_slot |};
     details := "Cannot schedule " ++ c_name course ++ " due to "
                ++ constraint ++ " constraint" |}.

Definition new_entry (self : TimetableGenerator) (course : Course)
    (instructor : Instructor) (room : Room) (time_slot : Slot) : Timetable :=
  {| t_course_id := c_id course;
     t_instructor_id := i_id instructor;
     t_room_id := r_id room;
     t_day := slot_day time_slot;
     t_start_time := slot_start_time time_slot;
     t_end_time := slot_end_time time_slot;
     t_semester_id := semester_id self |}.

Definition add_conflict (c : ConflictInfo) : M unit :=
  modify (fun st => set_conflicts (conflicts st ++ [c]) st).

Definition _create_timetable_entry (self : TimetableGenerator) (o : Oracle)
    (course : Course) (instructor : Instructor) (room : Room) (time_slot : Slot)
  : M (option Timetable) :=
  (st <- get_state ;;
   let violated_constraints :=
     _check_constraints self (timetable st) course instructor room time_slot in
   match List.find (is_hard_registered self) violated_constraints with
   | Some constraint =>
       add_conflict (constraint_conflict course time_slot constraint) ;;;
       ret None
   | None =>
       let entry := new_entry self course instructor room time_slot in
       db_commit o (fun st => set_timetable (timetable st ++ [entry]) st) ;;;
       modify (fun st => set_entries_created (entries_created st + 1) st) ;;;
       ret (Some entry)
   end)%gen.

(** ** Scheduler *)

Definition day_of_text (s : string) : option Day :=
  if String.eqb s "Monday" then Some Monday
  else if String.eqb s "Tuesday" then Some Tuesday
  else if String.eqb s "Wednesday" then Some Wednesday
  else if String.eqb s "Thursday" then Some Thursday
  else if String.eqb s "Friday" then Some Friday
  else if String.eqb s "Saturday" then Some Saturday
  else if String.eqb s "Sunday" then Some Sunday
  else None.

(** The first line of the [ValidationError] of pydantic. *)
Definition validation_error : string := "1 validation error for TimeSlot".

(** [TimeSlot(day=..., start_time=..., end_time=...)] on a text for the day:
    pydantic admits the values of [DayEnum]. *)
Definition TimeSlot_of_text (day : string) (start_time end_time : time)
  : Result TimeSlot :=
  match day_of_text day with
  | Some d => Ok {| ts_day := d; ts_start_time := start_time;
                    ts_end_time := end_time |}
  | None => Raise validation_error
  end.

(** The three places where the loop records a course it could not schedule:
    [self.conflicts.append(ConflictInfo(..., time_slot=TimeSlot(day=...,
    start_time=datetime.time(0, 0), end_time=datetime.time(0, 0)), ...))]
    with the empty text for the day.  The arguments are evaluated first. *)
Definition record_unscheduled (kind : string) (course : Course) (what : string)
  : M unit :=
  (start_time <- lift (datetime_time_positional 0 0) ;;
   end_time <- lift (datetime_time_positional 0 0) ;;
   slot <- lift (TimeSlot_of_text EmptyString start_time end_time) ;;
   add_conflict {| conflict_type := kind;
                   entity_type := "Course";
                   entity_id := c_id course;
                   entity_name := c_name course;
                   time_slot := slot;
                   details := what ++ c_name course |})%gen.

(** The loop [for room in rooms] for one instructor; the result is the flag
    [scheduled]. *)
Fixpoint try_rooms (self : TimetableGenerator) (o : Oracle) (course : Course)
    (instructor : Instructor) (rms : list Room) : M bool :=
  match rms with
  | [] => ret false
  | room :: rest =>
      (time_slot <- _find_time_slot self o course instructor room ;;
       match time_slot with
       | Some time_slot =>
           entry <- _create_timetable_entry self o course instructor room time_slot ;;
           match entry with
           | Some _ => ret true
           | None => try_rooms self o course instructor rest
           end
       | None => try_rooms self o course instructor rest
       end)%gen
  end.

(** The loop [for instructor, score in instructors_with_scores]. *)
Fixpoint try_instructors (self : TimetableGenerator) (o : Oracle) (course : Course)
    (instructors_with_scores : list (Instructor * Z)) (rms : list Room) : M bool :=
  match instructors_with_scores with
  | [] => ret false
  | (instructor, score) :: rest =>
      (scheduled <- try_rooms self o course instructor rms ;;
       if scheduled : bool then ret true
       else try_instructors self o course rest rms)%gen
  end.

Definition has_entry (self : TimetableGenerator) (tt : list Timetable)
    (course : Course) : bool :=
  existsb (fun b => (t_course_id b =? c_id course)
                    && (t_semester_id b =? semester_id self)) tt.

(** The body of the loop [for course in courses], after the budget check. *)
Definition schedule_course (self : TimetableGenerator) (o : Oracle) (course : Course)
  : M unit :=
  (st <- get_state ;;
   if respect_existing self && negb (clear_existing self)
      && has_entry self (timetable st) course
   then ret tt
   else
     let rms := _get_suitable_rooms self course in
     if negb (nonempty rms)
     then record_unscheduled "NoSuitableRoom" course "No suitable room found for "
     else
       let instructors_with_scores := _get_suitable_instructors self course in
       if negb (nonempty instructors_with_scores)
       then record_unscheduled "NoSuitableInstructor" course
                               "No suitable instructor found for "
       else
         scheduled <- try_instructors self o course instructors_with_scores rms ;;
         if scheduled : bool then ret tt
         else record_unscheduled "NoSuitableTimeSlot" course
                                 "Could not find a suitable time slot for ")%gen.

Definition Qgt_bool (a b : Q) : bool := negb (Qle_bool a b).

Definition budget_exceeded (self : TimetableGenerator) (start_time now : Q)
    (iteration : Z) : bool :=
  Qgt_bool (now - start_time)%Q (inject_Z (time_limit_seconds self))
  || (max_iterations self <=? iteration).

(** The loop [for course in courses] with its [break]. *)
Fixpoint course_loop (self : TimetableGenerator) (o : Oracle) (start_time : Q)
    (cs : list Course) (iteration : Z) : M unit :=
  match cs with
  | [] => ret tt
  | course :: rest =>
      (now <- time_time o ;;
       if budget_exceeded self start_time now iteration then ret tt
       else
         schedule_course self o course ;;;
         course_loop self o start_time rest (iteration + 1))%gen
  end.

(** The ordering of the course list by [self.strategy]. *)
Definition order_courses (self : TimetableGenerator) (o : Oracle) (cs : list Course)
  : M (list Course) :=
  match strategy self with
  | rooms_strategy =>
      ret (sort_desc (fun c => if bool_decide (c_type c = Lab) then 1 else 0) cs)
  | instructors_strategy => ret cs
  | students_strategy =>
      ret (sort_desc (fun c => or_zero (c_expected_students c)) cs)
  | _ => random_shuffle_courses o cs
  end.

Definition clear_semester (self : TimetableGenerator) (st : RunState) : RunState :=
  set_timetable
    (List.filter (fun b => negb (t_semester_id b =? semester_id self)) (timetable st))
    st.

Definition _optimize_timetable (self : TimetableGenerator) (o : Oracle) : M unit :=
  ((if clear_existing self then db_commit o (clear_semester self) else ret tt) ;;;
   courses <- lift (_get_courses_to_schedule self) ;;
   cs <- order_courses self o courses ;;
   start_time <- time_time o ;;
   course_loop self o start_time cs 0)%gen.

(** ** Generation job *)

Definition _create_job (self : TimetableGenerator) : TimetableGenerationJob :=
  {| j_semester_id := semester_id self;
     j_status := Running;
     j_error_message := None;
     j_optimization_strategy := strategy self;
     j_result_metrics := None |}.

Definition job_set_status (s : JobStatus) (st : RunState) : RunState :=
  let j := job st in
  set_job {| j_semester_id := j_semester_id j; j_status := s;
             j_error_message := j_error_message j;
             j_optimization_strategy := j_optimization_strategy j;
             j_result_metrics := j_result_metrics j |}
          (status_log st ++ [s]) st.

Definition job_set_error (msg : string) (st : RunState) : RunState :=
  let j := job st in
  set_job {| j_semester_id := j_semester_id j; j_status := j_status j;
             j_error_message := Some msg;
             j_optimization_strategy := j_optimization_strategy j;
             j_result_metrics := j_result_metrics j |}
          (status_log st) st.

Definition job_set_metrics (m : ResultMetrics) (st : RunState) : RunState :=
  let j := job st in
  set_job {| j_semester_id := j_semester_id j; j_status := j_status j;
             j_error_message := j_error_message j;
             j_optimization_strategy := j_optimization_strategy j;
             j_result_metrics := Some m |}
          (status_log st) st.

(** [TimetableGenerator.__init__] over the stored [Timetable] table. *)
Definition TimetableGenerator_init (d : Catalog) (semester : Z)
    (strat : OptimizationStrategyEnum) (departments programmes_ : list Z)
    (respect clear : bool) (max_iter time_limit : Z) (tt : list Timetable)
  : TimetableGenerator * RunState :=
  let self :=
    {| db := d; semester_id := semester; strategy := strat;
       department_ids := departments; programme_ids := programmes_;
       respect_existing := respect; clear_existing := clear;
       max_iterations := max_iter; time_limit_seconds := time_limit;
       constraints := _load_constraints d |} in
  (self,
   {| timetable := tt; entries_created := 0; conflicts := [];
      job := _create_job self; status_log := [j_status (_create_job self)];
      shuffles := 0%nat; clock_reads := 0%nat; commits := 0%nat |}).

(** [generate].  [_calculate_statistics] only reads the tables and every
    division in it is guarded, so it neither changes the state nor raises; its
    floating-point snapshot is not part of the result here. *)
Definition generate (self : TimetableGenerator) (o : Oracle)
  : M TimetableGenerationResult :=
  try_except_reraise
    (start_time <- time_time o ;;
     _optimize_timetable self o ;;;
     now <- time_time o ;;
     let execution_time := (now - start_time)%Q in
     modify (job_set_status Completed) ;;;
     st <- get_state ;;
     modify (job_set_metrics
               {| rm_entries_created := entries_created st;
                  rm_conflicts := length (conflicts st);
                  rm_execution_time := execution_time |}) ;;;
     ret {| res_status := Completed;
            res_entries_created := entries_created st;
            res_conflicts_detected := conflicts st;
            res_execution_time_seconds := execution_time |})%gen
    (fun msg st => job_set_error msg (job_set_status Failed st)).

Definition generate_timetable (d : Catalog) (semester : Z)
    (strat : OptimizationStrategyEnum) (departments programmes_ : list Z)
    (respect clear : bool) (max_iter time_limit : Z) (tt : list Timetable)
    (o : Oracle) : Result TimetableGenerationResult * RunState :=
  let '(self, st) :=
    TimetableGenerator_init d semester strat departments programmes_
                            respect clear max_iter time_limit tt in
  generate self o st.

(** * Specification-level definitions *)

(** The ledger the scheduling loop starts from. *)
Definition start_ledger (self : TimetableGenerator) (tt : list Timetable)
  : list Timetable :=
  if clear_existing self
  then List.filter (fun b => negb (t_semester_id b =? semester_id self)) tt
  else tt.

(** The outcome "rejected" of the commit step: nothing is stored and a
    conflict record naming a violated kind is appended. *)
Definition commit_rejected (course : Course) (slot : Slot) (violated : list string)
    (st : RunState) (out : Result (option Timetable) * RunState) : Prop :=
  fst out = Ok None
  /\ timetable (snd out) = timetable st
  /\ entries_created (snd out) = entries_created st
  /\ exists k, In k violated
               /\ conflicts (snd out)
                  = (conflicts st ++ [constraint_conflict course slot k])%list.

(** The state right after a reading of the clock. *)
Definition after_clock_read (st : RunState) : RunState :=
  set_cursors (shuffles st) (S (clock_reads st)) (commits st) st.

(** The generator over the same tables without the availability rows that
    are marked unavailable. *)
Definition without_unavailable_rows (self : TimetableGenerator) : TimetableGenerator :=
  let d := db self in
  {| db := {| programmes := programmes d; courses := courses d;
              instructors := instructors d; rooms := rooms d;
              instructor_availability :=
                List.filter ia_is_available (instructor_availability d);
              instructor_preference := instructor_preference d;
              timetable_constraint := timetable_constraint d |};
     semester_id := semester_id self; strategy := strategy self;
     department_ids := department_ids self; programme_ids := programme_ids self;
     respect_existing := respect_existing self; clear_existing := clear_existing self;
     max_iterations := max_iterations self;
     time_limit_seconds := time_limit_seconds self;
     constraints := constraints self |}.

(** A day with a non-empty default teaching window. *)
Definition teaching_day (day : Day) : bool :=
  negb (String.eqb (h_start (DEFAULT_TEACHING_HOURS day)) "00:00").

(** ** Ledger invariants *)

(** Two bookings of the scope that share the room or the instructor on one
    day and whose intervals overlap. *)
Definition clashes (scope : Z) (a b : Timetable) : bool :=
  (t_semester_id a =? scope) && (t_semester_id b =? scope)
  && bool_decide (t_day a = t_day b)
  && ((t_room_id a =? t_room_id b) || (t_instructor_id a =? t_instructor_id b))
  && check_time_overlap (t_start_time a) (t_end_time a)
                        (t_start_time b) (t_end_time b).

Definition no_overlaps (scope : Z) (tt : list Timetable) : Prop :=
  ForallOrdPairs (fun a b => clashes scope a b = false) tt.

(** The minutes [_calculate_instructor_hours] adds up. *)
Definition instructor_minutes (self : TimetableGenerator) (tt : list Timetable)
    (instructor_id : Z) : Z :=
  foldl (fun total b =>
           total + (time_to_minutes (t_end_time b) - time_to_minutes (t_start_time b)))
        0
        (List.filter (fun b => (t_instructor_id b =? instructor_id)
                               && (t_semester_id b =? semester_id self)) tt).

(** Every instructor's booked hours are at most the instructor's maximum. *)
Definition within_budget (self : TimetableGenerator) (tt : list Timetable) : bool :=
  forallb (fun i => _calculate_instructor_hours self tt (i_id i)
                    <=? i_max_hours_per_week i)
          (instructors (db self)).

(** The shuffles of the oracle are permutations. *)
Definition oracle_fair (o : Oracle) : Prop :=
  (forall n l, Permutation (shuffle_courses o n l) l)
  /\ (forall n l, Permutation (shuffle_days o n l) l).

(** The bookings of the scope and the others. *)
Definition in_scope (self : TimetableGenerator) (b : Timetable) : bool :=
  t_semester_id b =? semester_id self.

(** The test [schedule_course] skips a course on. *)
Definition skip_test (self : TimetableGenerator) (tt : list Timetable)
    (course : Course) : bool :=
  respect_existing self && negb (clear_existing self) && has_entry self tt course.

(** The exception the attempt to schedule a course ends in: the record of a
    course without rooms or instructors evaluates [datetime.time(0, 0)], the
    search of a slot evaluates [datetime.time(hour=..., minute=...)]. *)
Definition attempt_error (self : TimetableGenerator) (course : Course) : string :=
  if nonempty (_get_suitable_rooms self course)
     && nonempty (_get_suitable_instructors self course)
  then type_error_unbound
  else type_error_descriptor.

(** The first course the loop attempts: the first one it reaches before the
    budget stops it that is not skipped.  [reads] is the number of the next
    reading of the clock. *)
Fixpoint first_attempt (self : TimetableGenerator) (o : Oracle) (start_time : Q)
    (tt : list Timetable) (cs : list Course) (iteration : Z) (reads : nat)
  : option Course :=
  match cs with
  | [] => None
  | course :: rest =>
      if budget_exceeded self start_time (clock o reads) iteration then None
      else if skip_test self tt course
           then first_attempt self o start_time tt rest (iteration + 1) (S reads)
           else Some course
  end.

(** The order [order_courses] puts the courses in, when [shuffles] random
    draws were made before. *)
Definition ordered_courses (self : TimetableGenerator) (o : Oracle) (shuffles : nat)
    (cs : list Course) : list Course :=
  match strategy self with
  | rooms_strategy =>
      sort_desc (fun c => if bool_decide (c_type c = Lab) then 1 else 0) cs
  | instructors_strategy => cs
  | students_strategy => sort_desc (fun c => or_zero (c_expected_students c)) cs
  | _ => shuffle_courses o shuffles cs
  end.

(** A state that differs from [st] in the cursors of the oracle at most. *)
Definition same_data (st st' : RunState) : Prop :=
  exists s c k, st' = set_cursors s c k st.

(** The length of a slot is the duration of the course's kind. *)
Definition slot_fits (course : Course) (slot : Slot) : Prop :=
  time_to_minutes (slot_end_time slot) - time_to_minutes (slot_start_time slot)
  = course_duration course.

(** A time of day as [datetime.time] accepts it. *)
Definition valid_time (t : time) : Prop :=
  0 <= hour t < 24 /\ 0 <= minute t < 60
  /\ 0 <= second t < 60 /\ 0 <= microsecond t < 1000000.

(** A time of day on a whole minute. *)
Definition whole_minute (t : time) : Prop :=
  second t = 0 /\ microsecond t = 0.

(** The registry entry [_load_constraints] builds from a row. *)
Definition constraint_entry (c : TimetableConstraint) : ConstraintEntry :=
  {| ce_name := tc_name c;
     ce_is_hard := tc_is_hard_constraint c;
     ce_weight := tc_weight c;
     ce_params := tc_parameters c |}.

(** The last row of the constraint table with a given type. *)
Definition last_constraint_row (d : Catalog) (k : string) : option TimetableConstraint :=
  List.find (fun c => bool_decide (tc_constraint_type c = k))
            (rev (timetable_constraint d)).

(** The preference of an instructor for a course: the level of the last
    row recorded for the pair, 3 when there is none. *)
Definition preference_score (d : Catalog) (instructor_id course_id : Z) : Z :=
  match List.find (fun p => (ip_instructor_id p =? instructor_id)
                            && bool_decide (ip_course_id p = course_id))
                  (rev (instructor_preference d)) with
  | Some p => ip_preference_level p
  | None => 3
  end.

(** A room of the kind the course needs, with enough seats when the
    expected enrollment is given. *)
Definition room_suits (course : Course) (r : Room) : bool :=
  match c_type course with
  | Theory => bool_decide (r_type r = LectureHall)
  | Lab => bool_decide (r_type r = LabRoom)
  end
  && (if truthy (c_expected_students course)
      then or_zero (c_expected_students course) <=? r_capacity r
      else true).

(** The key the suitable rooms are ordered by: the seats in excess of the
    expected enrollment, or the capacity when no enrollment is given. *)
Definition room_order_key (course : Course) (r : Room) : Z :=
  if truthy (c_expected_students course)
  then Z.abs (r_capacity r - or_zero (c_expected_students course))
  else r_capacity r.

Definition is_lab (c : Course) : bool := bool_decide (c_type c = Lab).

(** A free candidate of [get_available_time_slots]: a start on the grid of
    the window whose slot ends inside the window and overlaps no booking. *)
Definition free_candidate (duration_minutes : Z) (existing_slots : list (time * time))
    (day_start day_end : time) (step_minutes m : Z) : Prop :=
  time_to_minutes day_start <= m
  /\ m + duration_minutes <= time_to_minutes day_end
  /\ (m - time_to_minutes day_start) mod step_minutes = 0
  /\ forall b, In b existing_slots ->
               ~ (Z.max m (time_to_minutes (fst b))
                  < Z.min (m + duration_minutes) (time_to_minutes (snd b))).

(** ** Sample data *)

Definition oracle_plain : Oracle :=
  {| shuffle_courses := fun _ l => l;
     shuffle_days := fun _ l => l;
     clock := fun _ => 0%Q;
     commit_fault := fun _ => None |}.

(** An oracle whose course shuffle reverses the list. *)
Definition oracle_reversing : Oracle :=
  {| shuffle_courses := fun _ l => rev l;
     shuffle_days := fun _ l => l;
     clock := fun _ => 0%Q;
     commit_fault := fun _ => None |}.

Definition algebra : Course :=
  {| c_id := 1; c_name := "Algebra"; c_type := Theory; c_programme_id := 1;
     c_semester_id := 1; c_expected_students := Some 50 |}.

Definition logic : Course :=
  {| c_id := 2; c_name := "Logic"; c_type := Theory; c_programme_id := 1;
     c_semester_id := 1; c_expected_students := None |}.

Definition hall : Room :=
  {| r_id := 1; r_capacity := 30; r_type := LectureHall |}.

Definition aula : Room :=
  {| r_id := 2; r_capacity := 80; r_type := LectureHall |}.

Definition ada_with (max_hours : Z) : Instructor :=
  {| i_id := 1; i_department_id := 1; i_max_hours_per_week := max_hours |}.

Definition ada : Instructor := ada_with 20.

Definition sample_catalog_with (avail : list InstructorAvailability)
    (regs : list TimetableConstraint) (ada_max : Z) : Catalog :=
  {| programmes := [{| p_id := 1; p_department_id := 1 |}];
     courses := [algebra; logic];
     instructors := [ada_with ada_max];
     rooms := [hall; aula];
     instructor_availability := avail;
     instructor_preference := [];
     timetable_constraint := regs |}.

Definition sample_catalog : Catalog := sample_catalog_with [] [] 20.

Definition generator_of (d : Catalog) (strat : OptimizationStrategyEnum)
    (respect clear : bool) (max_iter time_limit : Z) : TimetableGenerator :=
  fst (TimetableGenerator_init d 1 strat [] [] respect clear max_iter time_limit []).

Definition sample_generator (strat : OptimizationStrategyEnum) (max_iter time_limit : Z)
  : TimetableGenerator :=
  generator_of sample_catalog strat true false max_iter time_limit.

Definition sample_state (tt : list Timetable) : RunState :=
  snd (TimetableGenerator_init sample_catalog 1 balanced [] [] true false 1000 300 tt).


Definition hard_max_hours : TimetableConstraint :=
  {| tc_name := "Weekly maximum"; tc_constraint_type := "InstructorMaxHours";
     tc_is_hard_constraint := true; tc_weight := 1; tc_parameters := None |}.

(** A stored booking of one hour for instructor 1 and a course outside the
    catalogue. *)
Definition stored_hour : Timetable :=
  {| t_course_id := 99; t_instructor_id := 1; t_room_id := 7; t_day := Friday;
     t_start_time := Time 8 0 0 0; t_end_time := Time 9 0 0 0; t_semester_id := 1 |}.

Definition monday_unavailable : InstructorAvailability :=
  {| ia_instructor_id := 1; ia_day := Monday; ia_start_time := Time 10 0 0 0;
     ia_end_time := Time 12 0 0 0; ia_is_available := false |}.

Definition monday_8_to_9 : Slot :=
  {| slot_day := Monday; slot_start_time := Time 8 0 0 0; slot_end_time := Time 9 0 0 0 |}.

Definition chemistry_lab : Course :=
  {| c_id := 3; c_name := "Chemistry lab"; c_type := Lab; c_programme_id := 1;
     c_semester_id := 1; c_expected_students := Some 20 |}.

(** Bookings of Algebra and of Logic in the scope, for instructor 1. *)
Definition algebra_hour : Timetable :=
  {| t_course_id := 1; t_instructor_id := 1; t_room_id := 2; t_day := Monday;
     t_start_time := Time 8 0 0 0; t_end_time := Time 9 0 0 0; t_semester_id := 1 |}.

Definition logic_hour : Timetable :=
  {| t_course_id := 2; t_instructor_id := 1; t_room_id := 1; t_day := Monday;
     t_start_time := Time 9 0 0 0; t_end_time := Time 10 0 0 0; t_semester_id := 1 |}.

(** Rows that record instructor 1 as available from 9 to 12 on each of the
    six teaching days. *)
Definition mornings : list InstructorAvailability :=
  map (fun day => {| ia_instructor_id := 1; ia_day := day;
                     ia_start_time := Time 9 0 0 0; ia_end_time := Time 12 0 0 0;
                     ia_is_available := true |})
      [Monday; Tuesday; Wednesday; Thursday; Friday; Saturday].

(** ** The router (routers/timetable.py)

    The manual entry of a booking and the conflict report read and write the
    same [Timetable] table as the generator.  [time_to_minutes] and
    [check_time_overlap] of the router are the functions of the generator,
    word for word. *)

(** The test of the [or_(and_(...), and_(...), and_(...))] filter of
    [create_timetable_entry]: a stored booking from [s] to [e] against a new
    one from [new_start] to [new_end].  SQL compares the TIME values in their
    order. *)
Definition sql_overlap (s e new_start new_end : time) : bool :=
  (time_leb s new_start && time_ltb new_start e)
  || (time_ltb s new_end && time_leb new_end e)
  || (time_leb new_start s && time_leb e new_end).

(** The validator of [TimetableCreate] in schemas.py, for an entry whose
    [start_time] is among the validated values: [None] stands for the
    [ValueError]. *)
Definition end_time_must_be_after_start_time (start_time v : time) : option time :=
  if time_leb v start_time then None else Some v.

(** The truth value of what [.first()] returns. *)
Definition found {A} (o : option A) : bool :=
  match o with Some _ => true | None => false end.

Record HTTPException := {
  status_code : Z;
  detail : string
}.

(** What the messages are made of besides fixed text: the [name] column of
    [Room], which the generator never reads, and the texts Python gives for a
    day and a time inside an f-string. *)
Record Rendering := {
  room_name : Room -> string;
  render_day : Day -> string;
  render_time : time -> string
}.

Definition room_type_text (t : RoomType) : string :=
  match t with LectureHall => "Lecture Hall" | LabRoom => "Lab" end.

Definition course_type_text (t : CourseType) : string :=
  match t with Theory => "Theory" | Lab => "Lab" end.

(** [create_timetable_entry]: the stored table after the call and either the
    raised [HTTPException] or the created row.  [semesters] is the list of
    the ids of the [Semester] table. *)
Definition create_timetable_entry (d : Catalog) (semesters : list Z) (txt : Rendering)
    (entry : Timetable) (table : list Timetable)
  : (HTTPException + Timetable) * list Timetable :=
  match List.find (fun c => c_id c =? t_course_id entry) (courses d) with
  | None => (inl {| status_code := 404; detail := "Course not found" |}, table)
  | Some course =>
  match List.find (fun i => i_id i =? t_instructor_id entry) (instructors d) with
  | None => (inl {| status_code := 404; detail := "Instructor not found" |}, table)
  | Some instructor =>
  match List.find (fun r => r_id r =? t_room_id entry) (rooms d) with
  | None => (inl {| status_code := 404; detail := "Room not found" |}, table)
  | Some room =>
  if negb (mem (t_semester_id entry) semesters)
  then (inl {| status_code := 404; detail := "Semester not found" |}, table)
  else
    let when :=
      " on " ++ render_day txt (t_day entry) ++ " at time "
      ++ render_time txt (t_start_time entry) ++ "-"
      ++ render_time txt (t_end_time entry) in
    let room_conflict :=
      List.find (fun b => (t_room_id b =? t_room_id entry)
                          && bool_decide (t_day b = t_day entry)
                          && (t_semester_id b =? t_semester_id entry)
                          && sql_overlap (t_start_time b) (t_end_time b)
                                         (t_start_time entry) (t_end_time entry))
                table in
    if found room_conflict
    then (inl {| status_code := 400;
                 detail := "Room conflict detected for " ++ room_name txt room ++ when |},
          table)
    else
      let instructor_conflict :=
        List.find (fun b => (t_instructor_id b =? t_instructor_id entry)
                            && bool_decide (t_day b = t_day entry)
                            && (t_semester_id b =? t_semester_id entry)
                            && sql_overlap (t_start_time b) (t_end_time b)
                                           (t_start_time entry) (t_end_time entry))
                  table in
      if found instructor_conflict
      then (inl {| status_code := 400;
                   detail := "Instructor conflict detected" ++ when |}, table)
      else
        if (bool_decide (c_type course = Lab)
            && negb (bool_decide (r_type room = LabRoom)))
           || (bool_decide (c_type course = Theory)
               && bool_decide (r_type room = LabRoom)
               && negb (bool_decide (r_type room = LectureHall)))
        then (inl {| status_code := 400;
                     detail := "Room type (" ++ room_type_text (r_type room)
                               ++ ") does not match course type ("
                               ++ course_type_text (c_type course) ++ ")" |}, table)
        else (inr entry, (table ++ [entry])%list)
  end end end.

Definition times_valid (b : Timetable) : Prop :=
  valid_time (t_start_time b) /\ valid_time (t_end_time b).

(** ** Sample data of the manual entry *)

Definition digit (n : Z) : string :=
  match n with
  | 0 => "0" | 1 => "1" | 2 => "2" | 3 => "3" | 4 => "4"
  | 5 => "5" | 6 => "6" | 7 => "7" | 8 => "8" | _ => "9"
  end.

Definition two_digits (n : Z) : string := digit (n / 10) ++ digit (n mod 10).

(** Days by their names, times as [HH:MM:SS] (the microseconds, which Python
    prints when they are not zero, are left out of the sample). *)
Definition sample_rendering : Rendering :=
  {| room_name := fun r => if r_id r =? 1 then "Hall" else "Aula";
     render_day := fun day =>
       match day with
       | Monday => "Monday" | Tuesday => "Tuesday" | Wednesday => "Wednesday"
       | Thursday => "Thursday" | Friday => "Friday" | Saturday => "Saturday"
       | Sunday => "Sunday"
       end;
     render_time := fun t => two_digits (hour t) ++ ":" ++ two_digits (minute t)
                             ++ ":" ++ two_digits (second t) |}.

(** Algebra with instructor 1 in the hall, the hour after [stored_hour]. *)
Definition manual_hour : Timetable :=
  {| t_course_id := 1; t_instructor_id := 1; t_room_id := 1; t_day := Friday;
     t_start_time := Time 9 0 0 0; t_end_time := Time 10 0 0 0; t_semester_id := 1 |}.

(** The rows a submitted entry refers to, as [create_timetable_entry] looks
    them up. *)
Definition entry_course (d : Catalog) (entry : Timetable) : option Course :=
  List.find (fun c => c_id c =? t_course_id entry) (courses d).

Definition entry_instructor (d : Catalog) (entry : Timetable) : option Instructor :=
  List.find (fun i => i_id i =? t_instructor_id entry) (instructors d).

Definition entry_room (d : Catalog) (entry : Timetable) : option Room :=
  List.find (fun r => r_id r =? t_room_id entry) (rooms d).

(** A referenced row is missing. *)
Definition reference_missing (d : Catalog) (semesters : list Z) (entry : Timetable) : Prop :=
  entry_course d entry = None \/ entry_instructor d entry = None
  \/ entry_room d entry = None \/ ~ In (t_semester_id entry) semesters.

(** ** The conflict check of the router *)

(** A row of the [timetable] table with its primary key. *)
Definition StoredRow : Type := Z * Timetable.

(** The dictionaries [check_timetable_conflicts] collects. *)
Record ConflictDict := {
  cd_conflict_type : string;
  cd_entity_type : string;
  cd_entity_id : Z;
  cd_entity_name : string;
  cd_entries : list Z;
  cd_day : Day;
  cd_time : string;
  cd_details : string
}.

(** The dictionary it returns. *)
Record ConflictsReport := {
  rep_semester_id : Z;
  rep_total_entries : Z;
  rep_conflicts_found : Z;
  rep_conflicts : list ConflictDict
}.

(** [entries_by_day[day].append(entry)], after the key has been added when it
    was missing: a Python dict keeps its keys in the order in which they were
    first inserted. *)
Fixpoint append_to_day (day : Day) (entry : StoredRow)
    (by_day : list (Day * list StoredRow)) : list (Day * list StoredRow) :=
  match by_day with
  | [] => [(day, [entry])]
  | (k, day_entries) :: rest =>
      if bool_decide (k = day)
      then (k, (day_entries ++ [entry])%list) :: rest
      else (k, day_entries) :: append_to_day day entry rest
  end.

Definition entries_by_day (entries : list StoredRow) : list (Day * list StoredRow) :=
  foldl (fun by_day entry => append_to_day (t_day (snd entry)) entry by_day) [] entries.

(** routers/timetable.py does not import [User]: evaluating the name raises. *)
Definition name_error : string := "name 'User' is not defined".

(** The body of the two inner loops for one pair of entries of a day: the
    dictionaries it appends, or the exception it raises. *)
Definition pair_conflicts (d : Catalog) (txt : Rendering) (day : Day)
    (entry1 entry2 : StoredRow) : Result (list ConflictDict) :=
  if check_time_overlap (t_start_time (snd entry1)) (t_end_time (snd entry1))
                        (t_start_time (snd entry2)) (t_end_time (snd entry2))
  then
    let period := render_time txt (t_start_time (snd entry1)) ++ "-"
                  ++ render_time txt (t_end_time (snd entry1)) in
    let room_conflicts :=
      if t_room_id (snd entry1) =? t_room_id (snd entry2)
      then
        let room := List.find (fun r => r_id r =? t_room_id (snd entry1)) (rooms d) in
        [{| cd_conflict_type := "RoomConflict";
            cd_entity_type := "Room";
            cd_entity_id := t_room_id (snd entry1);
            cd_entity_name := match room with
                              | Some r => room_name txt r
                              | None => "Unknown Room"
                              end;
            cd_entries := [fst entry1; fst entry2];
            cd_day := day;
            cd_time := period;
            cd_details := "Room " ++ match room with
                                     | Some r => room_name txt r
                                     | None => "Unknown"
                                     end ++ " is double-booked" |}]
      else [] in
    if t_instructor_id (snd entry1) =? t_instructor_id (snd entry2)
    then
      match List.find (fun i => i_id i =? t_instructor_id (snd entry1)) (instructors d) with
      | Some _ => Raise name_error
      | None =>
          Ok (room_conflicts ++
              [{| cd_conflict_type := "InstructorConflict";
                  cd_entity_type := "Instructor";
                  cd_entity_id := t_instructor_id (snd entry1);
                  cd_entity_name := "Unknown Instructor";
                  cd_entries := [fst entry1; fst entry2];
                  cd_day := day;
                  cd_time := period;
                  cd_details := "Instructor Unknown is double-booked" |}])%list
      end
    else Ok room_conflicts
  else Ok [].

(** [for i, entry1 in enumerate(day_entries): for j in range(i + 1, ...)]. *)
Fixpoint day_conflicts (d : Catalog) (txt : Rendering) (day : Day)
    (day_entries : list StoredRow) : Result (list ConflictDict) :=
  match day_entries with
  | [] => Ok []
  | entry1 :: later =>
      match collect (pair_conflicts d txt day entry1) later with
      | Raise msg => Raise msg
      | Ok found_here =>
          match day_conflicts d txt day later with
          | Raise msg => Raise msg
          | Ok found_later => Ok (found_here ++ found_later)%list
          end
      end
  end.

Definition check_timetable_conflicts (d : Catalog) (txt : Rendering) (semester_id : Z)
    (table : list StoredRow) : Result ConflictsReport :=
  let entries := List.filter (fun e => t_semester_id (snd e) =? semester_id) table in
  match collect (fun group => day_conflicts d txt (fst group) (snd group))
                (entries_by_day entries) with
  | Raise msg => Raise msg
  | Ok conflicts =>
      Ok {| rep_semester_id := semester_id;
            rep_total_entries := Z.of_nat (length entries);
            rep_conflicts_found := Z.of_nat (length conflicts);
            rep_conflicts := conflicts |}
  end.

(** Two bookings of the scope of one instructor on one day whose intervals
    overlap. *)
Definition instructor_clashes (scope : Z) (a b : Timetable) : bool :=
  (t_semester_id a =? scope) && (t_semester_id b =? scope)
  && bool_decide (t_day a = t_day b)
  && (t_instructor_id a =? t_instructor_id b)
  && check_time_overlap (t_start_time a) (t_end_time a)
                        (t_start_time b) (t_end_time b).

(** Sample rows: two bookings of instructor 1 on Friday from 8 to 9, in
    rooms 7 and 1. *)
Definition double_hour : Timetable :=
  {| t_course_id := 1; t_instructor_id := 1; t_room_id := 1; t_day := Friday;
     t_start_time := Time 8 0 0 0; t_end_time := Time 9 0 0 0; t_semester_id := 1 |}.

(** The entries of a day. *)
Definition on_day (day : Day) (e : StoredRow) : bool :=
  bool_decide (t_day (snd e) = day).

(** What [entries_by_day] holds after the entries [seen]: a group for each
    day that occurs, with the entries of that day in their order. *)
Definition grouped (by_day : list (Day * list StoredRow)) (seen : list StoredRow) : Prop :=
  List.NoDup (map fst by_day)
  /\ (forall k es, In (k, es) by_day -> es = List.filter (on_day k) seen)
  /\ (forall e, In e seen -> In (t_day (snd e)) (map fst by_day)).

(** What a dictionary of a returned report can be: a room conflict, or an
    instructor conflict about an instructor id that is not stored. *)
Definition reportable (d : Catalog) (c : ConflictDict) : Prop :=
  cd_conflict_type c = "RoomConflict"
  \/ (cd_conflict_type c = "InstructorConflict"
      /\ cd_entity_name c = "Unknown Instructor"
      /\ List.find (fun i => i_id i =? cd_entity_id c) (instructors d) = None).

(** Rows with the primary keys 1, 2, ... *)
Definition number_rows (tt : list Timetable) : list StoredRow :=
  combine (map Z.of_nat (seq 1 (length tt))) tt.

(** A booking that passes the validator of [TimetableCreate]. *)
Definition validated (b : Timetable) : Prop :=
  end_time_must_be_after_start_time (t_start_time b) (t_end_time b) = Some (t_end_time b).

(** The room of the entry is of the kind its course asks for. *)
Definition room_kind_matches (d : Catalog) (entry : Timetable) : Prop :=
  forall course room,
    entry_course d entry = Some course -> entry_room d entry = Some room ->
    (c_type course = Lab <-> r_type room = LabRoom).

(** A booking whose times fall on whole minutes. *)
Definition times_whole (b : Timetable) : Prop :=
  whole_minute (t_start_time b) /\ whole_minute (t_end_time b).

(** A stored booking that ends thirty seconds past nine. *)
Definition seconds_hour : Timetable :=
  {| t_course_id := 99; t_instructor_id := 1; t_room_id := 1; t_day := Friday;
     t_start_time := Time 8 0 0 0; t_end_time := Time 9 0 30 0; t_semester_id := 1 |}.

(** Algebra in the same room, from ten seconds past nine. *)
Definition seconds_entry : Timetable :=
  {| t_course_id := 1; t_instructor_id := 1; t_room_id := 1; t_day := Friday;
     t_start_time := Time 9 0 10 0; t_end_time := Time 10 0 0 0; t_semester_id := 1 |}.

(** * Properties *)

(** ** The monad *)

Lemma bind_inv {A B} (m : M A) (f : A -> M B) st r st' :
  bind m f st = (r, st') ->
  (exists a st1, m st = (Ok a, st1) /\ f a st1 = (r, st'))
  \/ (exists msg, m st = (Raise msg, st') /\ r = Raise msg).
Proof.
  unfold bind. destruct (m st) as [[a | msg] st1]; intros H.
  - left. eauto.
  - right. inversion H; subst. eauto.
Qed.

Lemma same_data_refl st : same_data st st.
Proof.
  exists (shuffles st), (clock_reads st), (commits st). destruct st; reflexivity.
Qed.

Lemma same_data_trans st1 st2 st3 :
  same_data st1 st2 -> same_data st2 st3 -> same_data st1 st3.
Proof.
  intros (s & c & k & ->) (s' & c' & k' & ->). exists s', c', k'. reflexivity.
Qed.

Lemma same_data_cursors st s c k : same_data st (set_cursors s c k st).
Proof. now exists s, c, k. Qed.

Lemma same_data_fields st st' :
  same_data st st' ->
  timetable st' = timetable st
  /\ entries_created st' = entries_created st
  /\ conflicts st' = conflicts st
  /\ job st' = job st
  /\ status_log st' = status_log st.
Proof. intros (s & c & k & ->). repeat split. Qed.

(** ** The calls of [datetime.time] *)

Lemma parse_time_raises time_str : parse_time time_str = Raise type_error_unbound.
Proof. unfold parse_time. destruct (split_colon time_str). reflexivity. Qed.

Lemma record_unscheduled_raises kind course what st :
  record_unscheduled kind course what st = (Raise type_error_descriptor, st).
Proof. reflexivity. Qed.

(** ** Overlapping periods *)

Lemma check_time_overlap_sym s1 e1 s2 e2 :
  check_time_overlap s1 e1 s2 e2 = check_time_overlap s2 e2 s1 e1.
Proof. unfold check_time_overlap. now rewrite Z.max_comm, Z.min_comm. Qed.

(** X2: two periods overlap, for [check_time_overlap], exactly when some
    minute lies in both half-open intervals [start, end); the test is
    symmetric in the two periods. *)
Theorem X2_overlap_is_a_shared_minute (start1 end1 start2 end2 : time) :
  (check_time_overlap start1 end1 start2 end2 = true
   <-> exists m, time_to_minutes start1 <= m < time_to_minutes end1
                 /\ time_to_minutes start2 <= m < time_to_minutes end2)
  /\ check_time_overlap start1 end1 start2 end2
     = check_time_overlap start2 end2 start1 end1.
Proof.
  split; [| apply check_time_overlap_sym].
  unfold check_time_overlap. rewrite Z.ltb_lt. split.
  - intros H. exists (Z.max (time_to_minutes start1) (time_to_minutes start2)). lia.
  - intros (m & H1 & H2). lia.
Qed.

(** ** The range of candidate starts *)

Lemma ceil_div_bound (n step : Z) (k : nat) :
  0 < step ->
  (k < Z.to_nat ((n + step - 1) / step))%nat <-> Z.of_nat k * step < n.
Proof.
  intros Hs. split.
  - intros Hk.
    assert (Hq : Z.of_nat k < (n + step - 1) / step) by lia.
    assert (Hle : (Z.of_nat k + 1) * step <= n + step - 1).
    { pose proof (Z.mul_div_le (n + step - 1) step Hs).
      assert (Z.of_nat k + 1 <= (n + step - 1) / step) by lia. nia. }
    lia.
  - intros Hk.
    assert (Hq : Z.of_nat k + 1 <= (n + step - 1) / step).
    { apply Z.div_le_lower_bound; [exact Hs | lia]. }
    lia.
Qed.

Lemma in_py_range (start stop step x : Z) :
  0 < step ->
  In x (py_range start stop step)
  <-> start <= x < stop /\ (x - start) mod step = 0.
Proof.
  intros Hs. unfold py_range. rewrite in_map_iff. split.
  - intros (k & <- & Hk). apply in_seq in Hk. destruct Hk as [_ Hk]. simpl in Hk.
    apply (ceil_div_bound (stop - start) step k Hs) in Hk.
    replace (start + Z.of_nat k * step - start) with (Z.of_nat k * step) by lia.
    rewrite Z.mod_mul by lia. split; [nia | reflexivity].
  - intros [[Hlo Hhi] Hmod].
    apply Z.mod_divide in Hmod; [| lia]. destruct Hmod as [q Hq].
    assert (Hq0 : 0 <= q) by nia.
    exists (Z.to_nat q). split; [rewrite Z2Nat.id by lia; lia |].
    apply in_seq. split; [lia |]. simpl.
    apply (ceil_div_bound (stop - start) step (Z.to_nat q) Hs).
    rewrite Z2Nat.id by lia. lia.
Qed.

Lemma length_py_range (start stop step : Z) :
  length (py_range start stop step) = Z.to_nat ((stop - start + step - 1) / step).
Proof. unfold py_range. now rewrite length_map, length_seq. Qed.

(** ** Free slots of a window *)

Lemma slot_free_spec duration existing_slots m :
  slot_free (map (fun '(s, e) => (time_to_minutes s, time_to_minutes e)) existing_slots)
            m (m + duration) = true
  <-> forall b, In b existing_slots ->
                ~ (Z.max m (time_to_minutes (fst b))
                   < Z.min (m + duration) (time_to_minutes (snd b))).
Proof.
  unfold slot_free. rewrite forallb_forall. split.
  - intros H [s e] Hb. simpl.
    specialize (H (time_to_minutes s, time_to_minutes e)). simpl in H.
    apply negb_true_iff, Z.ltb_ge in H; [lia |].
    apply in_map_iff. exists (s, e). auto.
  - intros H [es ee] Hb. apply in_map_iff in Hb.
    destruct Hb as ([s e] & Heq & Hb). inversion Heq; subst.
    specialize (H (s, e) Hb). simpl in H.
    apply negb_true_iff, Z.ltb_ge. lia.
Qed.

Lemma available_from_cases duration existing starts :
  available_from duration existing starts
  = if existsb (fun m => slot_free existing m (m + duration)) starts
    then Raise type_error_unbound
    else Ok [].
Proof.
  induction starts as [| m starts IH]; simpl; [reflexivity |].
  destruct (slot_free existing m (m + duration)); simpl; [reflexivity | exact IH].
Qed.

Lemma available_slots_cases day duration existing_slots day_start day_end step :
  0 < step ->
  (get_available_time_slots day duration existing_slots day_start day_end step
   = Raise type_error_unbound
   /\ exists m, free_candidate duration existing_slots day_start day_end step m)
  \/ (get_available_time_slots day duration existing_slots day_start day_end step = Ok []
      /\ forall m, ~ free_candidate duration existing_slots day_start day_end step m).
Proof.
  intros Hs. unfold get_available_time_slots. cbv zeta.
  rewrite available_from_cases.
  destruct (existsb _ _) eqn:E.
  - left. split; [reflexivity |].
    apply existsb_exists in E. destruct E as (m & Hr & Hfree).
    apply (in_py_range _ _ _ _ Hs) in Hr. destruct Hr as [[Hlo Hhi] Hmod].
    exists m. unfold free_candidate. repeat split; try lia.
    now apply slot_free_spec.
  - right. split; [reflexivity |].
    intros m (Hlo & Hhi & Hmod & Hfree).
    assert (Hex : existsb (fun m => slot_free
                     (map (fun '(s, e) => (time_to_minutes s, time_to_minutes e))
                          existing_slots) m (m + duration))
                   (py_range (time_to_minutes day_start)
                             (time_to_minutes day_end - duration + 1) step) = true).
    { apply existsb_exists. exists m. split.
      - apply (in_py_range _ _ _ _ Hs). lia.
      - now apply slot_free_spec. }
    congruence.
Qed.

(** X3: [get_available_time_slots] never returns a slot.  For a positive
    step it returns the empty list when the window has no free candidate (a
    start on the grid of the window whose slot ends inside the window and
    overlaps no booking), and raises the [TypeError] of [minutes_to_time] as
    soon as there is one. *)
Theorem X3_available_slots_never_returned
    day duration existing_slots day_start day_end step :
  0 < step ->
  (get_available_time_slots day duration existing_slots day_start day_end step
   = Raise type_error_unbound
   <-> exists m, free_candidate duration existing_slots day_start day_end step m)
  /\ (get_available_time_slots day duration existing_slots day_start day_end step = Ok []
      <-> forall m, ~ free_candidate duration existing_slots day_start day_end step m)
  /\ (forall slots,
        get_available_time_slots day duration existing_slots day_start day_end step
        = Ok slots -> slots = []).
Proof.
  intros Hs.
  destruct (available_slots_cases day duration existing_slots day_start day_end step Hs)
    as [[-> Hex] | [-> Hnone]].
  - split; [split; [intros _; exact Hex | reflexivity] |].
    split; [split; [discriminate |] | discriminate].
    intros Hall. destruct Hex as (m & Hm). exfalso. exact (Hall m Hm).
  - split; [split; [discriminate |] |].
    + intros (m & Hm). exfalso. exact (Hnone m Hm).
    + split; [split; [intros _; exact Hnone | reflexivity] |].
      intros slots H. now inversion H.
Qed.

Lemma X3_witness :
  get_available_time_slots Monday 60 [] (Time 8 0 0 0) (Time 17 0 0 0) 30
  = Raise type_error_unbound
  /\ get_available_time_slots Monday 60 [(Time 8 0 0 0, Time 17 0 0 0)]
       (Time 8 0 0 0) (Time 17 0 0 0) 30 = Ok [].
Proof.
  split.
  - apply (X3_available_slots_never_returned Monday 60 [] (Time 8 0 0 0) (Time 17 0 0 0) 30);
      [lia |].
    exists 480. unfold free_candidate, time_to_minutes. simpl.
    repeat split; first [lia | intros b []].
  - destruct (X3_available_slots_never_returned Monday 60
                [(Time 8 0 0 0, Time 17 0 0 0)] (Time 8 0 0 0) (Time 17 0 0 0) 30)
      as (_ & _ & H); [lia |].
    destruct (get_available_time_slots Monday 60 [(Time 8 0 0 0, Time 17 0 0 0)]
                (Time 8 0 0 0) (Time 17 0 0 0) 30) as [slots | msg] eqn:E.
    + now rewrite (H slots eq_refl).
    + vm_compute in E. discriminate.
Defined.

(** ** The availability of an instructor *)

Lemma filter_nil_iff {A} (f : A -> bool) (l : list A) :
  List.filter f l = [] <-> forall a, In a l -> f a = false.
Proof.
  induction l as [| x l IH]; simpl; [tauto |].
  destruct (f x) eqn:Hx; split.
  - discriminate.
  - intros H. specialize (H x (or_introl eq_refl)). congruence.
  - intros H a [<- | Ha]; [assumption | now apply IH].
  - intros H. apply IH. intros a Ha. apply H. now right.
Qed.

Lemma default_hours_teaching day : default_hours_set day = teaching_day day.
Proof. destruct day; reflexivity. Qed.

Lemma teaching_day_not_sunday day : teaching_day day = true <-> day <> Sunday.
Proof.
  destruct day; split; intros H;
    first [discriminate | reflexivity | exfalso; vm_compute in H; congruence].
Qed.

Lemma fill_defaults_cases result days :
  fill_defaults result days
  = if existsb (fun day => negb (nonempty (result day)) && default_hours_set day) days
    then Raise type_error_unbound
    else Ok result.
Proof.
  induction days as [| day days IH]; simpl; [reflexivity |].
  destruct (negb (nonempty (result day)) && default_hours_set day); simpl.
  - now rewrite parse_time_raises.
  - exact IH.
Qed.

Lemma availability_cases self instructor_id :
  _get_instructor_availability self instructor_id
  = if existsb (fun day => negb (nonempty (recorded_availability self instructor_id day))
                           && default_hours_set day) all_days
    then Raise type_error_unbound
    else Ok (recorded_availability self instructor_id).
Proof. apply fill_defaults_cases. Qed.

Lemma recorded_availability_ignores self instructor_id day :
  recorded_availability (without_unavailable_rows self) instructor_id day
  = recorded_availability self instructor_id day.
Proof.
  unfold recorded_availability, without_unavailable_rows. simpl. f_equal. f_equal.
  induction (instructor_availability (db self)) as [| a l IH]; simpl; [reflexivity |].
  destruct (ia_is_available a) eqn:Ha; simpl;
    rewrite ?Ha, ?andb_false_r, ?IH; reflexivity.
Qed.

Lemma recorded_availability_unavailable self instructor_id day :
  (forall a, In a (instructor_availability (db self)) ->
             ia_instructor_id a = instructor_id -> ia_day a = day ->
             ia_is_available a = false) ->
  recorded_availability self instructor_id day = [].
Proof.
  intros H. unfold recorded_availability.
  replace (List.filter _ (List.filter _ _)) with (@nil InstructorAvailability);
    [reflexivity |].
  symmetry. apply filter_nil_iff. intros a Ha.
  apply filter_In in Ha. destruct Ha as [Ha Hb].
  apply andb_prop in Hb. destruct Hb as [Hid Hav].
  apply Z.eqb_eq in Hid. apply bool_decide_eq_false. intros Hd.
  rewrite (H a Ha Hid Hd) in Hav. discriminate.
Qed.

Lemma availability_without_window self instructor_id day :
  recorded_availability self instructor_id day = [] ->
  day <> Sunday ->
  _get_instructor_availability self instructor_id = Raise type_error_unbound.
Proof.
  intros Hnil Hday. rewrite availability_cases.
  replace (existsb _ all_days) with true; [reflexivity |].
  symmetry. apply existsb_exists. exists day. split.
  - destruct day; simpl; tauto.
  - rewrite Hnil, default_hours_teaching. simpl.
    now apply teaching_day_not_sunday.
Qed.

(** C10: the availability rows marked unavailable are never read, and for a
    teaching day whose recorded windows are all marked unavailable the
    per-day fallback fires.  The fallback builds the default window of the
    day with [parse_time], whose call of [datetime.time] raises: the
    availability of such an instructor is never returned, with these rows or
    without them. *)
Theorem C10_availability_fallback_raises self instructor_id day :
  (forall a, In a (instructor_availability (db self)) ->
             ia_instructor_id a = instructor_id -> ia_day a = day ->
             ia_is_available a = false) ->
  day <> Sunday ->
  recorded_availability self instructor_id day = []
  /\ _get_instructor_availability self instructor_id = Raise type_error_unbound
  /\ _get_instructor_availability (without_unavailable_rows self) instructor_id
     = Raise type_error_unbound.
Proof.
  intros H Hday.
  pose proof (recorded_availability_unavailable self instructor_id day H) as Hnil.
  repeat split; [exact Hnil | |];
    apply (availability_without_window _ instructor_id day); try assumption.
  now rewrite recorded_availability_ignores.
Qed.

Lemma C10_witness :
  _get_instructor_availability
    (generator_of (sample_catalog_with [monday_unavailable] [] 20)
                  balanced true false 1000 300) 1
  = Raise type_error_unbound.
Proof.
  apply (C10_availability_fallback_raises
           (generator_of (sample_catalog_with [monday_unavailable] [] 20)
                         balanced true false 1000 300) 1 Monday).
  - intros a [<- | []] _ _. reflexivity.
  - discriminate.
Defined.

(** ** The slot finder *)

Lemma find_in_days_cases self tt course instructor room avail days :
  find_in_days self tt course instructor room avail days
  = if existsb teaching_day days then Raise type_error_unbound else Ok None.
Proof.
  induction days as [| day days IH]; simpl; [reflexivity |].
  unfold teaching_day at 1.
  destruct (String.eqb (h_start (DEFAULT_TEACHING_HOURS day)) "00:00"); simpl.
  - exact IH.
  - now rewrite parse_time_raises.
Qed.

Lemma find_time_slot_cases self o course instructor room st :
  _find_time_slot self o course instructor room st
  = match _get_instructor_availability self (i_id instructor) with
    | Raise msg => (Raise msg, st)
    | Ok _ =>
        (if existsb teaching_day (shuffle_days o (shuffles st) all_days)
         then Raise type_error_unbound else Ok None,
         set_cursors (S (shuffles st)) (clock_reads st) (commits st) st)
    end.
Proof.
  unfold _find_time_slot, bind, lift, random_shuffle_days, get_state.
  destruct (_get_instructor_availability self (i_id instructor)); [| reflexivity].
  simpl. now rewrite find_in_days_cases.
Qed.

(** The slot finder never returns a slot: it returns nothing, or raises. *)
Lemma find_time_slot_result self o course instructor room st r st' :
  _find_time_slot self o course instructor room st = (r, st') ->
  same_data st st' /\ (r = Ok None \/ r = Raise type_error_unbound).
Proof.
  rewrite find_time_slot_cases, availability_cases.
  destruct (existsb _ all_days).
  - intros H. inversion H; subst. split; [apply same_data_refl | now right].
  - destruct (existsb teaching_day _); intros H; inversion H; subst;
      (split; [apply same_data_cursors | auto]).
Qed.

Lemma shuffled_days_teach o n :
  oracle_fair o -> existsb teaching_day (shuffle_days o n all_days) = true.
Proof.
  intros [_ Hfair]. apply existsb_exists. exists Monday. split; [| reflexivity].
  apply (Permutation_in Monday (Permutation_sym (Hfair n all_days))).
  now left.
Qed.

Lemma find_time_slot_raises self o course instructor room st :
  oracle_fair o ->
  exists st', _find_time_slot self o course instructor room st
              = (Raise type_error_unbound, st')
              /\ same_data st st'.
Proof.
  intros Hfair. rewrite find_time_slot_cases, availability_cases.
  destruct (existsb _ all_days).
  - exists st. split; [reflexivity | apply same_data_refl].
  - rewrite (shuffled_days_teach o _ Hfair).
    eexists. split; [reflexivity | apply same_data_cursors].
Qed.

Lemma oracle_plain_fair : oracle_fair oracle_plain.
Proof. split; intros n l; apply Permutation_refl. Qed.

Lemma oracle_reversing_fair : oracle_fair oracle_reversing.
Proof.
  split; intros n l; simpl; [| apply Permutation_refl].
  apply Permutation_sym, Permutation_rev.
Qed.

(** C4: [_find_time_slot] returns neither a window nor none.  Whatever the
    course, the instructor, the room and the ledger, and whatever the
    permutation of the days the shuffle gives, the call raises the
    [TypeError] of [datetime.time(hour=..., minute=...)]: in the fallback of
    the availability when a teaching day has no recorded window, and in
    [parse_time] on the first teaching day otherwise.  The entries of the
    ledger and the other data of the run are left as they were. *)
Theorem C4_find_time_slot_raises self o course instructor room st :
  oracle_fair o ->
  exists st',
    _find_time_slot self o course instructor room st = (Raise type_error_unbound, st')
    /\ same_data st st'.
Proof. apply find_time_slot_raises. Qed.

Lemma C4_witness :
  exists st',
    _find_time_slot
      (generator_of (sample_catalog_with mornings [] 20) balanced true false 1000 300)
      oracle_plain algebra ada aula (sample_state [])
    = (Raise type_error_unbound, st')
    /\ same_data (sample_state []) st'.
Proof.
  apply (C4_find_time_slot_raises
           (generator_of (sample_catalog_with mornings [] 20)
                         balanced true false 1000 300)
           oracle_plain algebra ada aula (sample_state [])).
  exact oracle_plain_fair.
Defined.

(** ** The commit step, case by case *)

Lemma create_entry_cases self o course instructor room slot st r st' :
  _create_timetable_entry self o course instructor room slot st = (r, st') ->
  let violated := _check_constraints self (timetable st) course instructor room slot in
  (exists k, List.find (is_hard_registered self) violated = Some k
             /\ r = Ok None
             /\ st' = set_conflicts (conflicts st ++ [constraint_conflict course slot k]) st)
  \/ (List.find (is_hard_registered self) violated = None
      /\ commit_fault o (commits st) = None
      /\ r = Ok (Some (new_entry self course instructor room slot))
      /\ st' = set_entries_created (entries_created st + 1)
                 (set_timetable
                    (timetable st ++ [new_entry self course instructor room slot])
                    (set_cursors (shuffles st) (clock_reads st) (S (commits st)) st)))
  \/ (exists msg, List.find (is_hard_registered self) violated = None
                  /\ commit_fault o (commits st) = Some msg
                  /\ r = Raise msg
                  /\ st' = set_cursors (shuffles st) (clock_reads st) (S (commits st)) st).
Proof.
  unfold _create_timetable_entry, bind, get_state, add_conflict, modify, ret, db_commit.
  cbn zeta.
  destruct (List.find _ _) as [k |] eqn:Hfind.
  - intros H; inversion H; subst. left. eauto.
  - destruct (commit_fault o (commits st)) as [msg |] eqn:Hfault;
      intros H; inversion H; subst.
    + right; right. eauto.
    + right; left. auto.
Qed.

(** ** Sorting keeps the elements *)

Lemma in_insert_by {A} (le : A -> A -> bool) (x y : A) (l : list A) :
  In x (insert_by le y l) <-> x = y \/ In x l.
Proof.
  induction l as [| z l IH]; simpl.
  - intuition.
  - destruct (le y z); simpl; [intuition |]. rewrite IH. intuition.
Qed.

Lemma in_sort_by {A} (le : A -> A -> bool) (x : A) (l : list A) :
  In x (sort_by le l) <-> In x l.
Proof.
  unfold sort_by. induction l as [| y l IH]; simpl; [tauto |].
  rewrite in_insert_by, IH. intuition.
Qed.

(** ** C1: what blocks the commit step *)

Lemma is_hard_registered_spec self k :
  is_hard_registered self k = true <->
  exists e, constraints self !! k = Some e /\ ce_is_hard e = true.
Proof.
  unfold is_hard_registered. destruct (constraints self !! k) as [e |].
  - split; [eauto | intros (e' & [= <-] & H); exact H].
  - split; [discriminate | intros (e' & [=] & _)].
Qed.

(** C1, as amended: the commit step rejects a candidate assignment (nothing
    stored, a conflict record naming a violated kind appended) if and only if
    some violated constraint kind is registered with [is_hard] true; a
    violated kind that is not registered does not block the commit. *)
Theorem C1_commit_rejected_iff_registered_hard
    self o course instructor room slot st :
  let violated := _check_constraints self (timetable st) course instructor room slot in
  commit_rejected course slot violated st
    (_create_timetable_entry self o course instructor room slot st)
  <-> exists k, In k violated
                /\ exists e, constraints self !! k = Some e /\ ce_is_hard e = true.
Proof.
  intros violated.
  destruct (_create_timetable_entry self o course instructor room slot st)
    as [r st'] eqn:Hrun.
  pose proof (create_entry_cases _ _ _ _ _ _ _ _ _ Hrun) as Hcases.
  fold violated in Hcases. unfold commit_rejected; simpl.
  split.
  - intros (Hr & _ & _ & _).
    destruct Hcases as [(k & Hfind & _) | [(_ & _ & -> & _) | (msg & _ & _ & -> & _)]];
      try discriminate.
    apply find_some in Hfind. destruct Hfind as [Hin Hhard].
    exists k. split; [exact Hin | now apply is_hard_registered_spec].
  - intros (k & Hin & Hhard). apply is_hard_registered_spec in Hhard.
    destruct Hcases as [(k' & Hfind & -> & ->) | [(Hnone & _) | (msg & Hnone & _)]].
    + apply find_some in Hfind. simpl. repeat split; auto. exists k'. tauto.
    + pose proof (find_none _ _ Hnone k Hin). congruence.
    + pose proof (find_none _ _ Hnone k Hin). congruence.
Qed.

(** C1 as stated fails: with no registered definition, a violated kind
    ([RoomCapacity]: 50 students, 30 seats) does not stop the commit. *)
Lemma C1_counterexample :
  ~ (forall self o course instructor room slot st,
        let violated :=
          _check_constraints self (timetable st) course instructor room slot in
        commit_rejected course slot violated st
          (_create_timetable_entry self o course instructor room slot st)
        <-> exists k, In k violated
                      /\ (is_hard_registered self k = true
                          \/ constraints self !! k = None)).
Proof.
  intros H.
  specialize (H (sample_generator balanced 1000 300) oracle_plain
                algebra ada hall monday_8_to_9 (sample_state [])).
  cbv zeta in H. destruct H as [_ H].
  assert (Hv : _check_constraints (sample_generator balanced 1000 300)
                 (timetable (sample_state [])) algebra ada hall monday_8_to_9
               = ["RoomCapacity"]) by (vm_compute; reflexivity).
  rewrite Hv in H.
  destruct H as [Hr _].
  - exists "RoomCapacity". split; [left; reflexivity | right; reflexivity].
  - vm_compute in Hr. discriminate.
Qed.

(** ** An attempted course raises *)

Lemma try_rooms_result self o course instructor rms :
  forall st r st',
  try_rooms self o course instructor rms st = (r, st') ->
  same_data st st' /\ (r = Ok false \/ r = Raise type_error_unbound).
Proof.
  induction rms as [| room rms IH]; intros st r st' Hrun.
  - inversion Hrun; subst. split; [apply same_data_refl | now left].
  - cbn [try_rooms] in Hrun. apply bind_inv in Hrun.
    destruct Hrun as [(slot & st1 & Hfind & Hk) | (msg & Hfind & ->)];
      apply find_time_slot_result in Hfind; destruct Hfind as [Hsame Hr].
    + destruct Hr as [Hr | Hr]; [| discriminate]. inversion Hr; subst slot.
      apply IH in Hk. destruct Hk as [Hsame' Hr'].
      split; [eapply same_data_trans; eassumption | exact Hr'].
    + split; [exact Hsame |]. destruct Hr as [Hr | Hr]; [discriminate | right; now inversion Hr].
Qed.

Lemma try_rooms_raises self o course instructor rms st :
  oracle_fair o -> rms <> [] ->
  fst (try_rooms self o course instructor rms st) = Raise type_error_unbound.
Proof.
  intros Hfair Hrms. destruct rms as [| room rms]; [congruence |].
  cbn [try_rooms]. unfold bind.
  destruct (find_time_slot_raises self o course instructor room st Hfair)
    as (st' & -> & _).
  reflexivity.
Qed.

Lemma try_instructors_result self o course iws rms :
  forall st r st',
  try_instructors self o course iws rms st = (r, st') ->
  same_data st st' /\ (r = Ok false \/ r = Raise type_error_unbound).
Proof.
  induction iws as [| [instructor score] iws IH]; intros st r st' Hrun.
  - inversion Hrun; subst. split; [apply same_data_refl | now left].
  - cbn [try_instructors] in Hrun. apply bind_inv in Hrun.
    destruct Hrun as [(b & st1 & Hrooms & Hk) | (msg & Hrooms & ->)];
      apply try_rooms_result in Hrooms; destruct Hrooms as [Hsame Hr].
    + destruct Hr as [Hr | Hr]; [| discriminate]. inversion Hr; subst b.
      apply IH in Hk. destruct Hk as [Hsame' Hr'].
      split; [eapply same_data_trans; eassumption | exact Hr'].
    + split; [exact Hsame |]. destruct Hr as [Hr | Hr]; [discriminate | right; now inversion Hr].
Qed.

Lemma try_instructors_raises self o course iws rms st :
  oracle_fair o -> iws <> [] -> rms <> [] ->
  fst (try_instructors self o course iws rms st) = Raise type_error_unbound.
Proof.
  intros Hfair Hiws Hrms. destruct iws as [| [instructor score] iws]; [congruence |].
  cbn [try_instructors]. unfold bind.
  pose proof (try_rooms_raises self o course instructor rms st Hfair Hrms) as Hr.
  destruct (try_rooms self o course instructor rms st) as [r st1].
  simpl in Hr. subst r. reflexivity.
Qed.

Lemma nonempty_true {A} (l : list A) : nonempty l = true <-> l <> [].
Proof. destruct l; simpl; split; congruence. Qed.

Lemma schedule_course_unfold self o course st :
  schedule_course self o course st
  = if skip_test self (timetable st) course then (Ok tt, st)
    else if negb (nonempty (_get_suitable_rooms self course))
    then record_unscheduled "NoSuitableRoom" course "No suitable room found for " st
    else if negb (nonempty (_get_suitable_instructors self course))
    then record_unscheduled "NoSuitableInstructor" course
                            "No suitable instructor found for " st
    else bind (try_instructors self o course (_get_suitable_instructors self course)
                               (_get_suitable_rooms self course))
              (fun scheduled : bool =>
                 if scheduled then ret tt
                 else record_unscheduled "NoSuitableTimeSlot" course
                                         "Could not find a suitable time slot for ")
              st.
Proof.
  unfold schedule_course, skip_test, bind at 1, get_state.
  destruct (respect_existing self && negb (clear_existing self)
            && has_entry self (timetable st) course); [reflexivity |].
  destruct (nonempty (_get_suitable_rooms self course)); [| reflexivity].
  destruct (nonempty (_get_suitable_instructors self course)); reflexivity.
Qed.

(** A course is skipped, and the state left alone, or its attempt raises a
    [TypeError] before anything is stored or recorded. *)
Lemma schedule_course_result self o course st r st' :
  schedule_course self o course st = (r, st') ->
  same_data st st'
  /\ (if skip_test self (timetable st) course
      then r = Ok tt /\ st' = st
      else r = Raise type_error_unbound \/ r = Raise type_error_descriptor).
Proof.
  rewrite schedule_course_unfold.
  destruct (skip_test self (timetable st) course).
  - intros H. inversion H; subst. split; [apply same_data_refl | auto].
  - destruct (nonempty (_get_suitable_rooms self course)); simpl negb; cbv iota.
    2:{ rewrite record_unscheduled_raises. intros H. inversion H; subst.
        split; [apply same_data_refl | now right]. }
    destruct (nonempty (_get_suitable_instructors self course)); simpl negb; cbv iota.
    2:{ rewrite record_unscheduled_raises. intros H. inversion H; subst.
        split; [apply same_data_refl | now right]. }
    intros Hrun. apply bind_inv in Hrun.
    destruct Hrun as [(b & st1 & Htry & Hk) | (msg & Htry & ->)];
      apply try_instructors_result in Htry; destruct Htry as [Hsame Hr].
    + destruct Hr as [Hr | Hr]; [| discriminate]. inversion Hr; subst b.
      rewrite record_unscheduled_raises in Hk. inversion Hk; subst.
      split; [exact Hsame | now right].
    + split; [exact Hsame |].
      destruct Hr as [Hr | Hr]; [discriminate | left; now inversion Hr].
Qed.

Lemma schedule_course_raises self o course st :
  oracle_fair o ->
  skip_test self (timetable st) course = false ->
  fst (schedule_course self o course st) = Raise (attempt_error self course).
Proof.
  intros Hfair Hskip.
  rewrite schedule_course_unfold, Hskip. unfold attempt_error.
  destruct (nonempty (_get_suitable_rooms self course)) eqn:Hrooms; simpl negb; cbv iota;
    [| reflexivity].
  destruct (nonempty (_get_suitable_instructors self course)) eqn:Hinstr; simpl negb;
    cbv iota; [| reflexivity].
  simpl andb. cbv iota. unfold bind.
  apply nonempty_true in Hrooms, Hinstr.
  pose proof (try_instructors_raises self o course _ _ st Hfair Hinstr Hrooms) as Hr.
  destruct (try_instructors self o course _ _ st) as [r st1].
  simpl in Hr. subst r. reflexivity.
Qed.

(** ** The loop over the courses *)

Lemma course_loop_result self o start_time cs :
  forall iteration st r st',
  course_loop self o start_time cs iteration st = (r, st') ->
  same_data st st'
  /\ (r = Ok tt \/ r = Raise type_error_unbound \/ r = Raise type_error_descriptor).
Proof.
  induction cs as [| course cs IH]; intros iteration st r st' Hrun.
  - inversion Hrun; subst. split; [apply same_data_refl | now left].
  - cbn [course_loop] in Hrun. unfold bind at 1, time_time in Hrun.
    destruct (budget_exceeded self start_time (clock o (clock_reads st)) iteration).
    + inversion Hrun; subst. split; [apply same_data_cursors | now left].
    + apply bind_inv in Hrun.
      destruct Hrun as [(u & st1 & Hc & Hk) | (msg & Hc & ->)];
        apply schedule_course_result in Hc; destruct Hc as [Hsame Hr].
      * apply IH in Hk. destruct Hk as [Hsame' Hr'].
        split; [| exact Hr'].
        eapply same_data_trans; [apply same_data_cursors |].
        eapply same_data_trans; eassumption.
      * split; [eapply same_data_trans; [apply same_data_cursors | exact Hsame] |].
        destruct (skip_test _ _ _); [destruct Hr; discriminate | tauto].
Qed.

(** With shuffles that are permutations, the loop ends as its first attempt
    does: it returns when no course is attempted, and raises otherwise. *)
Lemma course_loop_first_attempt self o start_time cs :
  oracle_fair o ->
  forall iteration st,
  fst (course_loop self o start_time cs iteration st)
  = match first_attempt self o start_time (timetable st) cs iteration (clock_reads st) with
    | None => Ok tt
    | Some course => Raise (attempt_error self course)
    end.
Proof.
  intros Hfair. induction cs as [| course cs IH]; intros iteration st; [reflexivity |].
  cbn [course_loop first_attempt]. unfold bind at 1, time_time.
  destruct (budget_exceeded self start_time (clock o (clock_reads st)) iteration);
    [reflexivity |].
  set (st1 := set_cursors (shuffles st) (S (clock_reads st)) (commits st) st).
  change (timetable st) with (timetable st1).
  destruct (skip_test self (timetable st1) course) eqn:Hskip.
  - unfold bind.
    destruct (schedule_course self o course st1) as [r st2] eqn:Hc.
    apply schedule_course_result in Hc. rewrite Hskip in Hc.
    destruct Hc as (_ & -> & ->).
    rewrite IH. reflexivity.
  - unfold bind.
    pose proof (schedule_course_raises self o course st1 Hfair Hskip) as Hr.
    destruct (schedule_course self o course st1) as [r st2].
    simpl in Hr. subst r. reflexivity.
Qed.

(** ** The optimisation *)

Lemma order_courses_result self o cs st :
  exists st', order_courses self o cs st = (Ok (ordered_courses self o (shuffles st) cs), st')
              /\ same_data st st'.
Proof.
  unfold order_courses, ordered_courses, random_shuffle_courses, ret.
  destruct (strategy self); eexists;
    (split; [reflexivity | first [apply same_data_refl | apply same_data_cursors]]).
Qed.

(** The optimisation stores no booking and records no conflict: it leaves
    the ledger as the clearing left it, and everything else but the cursors
    of the oracle as it was. *)
Lemma optimize_frame self o st r st' :
  _optimize_timetable self o st = (r, st') ->
  entries_created st' = entries_created st
  /\ conflicts st' = conflicts st
  /\ job st' = job st
  /\ status_log st' = status_log st
  /\ (timetable st' = start_ledger self (timetable st)
      \/ (timetable st' = timetable st
          /\ clear_existing self = true
          /\ exists msg, r = Raise msg /\ commit_fault o (commits st) = Some msg)).
Proof.
  unfold _optimize_timetable, start_ledger. intros Hrun.
  apply bind_inv in Hrun.
  destruct Hrun as [(u & st1 & Hclear & Hk) | (msg & Hclear & ->)].
  - assert (Hst1 : entries_created st1 = entries_created st
                   /\ conflicts st1 = conflicts st
                   /\ job st1 = job st
                   /\ status_log st1 = status_log st
                   /\ timetable st1
                      = (if clear_existing self
                         then List.filter
                                (fun b => negb (t_semester_id b =? semester_id self))
                                (timetable st)
                         else timetable st)).
    { destruct (clear_existing self).
      - unfold db_commit in Hclear.
        destruct (commit_fault o (commits st)); inversion Hclear; subst.
        repeat split.
      - inversion Hclear; subst. repeat split. }
    destruct Hst1 as (He & Hc & Hj & Hl & Ht).
    assert (Hsame : same_data st1 st').
    { apply bind_inv in Hk.
      destruct Hk as [(courses & st2 & Hq & Hk) | (msg & Hq & ->)];
        unfold lift in Hq; inversion Hq; subst; [| apply same_data_refl].
      apply bind_inv in Hk.
      destruct Hk as [(cs & st3 & Ho & Hk) | (msg & Ho & ->)];
        destruct (order_courses_result self o courses st2) as (st3' & Ho' & Hs3);
        rewrite Ho' in Ho; inversion Ho; subst.
      apply bind_inv in Hk.
      destruct Hk as [(t0 & st4 & Ht0 & Hk) | (msg & Ht0 & ->)];
        unfold time_time in Ht0; inversion Ht0; subst.
      apply course_loop_result in Hk. destruct Hk as [Hs4 _].
      eapply same_data_trans; [exact Hs3 |].
      eapply same_data_trans; [apply same_data_cursors | exact Hs4]. }
    apply same_data_fields in Hsame.
    destruct Hsame as (Ht' & He' & Hc' & Hj' & Hl').
    rewrite Ht', He', Hc', Hj', Hl', He, Hc, Hj, Hl, Ht. auto 6.
  - destruct (clear_existing self) eqn:Hce; [| inversion Hclear].
    unfold db_commit in Hclear.
    destruct (commit_fault o (commits st)) as [m |] eqn:Hfault; inversion Hclear; subst.
    repeat split. right. repeat split. eauto.
Qed.

(** ** The top level *)

Lemma generate_unfold self o st :
  generate self o st =
  match _optimize_timetable self o (after_clock_read st) with
  | (Ok _, st1) =>
      let execution_time := (clock o (clock_reads st1) - clock o (clock_reads st))%Q in
      let st3 := job_set_status Completed (after_clock_read st1) in
      (Ok {| res_status := Completed;
             res_entries_created := entries_created st1;
             res_conflicts_detected := conflicts st1;
             res_execution_time_seconds := execution_time |},
       job_set_metrics {| rm_entries_created := entries_created st1;
                          rm_conflicts := length (conflicts st1);
                          rm_execution_time := execution_time |} st3)
  | (Raise msg, st1) => (Raise msg, job_set_error msg (job_set_status Failed st1))
  end.
Proof.
  unfold generate, try_except_reraise, bind, time_time, modify, get_state, ret,
    after_clock_read.
  destruct (_optimize_timetable self o _) as [[u | msg] st1]; reflexivity.
Qed.

Lemma optimize_job self o st r st' :
  _optimize_timetable self o st = (r, st') ->
  job st' = job st /\ status_log st' = status_log st.
Proof.
  intros H. apply optimize_frame in H. tauto.
Qed.

(** A run stores no booking and records no conflict. *)
Lemma generate_frame self o st :
  entries_created (snd (generate self o st)) = entries_created st
  /\ conflicts (snd (generate self o st)) = conflicts st
  /\ (timetable (snd (generate self o st)) = start_ledger self (timetable st)
      \/ (timetable (snd (generate self o st)) = timetable st
          /\ clear_existing self = true
          /\ exists msg, fst (generate self o st) = Raise msg
                         /\ commit_fault o (commits st) = Some msg)).
Proof.
  rewrite generate_unfold.
  destruct (_optimize_timetable self o (after_clock_read st)) as [[u | msg] st1] eqn:Hopt;
    apply optimize_frame in Hopt;
    destruct Hopt as (He & Hc & _ & _ & Ht); simpl in *.
  - repeat split; auto.
    destruct Ht as [Ht | (_ & _ & m & Hm & _)]; [now left | discriminate].
  - repeat split; auto.
    destruct Ht as [Ht | (Ht & Hclear & m & Hm & Hfault)]; [now left |].
    right. repeat split; auto. exists m. split; [| exact Hfault].
    now inversion Hm.
Qed.

Lemma generate_completed self o st res st' :
  generate self o st = (Ok res, st') ->
  timetable st' = start_ledger self (timetable st)
  /\ entries_created st' = entries_created st
  /\ conflicts st' = conflicts st
  /\ res_entries_created res = entries_created st
  /\ res_conflicts_detected res = conflicts st.
Proof.
  intros Hgen.
  pose proof (generate_frame self o st) as (He & Hc & Ht).
  rewrite Hgen in He, Hc, Ht. simpl in He, Hc, Ht.
  assert (Hres : res_entries_created res = entries_created st'
                 /\ res_conflicts_detected res = conflicts st').
  { rewrite generate_unfold in Hgen.
    destruct (_optimize_timetable self o (after_clock_read st)) as [[u | msg] st1];
      inversion Hgen; subst. simpl. auto. }
  destruct Hres as [Hre Hrc]. rewrite Hre, Hrc, He, Hc.
  destruct Ht as [Ht | (_ & _ & m & Hm & _)]; [auto | discriminate].
Qed.

(** ** C5: the job's status sequence *)

(** C5, as amended: the job record of a run is created in status [Running]
    (it is never [Pending]) and then takes exactly one of [Completed], on
    normal return, or [Failed], when the run raised; these are the only two
    assignments to the status, so no status is revisited. *)
Theorem C5_job_status_sequence
    d semester strat departments programmes_ respect clear max_iter time_limit tt o :
  let out := generate_timetable d semester strat departments programmes_
                                respect clear max_iter time_limit tt o in
  j_status (job (snd (TimetableGenerator_init d semester strat departments programmes_
                        respect clear max_iter time_limit tt))) = Running
  /\ ((status_log (snd out) = [Running; Completed]
       /\ j_status (job (snd out)) = Completed
       /\ exists res, fst out = Ok res)
      \/ (status_log (snd out) = [Running; Failed]
          /\ j_status (job (snd out)) = Failed
          /\ exists msg, fst out = Raise msg)).
Proof.
  cbv zeta. split; [reflexivity |].
  unfold generate_timetable.
  destruct (TimetableGenerator_init _ _ _ _ _ _ _ _ _ _) as [self st] eqn:Hinit.
  assert (Hlog : status_log st = [Running]) by (inversion Hinit; reflexivity).
  rewrite generate_unfold.
  destruct (_optimize_timetable self o (after_clock_read st)) as [[u | msg] st1] eqn:Hopt;
    apply optimize_job in Hopt; destruct Hopt as [Hj Hl]; simpl in Hl; simpl.
  - left. rewrite Hl, Hlog. eauto.
  - right. rewrite Hl, Hlog. eauto.
Qed.

(** C5 as stated fails: the job of a run never passes through [Pending]. *)
Lemma C5_counterexample :
  ~ (forall d semester strat departments programmes_ respect clear max_iter
            time_limit tt o,
        let out := generate_timetable d semester strat departments programmes_
                                      respect clear max_iter time_limit tt o in
        exists final, (final = Completed \/ final = Failed)
                      /\ status_log (snd out) = [Pending; Running; final]).
Proof.
  intros H.
  destruct (H sample_catalog 1 balanced [] [] true false 1000 300 [] oracle_plain)
    as (final & _ & Hlog).
  vm_compute in Hlog. discriminate.
Qed.

(** ** C6: the [instructors] strategy *)

(** C6, as amended: under the [instructors] strategy the course list is left
    in the order of the query, without any shuffle, and the scheduling loop
    runs over it in that order. *)
Theorem C6_instructors_strategy_keeps_query_order self o st :
  strategy self = instructors_strategy ->
  (forall cs, order_courses self o cs st = (Ok cs, st))
  /\ _optimize_timetable self o st =
     ((if clear_existing self then db_commit o (clear_semester self) else ret tt) ;;;
      courses <- lift (_get_courses_to_schedule self) ;;
      start_time <- time_time o ;;
      course_loop self o start_time courses 0)%gen st.
Proof.
  intros Hs. split.
  - intros cs. unfold order_courses. rewrite Hs. reflexivity.
  - unfold _optimize_timetable, order_courses. rewrite Hs.
    unfold bind, ret, lift.
    destruct ((if clear_existing self then db_commit o (clear_semester self)
               else fun st0 => (Ok tt, st0)) st) as [[u | msg] st1]; [| reflexivity].
    destruct (_get_courses_to_schedule self); reflexivity.
Qed.

Lemma C6_witness :
  order_courses (sample_generator instructors_strategy 1000 300) oracle_reversing
    [algebra; logic] (sample_state [])
  = (Ok [algebra; logic], sample_state []).
Proof.
  apply (C6_instructors_strategy_keeps_query_order
           (sample_generator instructors_strategy 1000 300) oracle_reversing
           (sample_state [])).
  reflexivity.
Defined.

(** C6 as stated fails: the [instructors] strategy does not shuffle. *)
Lemma C6_counterexample :
  ~ (forall self self' o cs st,
        strategy self = instructors_strategy ->
        strategy self' = balanced ->
        order_courses self o cs st = order_courses self' o cs st).
Proof.
  intros H.
  specialize (H (sample_generator instructors_strategy 1000 300)
                (sample_generator balanced 1000 300)
                oracle_reversing [algebra; logic] (sample_state [])
                eq_refl eq_refl).
  vm_compute in H. discriminate.
Qed.

(** ** C9: a failed run *)

(** C9: when the optimisation raises, [generate] re-raises the same error,
    the job ends [Failed] with the error's message, and the handler rolls
    nothing back: the ledger is left as it was at the failure.  That is the
    ledger the clearing left behind (or the stored one, when the clearing
    itself failed): what the run had committed before it failed stays. *)
Theorem C9_failed_run_keeps_committed_bookings self o st msg st1 :
  _optimize_timetable self o (after_clock_read st) = (Raise msg, st1) ->
  exists st2,
    generate self o st = (Raise msg, st2)
    /\ j_status (job st2) = Failed
    /\ j_error_message (job st2) = Some msg
    /\ timetable st2 = timetable st1
    /\ (timetable st2 = start_ledger self (timetable st)
        \/ timetable st2 = timetable st)
    /\ entries_created st2 = entries_created st1.
Proof.
  intros Hopt. rewrite generate_unfold, Hopt.
  eexists. split; [reflexivity |]. simpl.
  repeat split.
  apply optimize_frame in Hopt. simpl in Hopt.
  destruct Hopt as (_ & _ & _ & _ & [Ht | (Ht & _)]); auto.
Qed.

Lemma C9_witness :
  exists st2,
    generate (generator_of sample_catalog balanced true true 1000 300) oracle_plain
             (sample_state [stored_hour])
    = (Raise type_error_unbound, st2)
    /\ j_status (job st2) = Failed
    /\ j_error_message (job st2) = Some type_error_unbound
    /\ timetable st2 = [].
Proof.
  destruct (_optimize_timetable (generator_of sample_catalog balanced true true 1000 300)
              oracle_plain (after_clock_read (sample_state [stored_hour])))
    as [r st1] eqn:Hopt.
  assert (Hr : r = Raise type_error_unbound /\ timetable st1 = [])
    by (vm_compute in Hopt; inversion Hopt; subst; split; reflexivity).
  destruct Hr as [-> Ht1].
  destruct (C9_failed_run_keeps_committed_bookings _ _ _ _ _ Hopt)
    as (st2 & Hgen & Hs & Hm & Ht & _).
  exists st2. rewrite Ht, Ht1. auto.
Defined.

(** ** C3: no double booking *)

Lemma ordered_pairs_snoc {A} (R : A -> A -> Prop) (l : list A) (x : A) :
  ForallOrdPairs R l -> Forall (fun a => R a x) l -> ForallOrdPairs R (l ++ [x]).
Proof.
  induction 1 as [| a l Ha Hl IH]; intros Hx; simpl.
  - constructor; constructor.
  - inversion Hx; subst. constructor.
    + apply List.Forall_app. split; [exact Ha | constructor; [assumption | constructor]].
    + apply IH. assumption.
Qed.






(** ** C2: weekly hours *)

Lemma instructor_hours_minutes self tt instructor_id :
  _calculate_instructor_hours self tt instructor_id
  = instructor_minutes self tt instructor_id / 60.
Proof. reflexivity. Qed.

Lemma instructor_minutes_snoc self tt e instructor_id :
  instructor_minutes self (tt ++ [e]) instructor_id
  = instructor_minutes self tt instructor_id
    + (if (t_instructor_id e =? instructor_id) && (t_semester_id e =? semester_id self)
       then time_to_minutes (t_end_time e) - time_to_minutes (t_start_time e)
       else 0).
Proof.
  unfold instructor_minutes. rewrite List.filter_app, foldl_app. simpl.
  destruct (_ && _); simpl; lia.
Qed.

Lemma course_duration_cases course :
  course_duration course = 60 \/ course_duration course = 120.
Proof.
  unfold course_duration, DEFAULT_LAB_DURATION, DEFAULT_LECTURE_DURATION.
  destruct (bool_decide _); auto.
Qed.

Lemma hours_after_commit self tt course instructor room slot :
  slot_fits course slot ->
  _calculate_instructor_hours self (tt ++ [new_entry self course instructor room slot])
                              (i_id instructor)
  = _calculate_instructor_hours self tt (i_id instructor) + course_duration course / 60.
Proof.
  unfold slot_fits. intros Hd.
  rewrite !instructor_hours_minutes, instructor_minutes_snoc. simpl.
  rewrite !Z.eqb_refl. simpl. rewrite Hd.
  destruct (course_duration_cases course) as [-> | ->].
  - change 60 with (1 * 60) at 1. rewrite Z.div_add by lia. reflexivity.
  - change 120 with (2 * 60) at 1. rewrite Z.div_add by lia. reflexivity.
Qed.

Lemma max_hours_violation_listed self tt course instructor room slot :
  (i_max_hours_per_week instructor
     <? _calculate_instructor_hours self tt (i_id instructor) + course_duration course / 60)
  = true ->
  In "InstructorMaxHours" (_check_constraints self tt course instructor room slot).
Proof.
  intros H. unfold _check_constraints. cbv zeta. rewrite H.
  apply in_or_app. right. apply in_or_app. right. left. reflexivity.
Qed.

Lemma commit_within_hours self tt course instructor room slot :
  is_hard_registered self "InstructorMaxHours" = true ->
  slot_fits course slot ->
  List.find (is_hard_registered self)
            (_check_constraints self tt course instructor room slot) = None ->
  _calculate_instructor_hours self (tt ++ [new_entry self course instructor room slot])
                              (i_id instructor)
  <= i_max_hours_per_week instructor.
Proof.
  intros Hhard Hfits Hnone.
  rewrite (hours_after_commit _ _ _ _ _ _ Hfits).
  destruct (i_max_hours_per_week instructor
              <? _calculate_instructor_hours self tt (i_id instructor)
                 + course_duration course / 60) eqn:E.
  - apply (max_hours_violation_listed _ _ _ _ room slot) in E.
    pose proof (find_none _ _ Hnone _ E). congruence.
  - apply Z.ltb_ge in E. exact E.
Qed.

(** C2, as amended: when [InstructorMaxHours] is registered as a hard
    constraint, a commit of a slot of the length of the course's kind leaves
    the instructor's booked hours in the scope (whole hours) at most at
    [max_hours_per_week]; and if every instructor was within the maximum in
    the ledger the scheduling started from, every instructor is within it
    after a completed run. *)
Theorem C2_hours_within_maximum self o :
  is_hard_registered self "InstructorMaxHours" = true ->
  (forall course instructor room slot st entry st',
      slot_fits course slot ->
      _create_timetable_entry self o course instructor room slot st
      = (Ok (Some entry), st') ->
      _calculate_instructor_hours self (timetable st') (i_id instructor)
      <= i_max_hours_per_week instructor)
  /\ (forall st res st',
         generate self o st = (Ok res, st') ->
         within_budget self (start_ledger self (timetable st)) = true ->
         within_budget self (timetable st') = true).
Proof.
  intros Hhard. split.
  - intros course instructor room slot st entry st' Hfits Hrun.
    apply create_entry_cases in Hrun.
    destruct Hrun as [(k & _ & Hr & _) | [(Hnone & _ & _ & ->) | (msg & _ & _ & Hr & _)]];
      try discriminate.
    simpl. now apply commit_within_hours.
  - intros st res st' Hgen Hstart.
    apply generate_completed in Hgen. destruct Hgen as (-> & _). exact Hstart.
Qed.

Lemma C2_witness :
  _calculate_instructor_hours
    (generator_of (sample_catalog_with [] [hard_max_hours] 1) balanced true false 0 300)
    (timetable
       (snd (_create_timetable_entry
               (generator_of (sample_catalog_with [] [hard_max_hours] 1)
                             balanced true false 0 300)
               oracle_plain logic (ada_with 1) hall monday_8_to_9 (sample_state []))))
    1
  <= 1
  /\ within_budget
       (generator_of (sample_catalog_with [] [hard_max_hours] 1) balanced true false 0 300)
       (timetable
          (snd (generate
                  (generator_of (sample_catalog_with [] [hard_max_hours] 1)
                                balanced true false 0 300)
                  oracle_plain (sample_state [logic_hour])))) = true.
Proof.
  assert (Hhard : is_hard_registered
                    (generator_of (sample_catalog_with [] [hard_max_hours] 1)
                                  balanced true false 0 300)
                    "InstructorMaxHours" = true) by (vm_compute; reflexivity).
  destruct (C2_hours_within_maximum _ oracle_plain Hhard) as [Hcommit Hrun].
  split.
  - destruct (_create_timetable_entry _ oracle_plain logic (ada_with 1) hall
                monday_8_to_9 (sample_state [])) as [r st'] eqn:Hc.
    assert (Hr : r = Ok (Some (new_entry
                   (generator_of (sample_catalog_with [] [hard_max_hours] 1)
                                 balanced true false 0 300)
                   logic (ada_with 1) hall monday_8_to_9)))
      by (vm_compute in Hc; inversion Hc; reflexivity).
    subst r.
    change (_calculate_instructor_hours
              (generator_of (sample_catalog_with [] [hard_max_hours] 1)
                            balanced true false 0 300)
              (timetable st') (i_id (ada_with 1))
            <= i_max_hours_per_week (ada_with 1)).
    eapply (Hcommit logic (ada_with 1) hall monday_8_to_9 (sample_state []));
      [vm_compute; reflexivity | exact Hc].
  - destruct (generate _ oracle_plain (sample_state [logic_hour]))
      as [[res | msg] st'] eqn:Hgen.
    + apply (Hrun _ _ _ Hgen). vm_compute. reflexivity.
    + vm_compute in Hgen. discriminate.
Defined.

(** C2 as stated fails twice over: when [InstructorMaxHours] is not
    registered, the commit step books an hour for an instructor whose
    maximum is zero; and when it is registered as hard, an instructor who was
    over the maximum in the stored ledger is still over it after a completed
    run. *)
Lemma C2_counterexample :
  ~ (forall self o course instructor room slot st entry st',
        slot_fits course slot ->
        _create_timetable_entry self o course instructor room slot st
        = (Ok (Some entry), st') ->
        _calculate_instructor_hours self (timetable st') (i_id instructor)
        <= i_max_hours_per_week instructor)
  /\ ~ (forall self o st res st',
           is_hard_registered self "InstructorMaxHours" = true ->
           generate self o st = (Ok res, st') ->
           within_budget self (timetable st') = true).
Proof.
  split; intros H.
  - destruct (_create_timetable_entry
                (generator_of (sample_catalog_with [] [] 0) balanced true false 1000 300)
                oracle_plain logic (ada_with 0) hall monday_8_to_9 (sample_state []))
      as [[[entry |] | msg] st'] eqn:Hc;
      try (vm_compute in Hc; discriminate).
    assert (Hfits : slot_fits logic monday_8_to_9) by (vm_compute; reflexivity).
    specialize (H _ _ _ _ _ _ _ _ _ Hfits Hc).
    vm_compute in Hc. inversion Hc; subst. vm_compute in H. apply H. reflexivity.
  - destruct (generate (generator_of (sample_catalog_with [] [hard_max_hours] 0)
                                     balanced true false 0 300)
                       oracle_plain (sample_state [stored_hour]))
      as [[res | msg] st'] eqn:Hgen.
    + assert (Hhard : is_hard_registered
                        (generator_of (sample_catalog_with [] [hard_max_hours] 0)
                                      balanced true false 0 300)
                        "InstructorMaxHours" = true) by (vm_compute; reflexivity).
      specialize (H _ _ _ _ _ Hhard Hgen).
      vm_compute in Hgen. inversion Hgen; subst. vm_compute in H. discriminate.
    + vm_compute in Hgen. discriminate.
Qed.

(** ** The optimisation, up to the loop *)

Lemma order_courses_cursors self o cs st :
  exists st',
    order_courses self o cs st = (Ok (ordered_courses self o (shuffles st) cs), st')
    /\ same_data st st'
    /\ clock_reads st' = clock_reads st.
Proof.
  unfold order_courses, ordered_courses, random_shuffle_courses, ret.
  destruct (strategy self); eexists;
    (split; [reflexivity |
             split; [first [apply same_data_refl | apply same_data_cursors]
                    | reflexivity]]).
Qed.

(** When the clearing is stored and the query of the courses returns, the
    optimisation is the loop over the ordered courses, started on the ledger
    the clearing left, two readings of the clock after the run began. *)
Lemma optimize_unfold self o st courses :
  (clear_existing self = true -> commit_fault o (commits st) = None) ->
  _get_courses_to_schedule self = Ok courses ->
  exists st1,
    _optimize_timetable self o st
    = course_loop self o (clock o (clock_reads st))
                  (ordered_courses self o (shuffles st) courses) 0 st1
    /\ timetable st1 = start_ledger self (timetable st)
    /\ clock_reads st1 = S (clock_reads st).
Proof.
  intros Hfault Hq. unfold _optimize_timetable.
  assert (Hclear : exists st_c,
             (if clear_existing self then db_commit o (clear_semester self) else ret tt) st
             = (Ok tt, st_c)
             /\ timetable st_c = start_ledger self (timetable st)
             /\ clock_reads st_c = clock_reads st
             /\ shuffles st_c = shuffles st).
  { unfold start_ledger. destruct (clear_existing self).
    - unfold db_commit. rewrite (Hfault eq_refl). eexists. split; [reflexivity |].
      repeat split.
    - exists st. repeat split. }
  destruct Hclear as (st_c & Hc & Ht & Hr & Hs).
  destruct (order_courses_cursors self o courses st_c) as (st_o & Ho & Hsame & Hro).
  apply same_data_fields in Hsame. destruct Hsame as (Hto & _).
  unfold bind at 1. rewrite Hc.
  unfold bind at 1, lift. rewrite Hq.
  unfold bind at 1. rewrite Ho.
  unfold bind at 1, time_time.
  rewrite Hro, Hr, Hs.
  eexists. split; [reflexivity |]. simpl. split; [congruence | congruence].
Qed.


Lemma course_loop_all_skipped self o start_time cs :
  forall iteration st,
  (forall course, In course cs -> skip_test self (timetable st) course = true) ->
  fst (course_loop self o start_time cs iteration st) = Ok tt.
Proof.
  induction cs as [| course cs IH]; intros iteration st Hall; [reflexivity |].
  cbn [course_loop]. unfold bind at 1, time_time.
  destruct (budget_exceeded self start_time (clock o (clock_reads st)) iteration);
    [reflexivity |].
  set (st1 := set_cursors (shuffles st) (S (clock_reads st)) (commits st) st).
  unfold bind.
  destruct (schedule_course self o course st1) as [r st2] eqn:Hc.
  apply schedule_course_result in Hc.
  change (timetable st1) with (timetable st) in Hc.
  rewrite (Hall course (or_introl eq_refl)) in Hc.
  destruct Hc as (_ & -> & ->).
  apply IH. intros c Hc. apply Hall. now right.
Qed.

Lemma ordered_courses_in self o n cs course :
  oracle_fair o ->
  In course (ordered_courses self o n cs) -> In course cs.
Proof.
  intros [Hfair _]. unfold ordered_courses, sort_desc.
  destruct (strategy self); rewrite ?in_sort_by; auto;
    apply Permutation_in, Hfair.
Qed.

Lemma generate_of_optimize self o st :
  fst (_optimize_timetable self o (after_clock_read st)) = Ok tt ->
  exists res, fst (generate self o st) = Ok res
              /\ res_entries_created res = entries_created st
              /\ res_conflicts_detected res = conflicts st.
Proof.
  intros H.
  destruct (generate self o st) as [[res | msg] st'] eqn:Hgen.
  - exists res. apply generate_completed in Hgen. simpl. tauto.
  - rewrite generate_unfold in Hgen.
    destruct (_optimize_timetable self o (after_clock_read st)) as [[u | m] st1];
      [inversion Hgen | discriminate].
Qed.

(** ** C7: the budget *)







(** ** C8: a second run over an unchanged scope *)

(** C8: with [respect_existing] true and [clear_existing] false, a second run
    over the ledger of a first run and the unchanged tables has
    [entries_created = 0] and leaves the ledger as it was, whatever the
    outcome of the first run and whatever its own shuffles, clock and budget.
    When every target course holds a booking in the scope, each of them is
    skipped and the second run returns. *)
Theorem C8_second_run_adds_nothing
    d semester strat departments programmes_ max_iter time_limit ledger o1 o2 :
  let self := fst (TimetableGenerator_init d semester strat departments programmes_
                     true false max_iter time_limit ledger) in
  let run1 := generate_timetable d semester strat departments programmes_ true false
                                 max_iter time_limit ledger o1 in
  let run2 := generate_timetable d semester strat departments programmes_ true false
                                 max_iter time_limit (timetable (snd run1)) o2 in
  entries_created (snd run2) = 0
  /\ timetable (snd run2) = timetable (snd run1)
  /\ (forall res2, fst run2 = Ok res2 -> res_entries_created res2 = 0)
  /\ (forall courses,
        oracle_fair o2 ->
        _get_courses_to_schedule self = Ok courses ->
        (forall course, In course courses ->
                        has_entry self (timetable (snd run1)) course = true) ->
        exists res2, fst run2 = Ok res2 /\ res_entries_created res2 = 0).
Proof.
  cbv zeta.
  set (run1 := generate_timetable d semester strat departments programmes_ true false
                                  max_iter time_limit ledger o1).
  unfold generate_timetable at 1 2 3 4.
  destruct (TimetableGenerator_init d semester strat departments programmes_ true false
              max_iter time_limit (timetable (snd run1))) as [self st] eqn:Hinit.
  assert (Hself : fst (TimetableGenerator_init d semester strat departments programmes_
                         true false max_iter time_limit ledger) = self)
    by (inversion Hinit; reflexivity).
  rewrite Hself.
  assert (Hst : entries_created st = 0 /\ timetable st = timetable (snd run1)
                /\ respect_existing self = true /\ clear_existing self = false)
    by (inversion Hinit; subst; repeat split).
  destruct Hst as (He & Ht & Hrespect & Hclear).
  pose proof (generate_frame self o2 st) as (He' & _ & Ht').
  assert (Hledger : timetable (snd (generate self o2 st)) = timetable (snd run1)).
  { destruct Ht' as [Ht' | (_ & Habs & _)]; [| congruence].
    rewrite Ht'. unfold start_ledger. now rewrite Hclear. }
  split; [congruence |]. split; [exact Hledger |]. split.
  - intros res2 Hres.
    destruct (generate self o2 st) as [r st'] eqn:Hgen. simpl in Hres. subst r.
    apply generate_completed in Hgen. destruct Hgen as (_ & _ & _ & -> & _). exact He.
  - intros courses Hfair Hq Hall.
    destruct (optimize_unfold self o2 (after_clock_read st) courses) as (st1 & Hopt & Ht1 & _);
      [rewrite Hclear; discriminate | exact Hq |].
    destruct (generate_of_optimize self o2 st) as (res2 & Hres & Hre & _).
    + rewrite Hopt. apply course_loop_all_skipped.
      intros course Hin. apply (ordered_courses_in _ _ _ _ _ Hfair) in Hin.
      unfold skip_test. rewrite Hrespect, Hclear, Ht1. simpl.
      unfold start_ledger. rewrite Hclear, Ht. now apply Hall.
    + exists res2. split; [exact Hres | congruence].
Qed.

Lemma C8_witness :
  exists res2,
    fst (generate_timetable sample_catalog 1 balanced [] [] true false 1000 300
           (timetable (snd (generate_timetable sample_catalog 1 balanced [] [] true false
                                               1000 300 [algebra_hour; logic_hour]
                                               oracle_plain)))
           oracle_reversing) = Ok res2
    /\ res_entries_created res2 = 0.
Proof.
  destruct (C8_second_run_adds_nothing sample_catalog 1 balanced [] [] 1000 300
              [algebra_hour; logic_hour] oracle_plain oracle_reversing)
    as (_ & _ & _ & H).
  apply (H [algebra; logic]).
  - exact oracle_reversing_fair.
  - reflexivity.
  - intros course [<- | [<- | []]]; vm_compute; reflexivity.
Defined.

(** ** Lists *)

Lemma find_append {A} (f : A -> bool) (l1 l2 : list A) :
  List.find f (l1 ++ l2) =
  match List.find f l1 with Some x => Some x | None => List.find f l2 end.
Proof.
  induction l1 as [| a l1 IH]; simpl; [reflexivity |].
  destruct (f a); [reflexivity | exact IH].
Qed.

Lemma find_mapped {A B} (f : B -> bool) (g : A -> B) (l : list A) :
  List.find f (map g l) = option_map g (List.find (fun a => f (g a)) l).
Proof.
  induction l as [| a l IH]; simpl; [reflexivity |].
  destruct (f (g a)); [reflexivity | exact IH].
Qed.

Lemma find_filtered {A} (f q : A -> bool) (l : list A) :
  List.find f (List.filter q l) = List.find (fun a => q a && f a) l.
Proof.
  induction l as [| a l IH]; simpl; [reflexivity |].
  destruct (q a); simpl; [destruct (f a); [reflexivity | exact IH] | exact IH].
Qed.


Lemma insert_by_permutation {A} (le : A -> A -> bool) (x : A) (l : list A) :
  Permutation (insert_by le x l) (x :: l).
Proof.
  induction l as [| y l IH]; simpl; [reflexivity |].
  destruct (le x y); [reflexivity |].
  rewrite IH. apply perm_swap.
Qed.

Lemma sort_by_permutation {A} (le : A -> A -> bool) (l : list A) :
  Permutation (sort_by le l) l.
Proof.
  unfold sort_by. induction l as [| x l IH]; simpl; [reflexivity |].
  rewrite insert_by_permutation. now constructor.
Qed.


(** * Properties of the queries *)

(** ** Dictionaries built row by row *)

Lemma foldl_insert_lookup `{Countable K} {V A : Type}
    (key : A -> K) (val : A -> V) (l : list A) (acc : gmap K V) (k : K) :
  foldl (fun m a => <[key a := val a]> m) acc l !! k
  = match List.find (fun a => bool_decide (key a = k)) (rev l) with
    | Some a => Some (val a)
    | None => acc !! k
    end.
Proof.
  revert acc. induction l as [| a l IH]; intros acc; [reflexivity |].
  cbn [foldl rev]. rewrite IH, find_append. cbn [List.find].
  destruct (List.find _ (rev l)); [reflexivity |].
  rewrite lookup_insert.
  destruct (decide (key a = k)) as [Heq | Hne].
  - now rewrite bool_decide_eq_true_2.
  - now rewrite bool_decide_eq_false_2.
Qed.

(** X5: in the registry [_load_constraints] builds, a constraint type maps
    to the entry of the last row of that type (later rows overwrite earlier
    ones), and a type without any row is absent. *)
Theorem X5_registry_keeps_last_row (d : Catalog) (k : string) :
  _load_constraints d !! k = constraint_entry <$> last_constraint_row d k.
Proof.
  unfold _load_constraints, last_constraint_row.
  rewrite (foldl_insert_lookup tc_constraint_type constraint_entry).
  destruct (List.find _ _); reflexivity.
Qed.

(** ** Sorting sorts *)

Section SortBy.
Context {A : Type} (le : A -> A -> bool).
Hypothesis le_total : forall x y, le x y = true \/ le y x = true.
Hypothesis le_trans : forall x y z, le x y = true -> le y z = true -> le x z = true.

Lemma insert_by_sorted (x : A) (l : list A) :
  StronglySorted (fun a b => le a b = true) l ->
  StronglySorted (fun a b => le a b = true) (insert_by le x l).
Proof.
  induction 1 as [| y l Hs IH Hy]; simpl.
  - constructor; constructor.
  - destruct (le x y) eqn:Hxy.
    + constructor; [constructor; assumption |].
      constructor; [exact Hxy |].
      eapply List.Forall_impl; [| exact Hy]. intros z Hz. simpl in Hz. eauto.
    + constructor; [exact IH |].
      apply List.Forall_forall. intros z Hz. apply in_insert_by in Hz.
      destruct Hz as [-> | Hz].
      * destruct (le_total x y); [congruence | assumption].
      * rewrite List.Forall_forall in Hy. auto.
Qed.

Lemma sort_by_sorted (l : list A) :
  StronglySorted (fun a b => le a b = true) (sort_by le l).
Proof.
  unfold sort_by. induction l as [| x l IH]; simpl; [constructor |].
  now apply insert_by_sorted.
Qed.
End SortBy.

Lemma strongly_sorted_weaken {A} (R S : A -> A -> Prop) (l : list A) :
  (forall a b, R a b -> S a b) -> StronglySorted R l -> StronglySorted S l.
Proof.
  intros HRS. induction 1 as [| a l Hs IH Ha]; constructor; [exact IH |].
  eapply List.Forall_impl; [| exact Ha]. intros b. apply HRS.
Qed.

Lemma order_by_sorted {A} (key : A -> Z) (l : list A) :
  StronglySorted (fun a b => key a <= key b) (order_by key l).
Proof.
  unfold order_by.
  apply (strongly_sorted_weaken (fun a b => (key a <=? key b) = true)).
  - intros a b Hab. now apply Z.leb_le.
  - apply sort_by_sorted.
    + intros x y. rewrite !Z.leb_le. lia.
    + intros x y z. rewrite !Z.leb_le. lia.
Qed.

Lemma sort_desc_sorted {A} (key : A -> Z) (l : list A) :
  StronglySorted (fun a b => key b <= key a) (sort_desc key l).
Proof.
  unfold sort_desc.
  apply (strongly_sorted_weaken (fun a b => (key b <=? key a) = true)).
  - intros a b Hab. now apply Z.leb_le.
  - apply sort_by_sorted.
    + intros x y. rewrite !Z.leb_le. lia.
    + intros x y z. rewrite !Z.leb_le. lia.
Qed.

(** ** Suitable rooms *)

Lemma filter_twice {A} (f g : A -> bool) (l : list A) :
  List.filter f (List.filter g l) = List.filter (fun a => g a && f a) l.
Proof.
  induction l as [| a l IH]; simpl; [reflexivity |].
  destruct (g a); simpl; [destruct (f a) |]; rewrite ?IH; reflexivity.
Qed.

(** X6: the suitable rooms of a course are exactly the rooms of the kind the
    course needs (lecture halls for Theory, labs for Lab) that have at least
    as many seats as the expected enrollment when one is given, each once per
    row of the table, ordered by increasing excess of seats (by increasing
    capacity when no enrollment is given). *)
Theorem X6_suitable_rooms (self : TimetableGenerator) (course : Course) :
  Permutation (_get_suitable_rooms self course)
              (List.filter (room_suits course) (rooms (db self)))
  /\ StronglySorted (fun a b => room_order_key course a <= room_order_key course b)
                    (_get_suitable_rooms self course).
Proof.
  unfold _get_suitable_rooms, room_suits, room_order_key. cbv zeta.
  destruct (truthy (c_expected_students course)); split.
  - unfold order_by. rewrite sort_by_permutation, filter_twice. reflexivity.
  - apply order_by_sorted.
  - unfold order_by. rewrite sort_by_permutation.
    erewrite filter_ext; [reflexivity |]. intros r. simpl. now rewrite andb_true_r.
  - apply order_by_sorted.
Qed.

(** ** Suitable instructors *)

Lemma preference_lookup (self : TimetableGenerator) (instructor_id course_id : Z) :
  default 3 (_get_instructor_preferences self instructor_id !! course_id)
  = preference_score (db self) instructor_id course_id.
Proof.
  unfold _get_instructor_preferences, preference_score.
  rewrite (foldl_insert_lookup ip_course_id ip_preference_level).
  rewrite <- List.filter_rev, find_filtered, lookup_empty.
  destruct (List.find _ _); reflexivity.
Qed.

(** X7: the suitable instructors of a course are all the instructors of the
    pool, each with the preference level of the last row recorded for the
    pair (3 when there is none), in order of decreasing preference. *)
Theorem X7_suitable_instructors (self : TimetableGenerator) (course : Course) :
  Permutation (_get_suitable_instructors self course)
              (map (fun i => (i, preference_score (db self) (i_id i) (c_id course)))
                   (_get_instructors self))
  /\ StronglySorted (fun a b => snd b <= snd a)
                    (_get_suitable_instructors self course).
Proof.
  unfold _get_suitable_instructors. cbv zeta. split.
  - unfold sort_desc. rewrite sort_by_permutation.
    erewrite map_ext; [reflexivity |]. intros i. simpl.
    now rewrite preference_lookup.
  - apply sort_desc_sorted.
Qed.

(** ** Course orders *)

Lemma insert_by_front {A} (le : A -> A -> bool) (x : A) (l : list A) :
  (forall y, In y l -> le x y = true) -> insert_by le x l = x :: l.
Proof.
  destruct l as [| y l]; simpl; [reflexivity |].
  intros H. now rewrite (H y) by auto.
Qed.

Lemma insert_by_after {A} (le : A -> A -> bool) (x : A) (l1 l2 : list A) :
  (forall y, In y l1 -> le x y = false) ->
  (forall y, In y l2 -> le x y = true) ->
  insert_by le x (l1 ++ l2) = (l1 ++ x :: l2)%list.
Proof.
  intros H1 H2. induction l1 as [| y l1 IH]; simpl.
  - now apply insert_by_front.
  - rewrite (H1 y) by (simpl; auto). f_equal. apply IH.
    intros z Hz. apply H1. simpl; auto.
Qed.

Lemma labs_first (cs : list Course) :
  sort_desc (fun c => if bool_decide (c_type c = Lab) then 1 else 0) cs
  = (List.filter is_lab cs ++ List.filter (fun c => negb (is_lab c)) cs)%list.
Proof.
  unfold sort_desc, sort_by, is_lab.
  induction cs as [| c cs IH]; [reflexivity |].
  cbn [foldr List.filter]. rewrite IH.
  destruct (bool_decide (c_type c = Lab)) eqn:Hc; cbn [negb].
  - apply (insert_by_front _ c). intros y _. rewrite Hc.
    destruct (bool_decide (c_type y = Lab)); reflexivity.
  - apply insert_by_after.
    + intros y Hy. apply filter_In in Hy. destruct Hy as [_ Hy].
      rewrite Hc, Hy. reflexivity.
    + intros y Hy. apply filter_In in Hy. destruct Hy as [_ Hy].
      apply negb_true_iff in Hy. rewrite Hc, Hy. reflexivity.
Qed.

(** X8: under the [rooms] strategy the scheduler visits the Lab courses
    first and the other courses after them, each group in the order of the
    query; no random draw is made. *)
Theorem X8_rooms_strategy_puts_labs_first self o cs st :
  strategy self = rooms_strategy ->
  order_courses self o cs st
  = (Ok (List.filter is_lab cs ++ List.filter (fun c => negb (is_lab c)) cs)%list, st).
Proof.
  intros Hs. unfold order_courses. rewrite Hs. unfold ret. now rewrite labs_first.
Qed.

Lemma X8_witness :
  order_courses (sample_generator rooms_strategy 1000 300) oracle_reversing
                [algebra; chemistry_lab; logic] (sample_state [])
  = (Ok [chemistry_lab; algebra; logic], sample_state []).
Proof.
  rewrite (X8_rooms_strategy_puts_labs_first
             (sample_generator rooms_strategy 1000 300) oracle_reversing
             [algebra; chemistry_lab; logic] (sample_state []) eq_refl).
  reflexivity.
Defined.

(** X9: under the [students] strategy the scheduler visits the same courses
    in order of decreasing expected enrollment, a course without an expected
    enrollment counting as 0; no random draw is made. *)
Theorem X9_students_strategy_sorts_by_enrollment self o cs st :
  strategy self = students_strategy ->
  exists cs',
    order_courses self o cs st = (Ok cs', st)
    /\ Permutation cs' cs
    /\ StronglySorted (fun a b => or_zero (c_expected_students b)
                                  <= or_zero (c_expected_students a)) cs'.
Proof.
  intros Hs. unfold order_courses. rewrite Hs. unfold ret.
  eexists. split; [reflexivity |]. split.
  - apply sort_by_permutation.
  - apply sort_desc_sorted.
Qed.

Lemma X9_witness :
  exists cs',
    order_courses (sample_generator students_strategy 1000 300) oracle_reversing
                  [logic; chemistry_lab; algebra] (sample_state [])
    = (Ok cs', sample_state [])
    /\ Permutation cs' [logic; chemistry_lab; algebra]
    /\ StronglySorted (fun a b => or_zero (c_expected_students b)
                                  <= or_zero (c_expected_students a)) cs'.
Proof.
  apply (X9_students_strategy_sorts_by_enrollment
           (sample_generator students_strategy 1000 300) oracle_reversing
           [logic; chemistry_lab; algebra] (sample_state [])).
  reflexivity.
Defined.

(** * Properties of the scheduler *)

(** ** Suitable rooms and the evaluator *)

Lemma in_suitable_rooms self course r :
  In r (_get_suitable_rooms self course)
  <-> In r (rooms (db self)) /\ room_suits course r = true.
Proof.
  unfold _get_suitable_rooms, room_suits, order_by. cbv zeta.
  destruct (truthy (c_expected_students course));
    rewrite in_sort_by, ?filter_In, ?andb_true_iff; tauto.
Qed.

Lemma suitable_room_violations self tt course instructor room slot :
  room_suits course room = true ->
  exists conflicts_found,
    _check_constraints self tt course instructor room slot
    = ((if i_max_hours_per_week instructor
           <? _calculate_instructor_hours self tt (i_id instructor)
              + course_duration course / 60
        then ["InstructorMaxHours"] else []) ++ conflicts_found)%list
    /\ forall k, In k conflicts_found -> k = "NoRoomConflict" \/ k = "NoInstructorConflict".
Proof.
  unfold room_suits, _check_constraints. rewrite andb_true_iff.
  intros [Htype Hcap]. cbv zeta.
  assert (H1 : (bool_decide (c_type course = Lab)
                && negb (bool_decide (r_type room = LabRoom)))
               || (bool_decide (c_type course = Theory)
                   && bool_decide (r_type room = LabRoom)) = false).
  { destruct (c_type course), (r_type room); simpl in *;
      first [reflexivity | discriminate]. }
  assert (H2 : truthy (c_expected_students course)
               && (r_capacity room <? or_zero (c_expected_students course)) = false).
  { destruct (truthy (c_expected_students course)); [| reflexivity].
    simpl. apply Z.ltb_ge. now apply Z.leb_le. }
  rewrite H1, H2. simpl app. eexists. split; [reflexivity |].
  intros k Hk. apply in_app_or in Hk.
  destruct Hk as [Hk | Hk];
    [destruct (existsb _ (_get_room_bookings _ _ _ _))
    | destruct (existsb _ (_get_instructor_bookings _ _ _ _))];
    simpl in Hk; intuition.
Qed.

(** X10: for a room taken from the suitable rooms of the course, whatever
    the instructor, the slot and the ledger, the evaluator reports neither
    [RoomTypeMatch] nor [RoomCapacity]; it reports [InstructorMaxHours]
    exactly when the instructor's booked hours plus the course's hours exceed
    the weekly maximum. *)
Theorem X10_suitable_room_passes_type_and_capacity
    self tt course instructor room slot :
  In room (_get_suitable_rooms self course) ->
  ~ In "RoomTypeMatch" (_check_constraints self tt course instructor room slot)
  /\ ~ In "RoomCapacity" (_check_constraints self tt course instructor room slot)
  /\ (In "InstructorMaxHours" (_check_constraints self tt course instructor room slot)
      <-> i_max_hours_per_week instructor
          < _calculate_instructor_hours self tt (i_id instructor)
            + course_duration course / 60).
Proof.
  intros Hroom. apply in_suitable_rooms in Hroom. destruct Hroom as [_ Hsuits].
  destruct (suitable_room_violations self tt course instructor room slot Hsuits)
    as (rest & -> & Hrest).
  assert (Hno : forall k, k <> "NoRoomConflict" -> k <> "NoInstructorConflict" ->
                          ~ In k rest)
    by (intros k H1 H2 Hk; destruct (Hrest k Hk); congruence).
  destruct (i_max_hours_per_week instructor
              <? _calculate_instructor_hours self tt (i_id instructor)
                 + course_duration course / 60) eqn:E.
  - apply Z.ltb_lt in E. repeat split.
    + intros [H | H]; [discriminate | revert H; apply Hno; discriminate].
    + intros [H | H]; [discriminate | revert H; apply Hno; discriminate].
    + intros _. exact E.
    + intros _. now left.
  - apply Z.ltb_ge in E. simpl. repeat split.
    + apply Hno; discriminate.
    + apply Hno; discriminate.
    + intros H. exfalso. revert H. apply Hno; discriminate.
    + intros H. lia.
Qed.

Lemma X10_witness :
  ~ In "RoomCapacity"
      (_check_constraints (sample_generator balanced 1000 300) [] algebra ada aula
                          monday_8_to_9).
Proof.
  apply (X10_suitable_room_passes_type_and_capacity
           (sample_generator balanced 1000 300) [] algebra ada aula monday_8_to_9).
  vm_compute. tauto.
Defined.

(** ** What a run does *)

(** X11: a run stores no booking and records no conflict.  When its clearing
    is stored and the query of the courses returns, it returns exactly when
    no course is attempted --- every course the loop reaches before its
    budget stops it is skipped for the booking it holds --- and otherwise it
    fails at the first course it attempts, with the [TypeError] of
    [datetime.time]: of the record of a course without rooms or instructors,
    or of the search of a slot. *)
Theorem X11_run_fails_at_its_first_attempt self o st courses :
  oracle_fair o ->
  (clear_existing self = true -> commit_fault o (commits st) = None) ->
  _get_courses_to_schedule self = Ok courses ->
  let out := generate self o st in
  entries_created (snd out) = entries_created st
  /\ conflicts (snd out) = conflicts st
  /\ timetable (snd out) = start_ledger self (timetable st)
  /\ match first_attempt self o (clock o (S (clock_reads st)))
                         (start_ledger self (timetable st))
                         (ordered_courses self o (shuffles st) courses)
                         0 (S (S (clock_reads st))) with
     | None => exists res, fst out = Ok res
     | Some course => fst out = Raise (attempt_error self course)
     end.
Proof.
  intros Hfair Hfault Hq. cbv zeta.
  pose proof (generate_frame self o st) as (He & Hc & Ht).
  repeat split; [exact He | exact Hc | |].
  - destruct Ht as [Ht | (_ & Hclear & msg & _ & Habs)]; [exact Ht |].
    rewrite (Hfault Hclear) in Habs. discriminate.
  - destruct (optimize_unfold self o (after_clock_read st) courses)
      as (st1 & Hopt & Ht1 & Hr1); [exact Hfault | exact Hq |].
    simpl in Hopt, Ht1, Hr1.
    pose proof (course_loop_first_attempt self o (clock o (S (clock_reads st)))
                  (ordered_courses self o (shuffles st) courses) Hfair 0 st1) as Hloop.
    rewrite Ht1, Hr1 in Hloop.
    destruct (first_attempt _ _ _ _ _ _ _) as [course |].
    + rewrite generate_unfold, Hopt.
      destruct (course_loop _ _ _ _ _ st1) as [r st2]. simpl in Hloop. subst r.
      reflexivity.
    + destruct (generate_of_optimize self o st) as (res & Hres & _);
        [now rewrite Hopt | eauto].
Qed.

Lemma X11_witness :
  fst (generate (sample_generator balanced 1000 300) oracle_plain (sample_state []))
  = Raise type_error_unbound
  /\ exists res,
       fst (generate (sample_generator balanced 1000 300) oracle_plain
                     (sample_state [algebra_hour; logic_hour])) = Ok res.
Proof.
  split.
  - destruct (X11_run_fails_at_its_first_attempt
                (sample_generator balanced 1000 300) oracle_plain (sample_state [])
                [algebra; logic] oracle_plain_fair) as (_ & _ & _ & H);
      [discriminate | reflexivity | exact H].
  - destruct (X11_run_fails_at_its_first_attempt
                (sample_generator balanced 1000 300) oracle_plain
                (sample_state [algebra_hour; logic_hour])
                [algebra; logic] oracle_plain_fair) as (_ & _ & _ & H);
      [discriminate | reflexivity | exact H].
Defined.

(** ** Other semesters and the clearing *)

Lemma filter_others_start self (l : list Timetable) :
  List.filter (fun b => negb (in_scope self b)) (start_ledger self l)
  = List.filter (fun b => negb (in_scope self b)) l.
Proof.
  unfold start_ledger. destruct (clear_existing self); [| reflexivity].
  change (fun b : Timetable => negb (t_semester_id b =? semester_id self))
    with (fun b => negb (in_scope self b)).
  rewrite filter_twice. apply filter_ext. intros a. apply andb_diag.
Qed.

(** X14: a run, completed or failed, never touches the bookings of other
    semesters: they are in the ledger afterwards as before, in the same
    order.  With [clear_existing], after a completed run the ledger is these
    bookings followed by the bookings the run created, all of the scope: the
    old bookings of the scope are gone. *)
Theorem X14_other_semesters_untouched self o :
  forall st,
  let out := generate self o st in
  List.filter (fun b => negb (in_scope self b)) (timetable (snd out))
  = List.filter (fun b => negb (in_scope self b)) (timetable st)
  /\ (clear_existing self = true ->
      forall res, fst out = Ok res ->
      exists added,
        timetable (snd out)
        = (List.filter (fun b => negb (in_scope self b)) (timetable st) ++ added)%list
        /\ Forall (fun e => in_scope self e = true) added
        /\ res_entries_created res = entries_created st + Z.of_nat (length added)).
Proof.
  intros st. cbv zeta. split.
  - pose proof (generate_frame self o st) as (_ & _ & [Ht | (Ht & _)]); rewrite Ht;
      [apply filter_others_start | reflexivity].
  - intros Hclear res Hres.
    destruct (generate self o st) as [r st'] eqn:Hgen. simpl in Hres. subst r.
    apply generate_completed in Hgen. destruct Hgen as (Ht & _ & _ & He & _).
    exists []. simpl. rewrite app_nil_r, Ht, He. unfold start_ledger. rewrite Hclear.
    repeat split; [constructor | lia].
Qed.

Lemma X14_witness :
  exists added,
    timetable (snd (generate (generator_of sample_catalog balanced true true 0 300)
                             oracle_plain (sample_state [stored_hour])))
    = ([] ++ added)%list
    /\ Forall (fun e => t_semester_id e = 1) added.
Proof.
  destruct (generate (generator_of sample_catalog balanced true true 0 300)
                     oracle_plain (sample_state [stored_hour])) as [r st'] eqn:Hgen.
  pose proof (X14_other_semesters_untouched
                (generator_of sample_catalog balanced true true 0 300)
                oracle_plain (sample_state [stored_hour])) as H.
  cbv zeta in H. rewrite Hgen in H. destruct H as [_ H].
  destruct r as [res | msg]; [| vm_compute in Hgen; discriminate].
  destruct (H eq_refl res eq_refl) as (added & Ht & Hadded & _).
  exists added. split; [exact Ht |].
  eapply List.Forall_impl; [| exact Hadded].
  intros e He. unfold in_scope in He. simpl in He. lia.
Defined.

(** ** The evaluator and the ledger *)

Lemma bookings_overlap_iff (slot : Slot) (keep : Timetable -> bool) (tt : list Timetable) :
  existsb (fun '(s, e) =>
             check_time_overlap (slot_start_time slot) (slot_end_time slot) s e)
          (map (fun b => (t_start_time b, t_end_time b)) (List.filter keep tt)) = true
  <-> exists b, In b tt /\ keep b = true
                /\ check_time_overlap (slot_start_time slot) (slot_end_time slot)
                                      (t_start_time b) (t_end_time b) = true.
Proof.
  rewrite existsb_exists. split.
  - intros ([s e] & Hin & Hov). apply in_map_iff in Hin.
    destruct Hin as (b & Hb & Hin). apply filter_In in Hin. destruct Hin as [Hin Hk].
    inversion Hb; subst. exists b. auto.
  - intros (b & Hin & Hk & Hov). exists (t_start_time b, t_end_time b). split; [| exact Hov].
    apply in_map_iff. exists b. split; [reflexivity |]. apply filter_In. auto.
Qed.

Lemma check_constraints_kinds self tt course instructor room slot :
  exists v1 v2 v3,
    _check_constraints self tt course instructor room slot
    = (v1 ++ v2 ++ v3
       ++ (if existsb (fun '(s, e) =>
                         check_time_overlap (slot_start_time slot) (slot_end_time slot) s e)
                      (_get_room_bookings self tt (r_id room) (slot_day slot))
           then ["NoRoomConflict"] else [])
       ++ (if existsb (fun '(s, e) =>
                         check_time_overlap (slot_start_time slot) (slot_end_time slot) s e)
                      (_get_instructor_bookings self tt (i_id instructor) (slot_day slot))
           then ["NoInstructorConflict"] else []))%list
    /\ (forall k, In k v1 -> k = "RoomTypeMatch")
    /\ (forall k, In k v2 -> k = "RoomCapacity")
    /\ (forall k, In k v3 -> k = "InstructorMaxHours").
Proof.
  unfold _check_constraints. cbv zeta.
  do 3 eexists. split; [reflexivity |].
  repeat split; intros k Hk;
    match type of Hk with In _ (if ?c then _ else _) => destruct c end;
    simpl in Hk; intuition.
Qed.

(** X27: the evaluator reports [NoRoomConflict] exactly when a booking of the
    room on the day of the slot, in the scope, overlaps the slot for
    [check_time_overlap], and [NoInstructorConflict] exactly when a booking of
    the instructor does. *)
Theorem X27_evaluator_reports_the_clashes self tt course instructor room slot :
  (In "NoRoomConflict" (_check_constraints self tt course instructor room slot)
   <-> exists b, In b tt
                 /\ t_room_id b = r_id room /\ t_day b = slot_day slot
                 /\ t_semester_id b = semester_id self
                 /\ check_time_overlap (slot_start_time slot) (slot_end_time slot)
                                       (t_start_time b) (t_end_time b) = true)
  /\ (In "NoInstructorConflict" (_check_constraints self tt course instructor room slot)
      <-> exists b, In b tt
                    /\ t_instructor_id b = i_id instructor /\ t_day b = slot_day slot
                    /\ t_semester_id b = semester_id self
                    /\ check_time_overlap (slot_start_time slot) (slot_end_time slot)
                                          (t_start_time b) (t_end_time b) = true).
Proof.
  destruct (check_constraints_kinds self tt course instructor room slot)
    as (v1 & v2 & v3 & -> & H1 & H2 & H3).
  unfold _get_room_bookings, _get_instructor_bookings.
  split.
  - rewrite !in_app_iff.
    destruct (existsb _ (map _ (List.filter
                (fun b => (t_room_id b =? r_id room)
                          && bool_decide (t_day b = slot_day slot)
                          && (t_semester_id b =? semester_id self)) tt))) eqn:E.
    + split; [intros _ | intros _; do 3 right; left; now left].
      apply bookings_overlap_iff in E. destruct E as (b & Hin & Hk & Hov).
      apply andb_true_iff in Hk. destruct Hk as [Hk Hsem].
      apply andb_true_iff in Hk. destruct Hk as [Hroom Hday].
      apply Z.eqb_eq in Hroom, Hsem. apply bool_decide_eq_true in Hday.
      exists b. auto.
    + split.
      * intros [H | [H | [H | [H | H]]]].
        -- apply H1 in H. discriminate.
        -- apply H2 in H. discriminate.
        -- apply H3 in H. discriminate.
        -- simpl in H. contradiction.
        -- match type of H with In _ (if ?c then _ else _) => destruct c end;
             simpl in H; intuition discriminate.
      * intros (b & Hin & Hroom & Hday & Hsem & Hov). exfalso.
        assert (Ht : existsb (fun '(s, e) =>
                       check_time_overlap (slot_start_time slot) (slot_end_time slot) s e)
                     (map (fun b => (t_start_time b, t_end_time b))
                          (List.filter
                             (fun b => (t_room_id b =? r_id room)
                                       && bool_decide (t_day b = slot_day slot)
                                       && (t_semester_id b =? semester_id self)) tt))
                     = true).
        { apply bookings_overlap_iff. exists b. split; [exact Hin |]. split; [| exact Hov].
          rewrite !andb_true_iff, !Z.eqb_eq, bool_decide_eq_true. auto. }
        congruence.
  - rewrite !in_app_iff.
    destruct (existsb _ (map _ (List.filter
                (fun b => (t_instructor_id b =? i_id instructor)
                          && bool_decide (t_day b = slot_day slot)
                          && (t_semester_id b =? semester_id self)) tt))) eqn:E.
    + split; [intros _ | intros _; do 4 right; now left].
      apply bookings_overlap_iff in E. destruct E as (b & Hin & Hk & Hov).
      apply andb_true_iff in Hk. destruct Hk as [Hk Hsem].
      apply andb_true_iff in Hk. destruct Hk as [Hins Hday].
      apply Z.eqb_eq in Hins, Hsem. apply bool_decide_eq_true in Hday.
      exists b. auto.
    + split.
      * intros [H | [H | [H | [H | H]]]].
        -- apply H1 in H. discriminate.
        -- apply H2 in H. discriminate.
        -- apply H3 in H. discriminate.
        -- match type of H with In _ (if ?c then _ else _) => destruct c end;
             simpl in H; intuition discriminate.
        -- simpl in H. contradiction.
      * intros (b & Hin & Hins & Hday & Hsem & Hov). exfalso.
        assert (Ht : existsb (fun '(s, e) =>
                       check_time_overlap (slot_start_time slot) (slot_end_time slot) s e)
                     (map (fun b => (t_start_time b, t_end_time b))
                          (List.filter
                             (fun b => (t_instructor_id b =? i_id instructor)
                                       && bool_decide (t_day b = slot_day slot)
                                       && (t_semester_id b =? semester_id self)) tt))
                     = true).
        { apply bookings_overlap_iff. exists b. split; [exact Hin |]. split; [| exact Hov].
          rewrite !andb_true_iff, !Z.eqb_eq, bool_decide_eq_true. auto. }
        congruence.
Qed.

(** ** The department filter *)

(** X26: a run with a department filter fails.  Whatever the tables, when
    [department_ids] is not empty and the clearing, if the run has one, is
    stored, the query of the courses raises the [AttributeError] of
    [Course.programme.department_id]: [generate] re-raises it, the job ends
    [Failed] with its message, and no course is reached.  The clearing comes
    first: a run with [clear_existing] has by then deleted the bookings of
    the semester. *)
Theorem X26_department_filter_fails_the_run self o st :
  department_ids self <> [] ->
  (clear_existing self = true -> commit_fault o (commits st) = None) ->
  exists st2,
    generate self o st = (Raise attribute_error, st2)
    /\ j_status (job st2) = Failed
    /\ j_error_message (job st2) = Some attribute_error
    /\ timetable st2 = start_ledger self (timetable st)
    /\ entries_created st2 = entries_created st
    /\ conflicts st2 = conflicts st.
Proof.
  intros Hdep Hfault.
  assert (Hq : _get_courses_to_schedule self = Raise attribute_error).
  { unfold _get_courses_to_schedule.
    destruct (department_ids self); [contradiction | reflexivity]. }
  rewrite generate_unfold. unfold _optimize_timetable, start_ledger.
  unfold bind at 1.
  destruct (clear_existing self).
  - unfold db_commit. simpl (commits (after_clock_read st)). rewrite (Hfault eq_refl).
    unfold bind at 1, lift. rewrite Hq. eexists. repeat split.
  - unfold ret. unfold bind at 1, lift. rewrite Hq. eexists. repeat split.
Qed.

Lemma X26_witness :
  exists st2,
    generate (fst (TimetableGenerator_init sample_catalog 1 balanced [1] [] true true
                                           1000 300 []))
             oracle_plain (sample_state [stored_hour])
    = (Raise attribute_error, st2)
    /\ j_status (job st2) = Failed
    /\ timetable st2 = [].
Proof.
  destruct (X26_department_filter_fails_the_run
              (fst (TimetableGenerator_init sample_catalog 1 balanced [1] [] true true
                                            1000 300 []))
              oracle_plain (sample_state [stored_hour]))
    as (st2 & Hgen & Hs & _ & Ht & _).
  - discriminate.
  - reflexivity.
  - exists st2. split; [exact Hgen |]. split; [exact Hs |]. rewrite Ht. reflexivity.
Defined.

(** ** The job record after a run *)

(** X18: after a completed run the job is [Completed] and stores the metrics
    of the returned result (entries created, number of conflict records,
    execution time), its error message untouched; after a failed run the job
    is [Failed] with the raised message and its metrics are left as they
    were (none for a fresh job). *)
Theorem X18_job_record_matches_the_outcome self o st :
  let out := generate self o st in
  match fst out with
  | Ok res =>
      res_status res = Completed
      /\ j_status (job (snd out)) = Completed
      /\ j_result_metrics (job (snd out))
         = Some {| rm_entries_created := res_entries_created res;
                   rm_conflicts := length (res_conflicts_detected res);
                   rm_execution_time := res_execution_time_seconds res |}
      /\ j_error_message (job (snd out)) = j_error_message (job st)
      /\ res_conflicts_detected res = conflicts (snd out)
  | Raise msg =>
      j_status (job (snd out)) = Failed
      /\ j_error_message (job (snd out)) = Some msg
      /\ j_result_metrics (job (snd out)) = j_result_metrics (job st)
  end.
Proof.
  cbv zeta. rewrite generate_unfold.
  destruct (_optimize_timetable self o (after_clock_read st)) as [[u | msg] st1] eqn:Hopt;
    apply optimize_job in Hopt; destruct Hopt as [Hj _]; simpl in *;
    rewrite Hj; repeat split.
Qed.

(** * Properties of the manual entry *)

(** ** The two overlap tests *)

Lemma lex_asym (x y : Z) (r r' : bool) :
  (r = true -> r' = false) ->
  (x <? y) || ((x =? y) && r) = true ->
  (y <? x) || ((y =? x) && r') = false.
Proof.
  intros Hr H.
  destruct (Z.ltb_spec x y), (Z.ltb_spec y x), (Z.eqb_spec x y), (Z.eqb_spec y x);
    simpl in *; try lia; try reflexivity; try discriminate; auto.
Qed.

Lemma time_ltb_asym (a b : time) : time_ltb a b = true -> time_ltb b a = false.
Proof.
  unfold time_ltb. intros H.
  eapply lex_asym; [| exact H]. intros H1.
  eapply lex_asym; [| exact H1]. intros H2.
  eapply lex_asym; [| exact H2]. intros H3.
  apply Z.ltb_lt in H3. apply Z.ltb_ge. lia.
Qed.

(** The order of the minutes decides the order of the times, except inside
    one minute. *)
Lemma time_ltb_of_minutes (a b : time) :
  0 <= minute a < 60 -> 0 <= minute b < 60 ->
  time_to_minutes a < time_to_minutes b -> time_ltb a b = true.
Proof.
  intros Ha Hb H. unfold time_ltb, time_to_minutes in *.
  destruct (Z.ltb_spec (hour a) (hour b)); [reflexivity |]. simpl.
  assert (Hh : hour a = hour b) by lia.
  rewrite Hh, Z.eqb_refl. simpl.
  assert (Hm : (minute a <? minute b) = true) by (apply Z.ltb_lt; lia).
  now rewrite Hm.
Qed.

Lemma time_leb_of_minutes (a b : time) :
  0 <= minute a < 60 -> 0 <= minute b < 60 ->
  time_to_minutes a < time_to_minutes b -> time_leb a b = true.
Proof.
  intros Ha Hb H. unfold time_leb.
  now rewrite (time_ltb_asym a b (time_ltb_of_minutes a b Ha Hb H)).
Qed.

Lemma time_leb_total (a b : time) : time_leb a b = false -> time_leb b a = true.
Proof.
  unfold time_leb. intros H. apply negb_false_iff in H.
  now rewrite (time_ltb_asym b a H).
Qed.

Lemma time_ltb_whole (a b : time) :
  whole_minute a -> whole_minute b ->
  0 <= minute a < 60 -> 0 <= minute b < 60 ->
  time_ltb a b = (time_to_minutes a <? time_to_minutes b).
Proof.
  intros [Hsa Hua] [Hsb Hub] Ha Hb. unfold time_ltb, time_to_minutes.
  rewrite Hsa, Hsb, Hua, Hub. simpl. rewrite andb_false_r, orb_false_r.
  destruct (hour a <? hour b) eqn:H1; simpl.
  - symmetry. apply Z.ltb_lt. apply Z.ltb_lt in H1. lia.
  - apply Z.ltb_ge in H1. destruct (hour a =? hour b) eqn:H2; simpl.
    + apply Z.eqb_eq in H2. rewrite H2.
      destruct (minute a <? minute b) eqn:H3; symmetry;
        [apply Z.ltb_lt; apply Z.ltb_lt in H3 | apply Z.ltb_ge; apply Z.ltb_ge in H3]; lia.
    + apply Z.eqb_neq in H2. symmetry. apply Z.ltb_ge. lia.
Qed.

Lemma time_leb_whole (a b : time) :
  whole_minute a -> whole_minute b ->
  0 <= minute a < 60 -> 0 <= minute b < 60 ->
  time_leb a b = (time_to_minutes a <=? time_to_minutes b).
Proof.
  intros Hwa Hwb Ha Hb. unfold time_leb. rewrite (time_ltb_whole b a Hwb Hwa Hb Ha).
  destruct (time_to_minutes b <? time_to_minutes a) eqn:E; simpl; symmetry;
    [apply Z.leb_gt; apply Z.ltb_lt in E | apply Z.leb_le; apply Z.ltb_ge in E]; lia.
Qed.

Lemma sql_overlap_covers (s e new_start new_end : time) :
  valid_time s -> valid_time e -> valid_time new_start -> valid_time new_end ->
  check_time_overlap s e new_start new_end = true ->
  sql_overlap s e new_start new_end = true.
Proof.
  intros (_ & Hs & _) (_ & He & _) (_ & Hns & _) (_ & Hne & _).
  unfold check_time_overlap. rewrite Z.ltb_lt. intros H. unfold sql_overlap.
  destruct (time_leb s new_start) eqn:H1.
  - rewrite (time_ltb_of_minutes new_start e Hns He) by lia. reflexivity.
  - apply time_leb_total in H1. rewrite H1. simpl.
    destruct (time_leb e new_end) eqn:H2; [now rewrite orb_true_r |].
    apply time_leb_total in H2. rewrite H2.
    rewrite (time_ltb_of_minutes s new_end Hs Hne) by lia. reflexivity.
Qed.

Lemma sql_overlap_agrees (s e new_start new_end : time) :
  valid_time s -> valid_time e -> valid_time new_start -> valid_time new_end ->
  whole_minute s -> whole_minute e -> whole_minute new_start -> whole_minute new_end ->
  time_to_minutes s < time_to_minutes e ->
  time_to_minutes new_start < time_to_minutes new_end ->
  sql_overlap s e new_start new_end = check_time_overlap s e new_start new_end.
Proof.
  intros (_ & Hs & _) (_ & He & _) (_ & Hns & _) (_ & Hne & _) Ws We Wns Wne H1 H2.
  unfold sql_overlap.
  rewrite !time_leb_whole, !time_ltb_whole by assumption.
  unfold check_time_overlap.
  destruct (Z.max (time_to_minutes s) (time_to_minutes new_start)
              <? Z.min (time_to_minutes e) (time_to_minutes new_end)) eqn:E.
  - apply Z.ltb_lt in E.
    rewrite !orb_true_iff, !andb_true_iff, !Z.leb_le, !Z.ltb_lt. lia.
  - apply Z.ltb_ge in E.
    rewrite !orb_false_iff, !andb_false_iff, !Z.leb_gt, !Z.ltb_ge. lia.
Qed.

Lemma validated_is_proper (start_time v : time) :
  valid_time start_time -> valid_time v ->
  whole_minute start_time -> whole_minute v ->
  end_time_must_be_after_start_time start_time v = Some v
  <-> time_to_minutes start_time < time_to_minutes v.
Proof.
  intros (_ & Hs & _) (_ & Hv & _) Ws Wv. unfold end_time_must_be_after_start_time.
  rewrite time_leb_whole by assumption.
  destruct (time_to_minutes v <=? time_to_minutes start_time) eqn:E.
  - apply Z.leb_le in E. split; [discriminate | lia].
  - apply Z.leb_gt in E. split; [intros _; exact E | reflexivity].
Qed.

(** X19: on times of day, the overlap test of the manual entry (the SQL
    filter of [create_timetable_entry]) holds whenever [check_time_overlap]
    does, so it misses no overlap; when the four times fall on whole minutes
    and both periods end after they start, the two tests agree. *)
Theorem X19_manual_entry_overlap_test (s e new_start new_end : time) :
  valid_time s -> valid_time e -> valid_time new_start -> valid_time new_end ->
  (check_time_overlap s e new_start new_end = true ->
   sql_overlap s e new_start new_end = true)
  /\ (whole_minute s -> whole_minute e ->
      whole_minute new_start -> whole_minute new_end ->
      time_to_minutes s < time_to_minutes e ->
      time_to_minutes new_start < time_to_minutes new_end ->
      sql_overlap s e new_start new_end = check_time_overlap s e new_start new_end).
Proof.
  intros Hs He Hns Hne. split;
    [now apply sql_overlap_covers | intros; now apply sql_overlap_agrees].
Qed.

Lemma X19_witness :
  sql_overlap (Time 8 0 0 0) (Time 9 0 0 0) (Time 8 30 0 0) (Time 9 30 0 0)
  = check_time_overlap (Time 8 0 0 0) (Time 9 0 0 0) (Time 8 30 0 0) (Time 9 30 0 0).
Proof.
  destruct (X19_manual_entry_overlap_test (Time 8 0 0 0) (Time 9 0 0 0)
              (Time 8 30 0 0) (Time 9 30 0 0))
    as [_ H]; try (unfold valid_time; simpl; lia).
  apply H; vm_compute; first [reflexivity | split; reflexivity].
Defined.

(** Inside one minute the filter sees more than [check_time_overlap]: a
    booking that ends at 09:00:30 and an entry that starts at 09:00:10. *)
Example filter_sees_the_seconds :
  sql_overlap (t_start_time seconds_hour) (t_end_time seconds_hour)
              (t_start_time seconds_entry) (t_end_time seconds_entry) = true
  /\ check_time_overlap (t_start_time seconds_hour) (t_end_time seconds_hour)
                        (t_start_time seconds_entry) (t_end_time seconds_entry) = false.
Proof. split; reflexivity. Qed.

(** ** The manual entry and the table *)

Lemma found_none {A} (f : A -> bool) (l : list A) :
  found (List.find f l) = false -> forall x, In x l -> f x = false.
Proof.
  destruct (List.find f l) eqn:E; [discriminate |].
  intros _ x Hx. exact (find_none f l E x Hx).
Qed.

Lemma mem_in (x : Z) (l : list Z) : mem x l = true <-> In x l.
Proof.
  unfold mem. rewrite existsb_exists. split.
  - intros [y [Hy Hxy]]. apply Z.eqb_eq in Hxy. now subst.
  - intros H. exists x. split; [assumption | apply Z.eqb_refl].
Qed.

(** What a call of [create_timetable_entry] that gets past the two conflict
    queries knows about the stored bookings. *)
Lemma manual_entry_clashes_with_none (entry : Timetable) (table : list Timetable) (scope : Z) :
  Forall times_valid table -> times_valid entry ->
  (forall b, In b table ->
     (t_room_id b =? t_room_id entry) && bool_decide (t_day b = t_day entry)
     && (t_semester_id b =? t_semester_id entry)
     && sql_overlap (t_start_time b) (t_end_time b)
                    (t_start_time entry) (t_end_time entry) = false) ->
  (forall b, In b table ->
     (t_instructor_id b =? t_instructor_id entry) && bool_decide (t_day b = t_day entry)
     && (t_semester_id b =? t_semester_id entry)
     && sql_overlap (t_start_time b) (t_end_time b)
                    (t_start_time entry) (t_end_time entry) = false) ->
  Forall (fun b => clashes scope b entry = false) table.
Proof.
  intros Hvalid [Hes Hee] Hroom Hinstr.
  apply List.Forall_forall. intros b Hb.
  rewrite List.Forall_forall in Hvalid. destruct (Hvalid b Hb) as [Hbs Hbe].
  specialize (Hroom b Hb). specialize (Hinstr b Hb).
  unfold clashes.
  destruct (t_semester_id b =? scope) eqn:Hsb; [| reflexivity].
  destruct (t_semester_id entry =? scope) eqn:Hse; [| reflexivity].
  apply Z.eqb_eq in Hsb, Hse.
  assert (Hsem : (t_semester_id b =? t_semester_id entry) = true)
    by (apply Z.eqb_eq; congruence).
  rewrite Hsem in Hroom, Hinstr.
  destruct (bool_decide (t_day b = t_day entry)); [| reflexivity].
  destruct (check_time_overlap (t_start_time b) (t_end_time b)
              (t_start_time entry) (t_end_time entry)) eqn:Hov;
    [| now rewrite andb_false_r].
  apply sql_overlap_covers in Hov; try assumption.
  rewrite Hov in Hroom, Hinstr. rewrite !andb_true_r in Hroom, Hinstr.
  simpl. rewrite Hroom, Hinstr. reflexivity.
Qed.

(** X20: [create_timetable_entry] keeps the table free of clashes.  When the
    stored bookings and the new entry carry times of day and no two stored
    bookings of a semester clash, the same holds of the table after the call;
    a raised [HTTPException] leaves the table as it was, and a created entry
    is the one submitted, added at the end. *)
Theorem X20_manual_entry_keeps_the_table_free_of_clashes
    (d : Catalog) (semesters : list Z) (txt : Rendering)
    (entry : Timetable) (table : list Timetable) (scope : Z) :
  Forall times_valid table -> times_valid entry ->
  no_overlaps scope table ->
  let out := create_timetable_entry d semesters txt entry table in
  no_overlaps scope (snd out)
  /\ match fst out with
     | inl _ => snd out = table
     | inr e => e = entry /\ snd out = (table ++ [entry])%list
     end.
Proof.
  intros Hvalid Hentry Hfree. unfold create_timetable_entry.
  destruct (List.find _ (courses d)) as [course |]; [| now split].
  destruct (List.find _ (instructors d)) as [instructor |]; [| now split].
  destruct (List.find _ (rooms d)) as [room |]; [| now split].
  destruct (negb (mem (t_semester_id entry) semesters)); [now split |].
  cbv zeta.
  destruct (found (List.find _ table)) eqn:Hroom; [now split |].
  destruct (found (List.find _ table)) eqn:Hinstr in |- *; [now split |].
  match goal with
  | |- context [if ?c then _ else _] => destruct c
  end; [now split |].
  simpl. split; [| now split].
  apply ordered_pairs_snoc; [exact Hfree |].
  apply manual_entry_clashes_with_none; try assumption.
  - exact (found_none _ _ Hroom).
  - exact (found_none _ _ Hinstr).
Qed.

Lemma X20_witness :
  no_overlaps 1 (snd (create_timetable_entry sample_catalog [1] sample_rendering
                        manual_hour [stored_hour]))
  /\ snd (create_timetable_entry sample_catalog [1] sample_rendering
            manual_hour [stored_hour]) = [stored_hour; manual_hour].
Proof.
  assert (Htable : Forall times_valid [stored_hour])
    by (repeat constructor; simpl; lia).
  assert (Hentry : times_valid manual_hour)
    by (repeat constructor; simpl; lia).
  assert (Hfree : no_overlaps 1 [stored_hour])
    by (repeat constructor).
  destruct (X20_manual_entry_keeps_the_table_free_of_clashes sample_catalog [1]
              sample_rendering manual_hour [stored_hour] 1 Htable Hentry Hfree)
    as [H _].
  split; [exact H | reflexivity].
Defined.

(** X21: the outcomes of [create_timetable_entry].  The call answers 404
    exactly when the course, the instructor, the room or the semester the
    entry names is not stored, and otherwise refuses only with 400; an entry
    it creates names stored rows, and puts a Lab course in a Lab room and a
    Theory course in a Lecture Hall. *)
Theorem X21_manual_entry_outcomes
    (d : Catalog) (semesters : list Z) (txt : Rendering)
    (entry : Timetable) (table : list Timetable) :
  match fst (create_timetable_entry d semesters txt entry table) with
  | inl err =>
      (reference_missing d semesters entry /\ status_code err = 404)
      \/ (~ reference_missing d semesters entry /\ status_code err = 400)
  | inr _ =>
      exists course instructor room,
        entry_course d entry = Some course
        /\ entry_instructor d entry = Some instructor
        /\ entry_room d entry = Some room
        /\ In (t_semester_id entry) semesters
        /\ (c_type course = Lab <-> r_type room = LabRoom)
  end.
Proof.
  unfold create_timetable_entry, reference_missing,
    entry_course, entry_instructor, entry_room.
  destruct (List.find _ (courses d)) as [course |]; [| simpl; auto].
  destruct (List.find _ (instructors d)) as [instructor |]; [| simpl; auto].
  destruct (List.find _ (rooms d)) as [room |]; [| simpl; auto 6].
  destruct (mem (t_semester_id entry) semesters) eqn:Hsem; simpl.
  2:{ left. split; [| reflexivity]. do 3 right. rewrite <- mem_in. congruence. }
  apply mem_in in Hsem.
  assert (Hnone : ~ (Some course = None \/ Some instructor = None
                     \/ Some room = None \/ ~ In (t_semester_id entry) semesters))
    by (intros [H | [H | [H | H]]]; [discriminate | discriminate | discriminate | tauto]).
  destruct (found (List.find _ table)); [simpl; auto |].
  destruct (found (List.find _ table)); [simpl; auto |].
  destruct (c_type course) eqn:Hc, (r_type room) eqn:Hr; simpl; auto;
    exists course, instructor, room; rewrite Hc, Hr;
    repeat split; auto; discriminate.
Qed.

(** * Properties of the conflict check *)

(** ** Ordered pairs of a filtered or grouped list *)

Lemma ordered_pairs_filter {A} (R : A -> A -> Prop) (f : A -> bool) (l : list A) :
  ForallOrdPairs R (List.filter f l)
  <-> ForallOrdPairs (fun a b => f a = true -> f b = true -> R a b) l.
Proof.
  induction l as [| a l IH]; simpl.
  - split; constructor.
  - destruct (f a) eqn:Hfa.
    + split; intros H; inversion H as [| ? ? Ha Hl]; subst; constructor.
      * apply List.Forall_forall. intros b Hb _ Hfb.
        rewrite List.Forall_forall in Ha. apply Ha. apply filter_In. now split.
      * now apply IH.
      * apply List.Forall_forall. intros b Hb. apply filter_In in Hb.
        destruct Hb as [Hb Hfb]. rewrite List.Forall_forall in Ha. now apply Ha.
      * now apply IH.
    + rewrite IH. split; intros H.
      * constructor; [| exact H].
        apply List.Forall_forall. intros b _ Habs. congruence.
      * now inversion H.
Qed.

Lemma ordered_pairs_map {A B} (R : B -> B -> Prop) (f : A -> B) (l : list A) :
  ForallOrdPairs R (map f l) <-> ForallOrdPairs (fun a b => R (f a) (f b)) l.
Proof.
  induction l as [| a l IH]; simpl.
  - split; constructor.
  - split; intros H; inversion H as [| ? ? Ha Hl]; subst; constructor.
    + apply List.Forall_forall. intros b Hb.
      rewrite List.Forall_forall in Ha. apply Ha. now apply in_map.
    + now apply IH.
    + apply List.Forall_forall. intros b Hb. apply in_map_iff in Hb.
      destruct Hb as [x [<- Hx]]. rewrite List.Forall_forall in Ha. now apply Ha.
    + now apply IH.
Qed.

Lemma ordered_pairs_iff {A} (R S : A -> A -> Prop) (l : list A) :
  (forall a b, R a b <-> S a b) ->
  ForallOrdPairs R l <-> ForallOrdPairs S l.
Proof.
  intros HRS. induction l as [| a l IH].
  - split; constructor.
  - split; intros H; inversion H as [| ? ? Ha Hl]; subst; constructor;
      try (now apply IH);
      apply List.Forall_forall; intros b Hb;
      rewrite List.Forall_forall in Ha; apply HRS; now apply Ha.
Qed.

Lemma ordered_pairs_by_day (R : Day -> StoredRow -> StoredRow -> Prop)
    (l : list StoredRow) :
  (forall day, ForallOrdPairs (R day) (List.filter (on_day day) l))
  <-> ForallOrdPairs (fun a b => t_day (snd a) = t_day (snd b) -> R (t_day (snd a)) a b) l.
Proof.
  unfold on_day. induction l as [| a l IH].
  - split; intros; constructor.
  - split.
    + intros H. constructor.
      * specialize (H (t_day (snd a))). simpl in H.
        rewrite bool_decide_eq_true_2 in H by reflexivity.
        inversion H as [| ? ? Ha _]; subst.
        apply List.Forall_forall. intros b Hb Hday.
        rewrite List.Forall_forall in Ha. apply Ha. apply filter_In.
        split; [assumption | apply bool_decide_eq_true_2; congruence].
      * apply IH. intros day. specialize (H day). simpl in H.
        destruct (bool_decide (t_day (snd a) = day)); [now inversion H | exact H].
    + intros H day. inversion H as [| ? ? Ha Hl]; subst. simpl.
      destruct (bool_decide (t_day (snd a) = day)) eqn:Hday.
      * apply bool_decide_eq_true_1 in Hday. constructor; [| now apply IH].
        apply List.Forall_forall. intros b Hb. apply filter_In in Hb.
        destruct Hb as [Hb Hbd]. apply bool_decide_eq_true_1 in Hbd.
        rewrite List.Forall_forall in Ha. subst day. apply Ha; first [assumption | congruence].
      * now apply IH.
Qed.

(** ** The groups of [entries_by_day] *)

Lemma append_to_day_keys day entry by_day k :
  In k (map fst (append_to_day day entry by_day)) <-> k = day \/ In k (map fst by_day).
Proof.
  induction by_day as [| [k0 es0] rest IH]; simpl.
  - intuition.
  - destruct (bool_decide (k0 = day)) eqn:Hk; simpl.
    + apply bool_decide_eq_true_1 in Hk. subst. intuition.
    + rewrite IH. intuition.
Qed.

Lemma append_to_day_nodup day entry by_day :
  List.NoDup (map fst by_day) -> List.NoDup (map fst (append_to_day day entry by_day)).
Proof.
  induction by_day as [| [k0 es0] rest IH]; simpl; intros Hnd.
  - constructor; [intros [] | constructor].
  - inversion Hnd as [| ? ? Hk0 Hrest]; subst.
    destruct (bool_decide (k0 = day)) eqn:Hk; simpl.
    + constructor; assumption.
    + constructor; [| now apply IH].
      rewrite append_to_day_keys. intros [-> | Hin]; [| contradiction].
      apply bool_decide_eq_false_1 in Hk. congruence.
Qed.

Lemma append_to_day_groups day entry by_day k es :
  List.NoDup (map fst by_day) ->
  In (k, es) (append_to_day day entry by_day) ->
  (k = day /\ ((exists es0, In (day, es0) by_day /\ es = (es0 ++ [entry])%list)
               \/ (~ In day (map fst by_day) /\ es = [entry])))
  \/ (k <> day /\ In (k, es) by_day).
Proof.
  induction by_day as [| [k0 es0] rest IH]; simpl; intros Hnd Hin.
  - destruct Hin as [Heq | []]. inversion Heq; subst. left. split; [reflexivity |].
    right. split; [tauto | reflexivity].
  - inversion Hnd as [| ? ? Hk0 Hrest]; subst.
    destruct (bool_decide (k0 = day)) eqn:Hk.
    + apply bool_decide_eq_true_1 in Hk. subst k0.
      destruct Hin as [Heq | Hin].
      * inversion Heq; subst. left. split; [reflexivity |]. left. exists es0. auto.
      * right. split; [| auto]. intros ->. apply Hk0.
        change day with (fst (day, es)). now apply in_map.
    + apply bool_decide_eq_false_1 in Hk.
      destruct Hin as [Heq | Hin].
      * inversion Heq; subst. right. auto.
      * destruct (IH Hrest Hin) as [[-> [(es1 & Hes1 & ->) | [Hnot ->]]] | [Hne Hold]].
        -- left. split; [reflexivity |]. left. exists es1. auto.
        -- left. split; [reflexivity |]. right. split; [| reflexivity].
           intros [Heq | Hin']; [congruence | contradiction].
        -- right. auto.
Qed.


Lemma filter_on_day_snoc day seen entry :
  List.filter (on_day day) (seen ++ [entry])
  = (List.filter (on_day day) seen
     ++ (if on_day day entry then [entry] else []))%list.
Proof. rewrite List.filter_app. reflexivity. Qed.

Lemma grouped_step by_day seen entry :
  grouped by_day seen ->
  grouped (append_to_day (t_day (snd entry)) entry by_day) (seen ++ [entry]).
Proof.
  intros (Hnd & Hgroups & Hkeys). repeat split.
  - now apply append_to_day_nodup.
  - intros k es Hin. rewrite filter_on_day_snoc.
    apply append_to_day_groups in Hin; [| exact Hnd].
    destruct Hin as [[-> [(es0 & Hes0 & ->) | [Hnot ->]]] | [Hne Hold]].
    + unfold on_day at 2. rewrite bool_decide_eq_true_2 by reflexivity.
      now rewrite (Hgroups _ _ Hes0).
    + unfold on_day at 2. rewrite bool_decide_eq_true_2 by reflexivity.
      destruct (List.filter (on_day (t_day (snd entry))) seen) as [| x xs] eqn:Hf;
        [reflexivity |].
      exfalso. apply Hnot.
      assert (Hx : In x (List.filter (on_day (t_day (snd entry))) seen))
        by (rewrite Hf; now left).
      apply filter_In in Hx. destruct Hx as [Hx Hd].
      apply bool_decide_eq_true_1 in Hd. rewrite <- Hd. now apply Hkeys.
    + unfold on_day at 2. rewrite bool_decide_eq_false_2 by congruence.
      rewrite app_nil_r. now apply Hgroups.
  - intros e He. apply append_to_day_keys. apply in_app_or in He.
    destruct He as [He | [<- | []]]; [right; now apply Hkeys | now left].
Qed.

Lemma entries_by_day_grouped entries : grouped (entries_by_day entries) entries.
Proof.
  unfold entries_by_day.
  assert (Hgen : forall by_day seen, grouped by_day seen ->
            grouped (foldl (fun by_day entry =>
                              append_to_day (t_day (snd entry)) entry by_day)
                           by_day entries)
                    (seen ++ entries)).
  { induction entries as [| e entries IH]; intros by_day seen Hg; simpl.
    - now rewrite app_nil_r.
    - replace (seen ++ e :: entries)%list with ((seen ++ [e]) ++ entries)%list
        by (now rewrite <- app_assoc).
      apply IH. now apply grouped_step. }
  apply (Hgen [] []). repeat split; [constructor | intros k es [] | intros e []].
Qed.

(** A property of every group is a property of the entries of every day. *)
Lemma groups_by_day (Q : Day -> list StoredRow -> Prop) (entries : list StoredRow) :
  (forall day, Q day []) ->
  Forall (fun group => Q (fst group) (snd group)) (entries_by_day entries)
  <-> forall day, Q day (List.filter (on_day day) entries).
Proof.
  intros Hnil. destruct (entries_by_day_grouped entries) as (_ & Hgroups & Hkeys).
  rewrite List.Forall_forall. split.
  - intros H day.
    destruct (List.filter (on_day day) entries) as [| x xs] eqn:Hf; [apply Hnil |].
    assert (Hx : In x (List.filter (on_day day) entries)) by (rewrite Hf; now left).
    apply filter_In in Hx. destruct Hx as [Hx Hd].
    apply bool_decide_eq_true_1 in Hd.
    specialize (Hkeys x Hx). rewrite Hd in Hkeys.
    apply in_map_iff in Hkeys. destruct Hkeys as [[k es] [Hk Hin]].
    simpl in Hk. subst k. specialize (H _ Hin). simpl in H.
    rewrite (Hgroups _ _ Hin) in H. now rewrite <- Hf.
  - intros H [k es] Hin. simpl. rewrite (Hgroups _ _ Hin). apply H.
Qed.

(** ** What the loops collect *)

Section Collected.
Variables (d : Catalog) (txt : Rendering).
Variable P : list ConflictDict -> Prop.
Hypothesis P_nil : P [].
Hypothesis P_app : forall a b, P (a ++ b)%list <-> P a /\ P b.

Lemma collect_sat {A} (body : A -> Result (list ConflictDict)) (l : list A) :
  (exists cs, collect body l = Ok cs /\ P cs)
  <-> Forall (fun x => exists c, body x = Ok c /\ P c) l.
Proof.
  induction l as [| x l IH]; simpl.
  - split; [constructor | intros _; exists []; auto].
  - split.
    + intros (cs & Hc & HP).
      destruct (body x) as [c |] eqn:Hx; [| discriminate].
      destruct (collect body l) as [cs' |] eqn:Hl; [| discriminate].
      inversion Hc; subst. apply P_app in HP. destruct HP as [HPc HPcs].
      constructor; [exists c; auto | apply IH; exists cs'; auto].
    + intros H. inversion H as [| ? ? (c & Hx & HPc) Hl]; subst.
      apply IH in Hl. destruct Hl as (cs' & Hl & HPcs).
      rewrite Hx, Hl. exists (c ++ cs')%list. split; [reflexivity | now apply P_app].
Qed.

Lemma day_conflicts_sat day (l : list StoredRow) :
  (exists cs, day_conflicts d txt day l = Ok cs /\ P cs)
  <-> ForallOrdPairs (fun a b => exists c, pair_conflicts d txt day a b = Ok c /\ P c) l.
Proof.
  induction l as [| a l IH]; simpl.
  - split; [constructor | intros _; exists []; auto].
  - split.
    + intros (cs & Hc & HP).
      destruct (collect (pair_conflicts d txt day a) l) as [c |] eqn:Ha; [| discriminate].
      destruct (day_conflicts d txt day l) as [cs' |] eqn:Hl; [| discriminate].
      inversion Hc; subst. apply P_app in HP. destruct HP as [HPc HPcs].
      constructor; [apply collect_sat; exists c; auto | apply IH; exists cs'; auto].
    + intros H. inversion H as [| ? ? Ha Hl]; subst.
      apply collect_sat in Ha. destruct Ha as (c & Ha & HPc).
      apply IH in Hl. destruct Hl as (cs' & Hl & HPcs).
      rewrite Ha, Hl. exists (c ++ cs')%list. split; [reflexivity | now apply P_app].
Qed.

Lemma check_conflicts_sat scope (table : list StoredRow) :
  (exists report, check_timetable_conflicts d txt scope table = Ok report
                  /\ P (rep_conflicts report))
  <-> ForallOrdPairs
        (fun a b => t_semester_id (snd a) = scope -> t_semester_id (snd b) = scope ->
                    t_day (snd a) = t_day (snd b) ->
                    exists c, pair_conflicts d txt (t_day (snd a)) a b = Ok c /\ P c)
        table.
Proof.
  unfold check_timetable_conflicts.
  set (entries := List.filter (fun e => t_semester_id (snd e) =? scope) table).
  transitivity (exists cs,
      collect (fun group => day_conflicts d txt (fst group) (snd group))
              (entries_by_day entries) = Ok cs /\ P cs).
  { split.
    - intros (report & Hr & HP).
      destruct (collect _ (entries_by_day entries)) as [cs |]; [| discriminate].
      inversion Hr; subst. exists cs. auto.
    - intros (cs & -> & HP). eexists. split; [reflexivity | exact HP]. }
  rewrite collect_sat.
  rewrite (groups_by_day
             (fun day es => exists c, day_conflicts d txt day es = Ok c /\ P c)).
  2:{ intros day. exists []. auto. }
  transitivity (forall day,
      ForallOrdPairs (fun a b => exists c, pair_conflicts d txt day a b = Ok c /\ P c)
                     (List.filter (on_day day) entries)).
  { split; intros H day; apply day_conflicts_sat, H. }
  rewrite (ordered_pairs_by_day
             (fun day a b => exists c, pair_conflicts d txt day a b = Ok c /\ P c)).
  unfold entries. rewrite ordered_pairs_filter.
  apply ordered_pairs_iff. intros a b. rewrite !Z.eqb_eq. tauto.
Qed.

End Collected.

Lemma ordered_pairs_impl {A} (R S : A -> A -> Prop) (l : list A) :
  (forall a b, R a b -> S a b) ->
  ForallOrdPairs R l -> ForallOrdPairs S l.
Proof.
  intros HRS. induction 1 as [| a l Ha _ IH]; constructor; [| exact IH].
  apply List.Forall_forall. intros b Hb.
  rewrite List.Forall_forall in Ha. now apply HRS, Ha.
Qed.

(** ** One pair of entries *)

Lemma pair_conflicts_clean d txt day a b :
  (exists c, pair_conflicts d txt day a b = Ok c /\ c = [])
  <-> check_time_overlap (t_start_time (snd a)) (t_end_time (snd a))
                         (t_start_time (snd b)) (t_end_time (snd b))
      && ((t_room_id (snd a) =? t_room_id (snd b))
          || (t_instructor_id (snd a) =? t_instructor_id (snd b))) = false.
Proof.
  unfold pair_conflicts.
  destruct (check_time_overlap _ _ _ _); simpl; [| split; eauto].
  destruct (t_instructor_id (snd a) =? t_instructor_id (snd b)).
  - rewrite orb_true_r. split; [| discriminate].
    intros (c & Hc & ->).
    destruct (List.find _ (instructors d)); [discriminate |].
    inversion Hc as [Hnil]. apply app_eq_nil in Hnil.
    destruct Hnil as [_ Hnil]. discriminate.
  - rewrite orb_false_r.
    destruct (t_room_id (snd a) =? t_room_id (snd b)).
    + split; [| discriminate]. intros (c & Hc & ->). discriminate.
    + split; eauto.
Qed.

Lemma pair_conflicts_returns d txt day a b :
  (exists c, pair_conflicts d txt day a b = Ok c /\ True)
  <-> (check_time_overlap (t_start_time (snd a)) (t_end_time (snd a))
                          (t_start_time (snd b)) (t_end_time (snd b))
       && (t_instructor_id (snd a) =? t_instructor_id (snd b)) = true ->
       List.find (fun i => i_id i =? t_instructor_id (snd a)) (instructors d) = None).
Proof.
  unfold pair_conflicts.
  destruct (check_time_overlap _ _ _ _); simpl; [| split; [discriminate | eauto]].
  destruct (t_instructor_id (snd a) =? t_instructor_id (snd b));
    [| split; [discriminate | eauto]].
  destruct (List.find _ (instructors d)).
  - split; [intros (c & Hc & _); discriminate | intros H; now specialize (H eq_refl)].
  - split; eauto.
Qed.

Lemma pair_conflicts_reportable d txt day a b c :
  pair_conflicts d txt day a b = Ok c -> Forall (reportable d) c.
Proof.
  unfold pair_conflicts.
  destruct (check_time_overlap _ _ _ _); [| intros H; inversion H; constructor].
  assert (Hroom : forall l : list ConflictDict,
            Forall (reportable d) l ->
            Forall (reportable d)
              ((if t_room_id (snd a) =? t_room_id (snd b)
                then [{| cd_conflict_type := "RoomConflict";
                         cd_entity_type := "Room";
                         cd_entity_id := t_room_id (snd a);
                         cd_entity_name :=
                           match List.find (fun r => r_id r =? t_room_id (snd a)) (rooms d) with
                           | Some r => room_name txt r
                           | None => "Unknown Room"
                           end;
                         cd_entries := [fst a; fst b];
                         cd_day := day;
                         cd_time := render_time txt (t_start_time (snd a)) ++ "-"
                                    ++ render_time txt (t_end_time (snd a));
                         cd_details :=
                           "Room " ++
                           match List.find (fun r => r_id r =? t_room_id (snd a)) (rooms d) with
                           | Some r => room_name txt r
                           | None => "Unknown"
                           end ++ " is double-booked" |}]
                else []) ++ l)%list).
  { intros l Hl. destruct (t_room_id (snd a) =? t_room_id (snd b)); simpl; [| exact Hl].
    constructor; [now left | exact Hl]. }
  cbv zeta.
  destruct (t_instructor_id (snd a) =? t_instructor_id (snd b)).
  - destruct (List.find _ (instructors d)) eqn:Hfind; [discriminate |].
    intros H. inversion H; subst. apply Hroom.
    constructor; [| constructor]. right. simpl. auto.
  - intros H. inversion H; subst.
    specialize (Hroom [] (List.Forall_nil _)). now rewrite app_nil_r in Hroom.
Qed.

(** ** The report *)

Lemma report_count d txt scope table report :
  check_timetable_conflicts d txt scope table = Ok report ->
  rep_semester_id report = scope
  /\ rep_total_entries report
     = Z.of_nat (length (List.filter (fun e => t_semester_id (snd e) =? scope) table))
  /\ rep_conflicts_found report = Z.of_nat (length (rep_conflicts report)).
Proof.
  unfold check_timetable_conflicts.
  destruct (collect _ _); [| discriminate].
  intros H. inversion H; subst. simpl. auto.
Qed.

(** The check returns a report without conflicts exactly for the tables of
    [no_overlaps]. *)
Lemma conflict_check_clean d txt scope (table : list StoredRow) :
  (exists report, check_timetable_conflicts d txt scope table = Ok report
                  /\ rep_conflicts_found report = 0)
  <-> no_overlaps scope (map snd table).
Proof.
  transitivity (exists report, check_timetable_conflicts d txt scope table = Ok report
                               /\ rep_conflicts report = []).
  { split; intros (report & Hr & H); exists report; (split; [exact Hr |]);
      destruct (report_count _ _ _ _ _ Hr) as (_ & _ & Hn).
    - rewrite Hn in H. destruct (rep_conflicts report); [reflexivity | simpl in H; lia].
    - now rewrite Hn, H. }
  rewrite (check_conflicts_sat d txt (fun cs => cs = [])).
  2: reflexivity.
  2:{ intros x y. split; [apply app_eq_nil | intros [-> ->]; reflexivity]. }
  unfold no_overlaps. rewrite ordered_pairs_map.
  apply ordered_pairs_iff. intros a b.
  rewrite pair_conflicts_clean. unfold clashes.
  destruct (Z.eqb_spec (t_semester_id (snd a)) scope) as [Ha | Ha];
    [| simpl; split; [reflexivity | intros _ Habs; contradiction]].
  destruct (Z.eqb_spec (t_semester_id (snd b)) scope) as [Hb | Hb];
    [| simpl; split; [reflexivity | intros _ _ Habs; contradiction]].
  destruct (bool_decide (t_day (snd a) = t_day (snd b))) eqn:Hd; simpl.
  - apply bool_decide_eq_true_1 in Hd.
    rewrite andb_comm. split; [intros H; now apply H | auto].
  - apply bool_decide_eq_false_1 in Hd.
    split; [reflexivity | intros _ _ _ Habs; contradiction].
Qed.

(** X22: [check_timetable_conflicts] returns a report with
    [conflicts_found = 0] exactly when no two stored bookings of the semester
    share the room or the instructor on one day with overlapping times. *)
Theorem X22_conflict_check_finds_nothing_iff_no_clash
    (d : Catalog) (txt : Rendering) (scope : Z) (table : list StoredRow) :
  (exists report, check_timetable_conflicts d txt scope table = Ok report
                  /\ rep_conflicts_found report = 0)
  <-> no_overlaps scope (map snd table).
Proof. apply conflict_check_clean. Qed.

(** X23: [check_timetable_conflicts] returns a report exactly when no two
    bookings of the semester clash on an instructor who is stored in the
    instructor table: for such a pair the lookup of the user evaluates the
    name [User], which the module does not import.  So the count of a report
    is the length of its list, and every dictionary in it is a room conflict
    or an instructor conflict named "Unknown Instructor" about an id that is
    not stored. *)
Theorem X23_conflict_check_reports_no_stored_instructor
    (d : Catalog) (txt : Rendering) (scope : Z) (table : list StoredRow) :
  ((exists report, check_timetable_conflicts d txt scope table = Ok report)
   <-> ForallOrdPairs
         (fun a b => instructor_clashes scope a b = true ->
                     List.find (fun i => i_id i =? t_instructor_id a) (instructors d) = None)
         (map snd table))
  /\ (forall report,
        check_timetable_conflicts d txt scope table = Ok report ->
        rep_conflicts_found report = Z.of_nat (length (rep_conflicts report))
        /\ Forall (reportable d) (rep_conflicts report)).
Proof.
  assert (Hret : (exists report, check_timetable_conflicts d txt scope table = Ok report)
                 <-> ForallOrdPairs
                       (fun a b => t_semester_id (snd a) = scope ->
                                   t_semester_id (snd b) = scope ->
                                   t_day (snd a) = t_day (snd b) ->
                                   exists c, pair_conflicts d txt (t_day (snd a)) a b = Ok c
                                             /\ True)
                       table).
  { rewrite <- (check_conflicts_sat d txt (fun _ => True)); [| exact I | tauto].
    split; intros (report & H); exists report; tauto. }
  split.
  - rewrite Hret, ordered_pairs_map.
    apply ordered_pairs_iff. intros a b.
    rewrite pair_conflicts_returns. unfold instructor_clashes.
    destruct (Z.eqb_spec (t_semester_id (snd a)) scope) as [Ha | Ha];
      [| simpl; split; [discriminate | intros _ Habs; contradiction]].
    destruct (Z.eqb_spec (t_semester_id (snd b)) scope) as [Hb | Hb];
      [| simpl; split; [discriminate | intros _ _ Habs; contradiction]].
    destruct (bool_decide (t_day (snd a) = t_day (snd b))) eqn:Hd; simpl.
    + apply bool_decide_eq_true_1 in Hd.
      rewrite andb_comm. split; [intros H; now apply H | auto].
    + apply bool_decide_eq_false_1 in Hd.
      split; [discriminate | intros _ _ _ Habs; contradiction].
  - intros report Hr. split; [apply (report_count _ _ _ _ _ Hr) |].
    assert (Hok : exists report, check_timetable_conflicts d txt scope table = Ok report)
      by (now exists report).
    apply Hret in Hok.
    assert (Hall : exists report', check_timetable_conflicts d txt scope table = Ok report'
                                   /\ Forall (reportable d) (rep_conflicts report')).
    { apply (check_conflicts_sat d txt (Forall (reportable d)));
        [constructor | intros x y; apply List.Forall_app |].
      eapply ordered_pairs_impl; [| exact Hok].
      intros a b H Ha Hb Hd. destruct (H Ha Hb Hd) as (c & Hc & _).
      exists c. split; [exact Hc | eapply pair_conflicts_reportable; eassumption]. }
    destruct Hall as (report' & Hr' & Hall). congruence.
Qed.

(** ** Refusals of the manual entry *)

Lemma found_false_iff {A} (f : A -> bool) (l : list A) :
  found (List.find f l) = false <-> forall x, In x l -> f x = false.
Proof.
  split; [apply found_none |].
  intros H. destruct (List.find f l) as [x |] eqn:E; [| reflexivity].
  apply find_some in E. destruct E as [Hin Hfx].
  rewrite (H x Hin) in Hfx. discriminate.
Qed.

(** X25: [create_timetable_entry] refuses a validated entry on whole minutes
    only for a real clash.  When the times of the stored bookings and of the
    entry fall on whole minutes and passed the validator of
    [TimetableCreate], the rows the entry names are stored and its room is of
    the kind its course asks for, the entry is created exactly when it
    clashes with no stored booking of its semester. *)
Theorem X25_validated_entry_is_refused_only_for_a_clash
    (d : Catalog) (semesters : list Z) (txt : Rendering)
    (entry : Timetable) (table : list Timetable) :
  Forall times_valid table -> Forall times_whole table -> Forall validated table ->
  times_valid entry -> times_whole entry -> validated entry ->
  ~ reference_missing d semesters entry ->
  room_kind_matches d entry ->
  fst (create_timetable_entry d semesters txt entry table) = inr entry
  <-> Forall (fun b => clashes (t_semester_id entry) b entry = false) table.
Proof.
  intros Hvalid Hwhole Hproper Hentry Hwentry Hval Hrefs Hkind.
  unfold reference_missing, room_kind_matches, entry_course, entry_instructor,
    entry_room in *.
  unfold create_timetable_entry.
  destruct (List.find _ (courses d)) as [course |]; [| tauto].
  destruct (List.find _ (instructors d)) as [instructor |]; [| tauto].
  destruct (List.find _ (rooms d)) as [room |]; [| tauto].
  destruct (mem (t_semester_id entry) semesters) eqn:Hsem;
    [| exfalso; apply Hrefs; do 3 right; rewrite <- mem_in; congruence].
  cbv zeta. simpl negb. cbv iota.
  specialize (Hkind course room eq_refl eq_refl).
  assert (Htype : (bool_decide (c_type course = Lab)
                   && negb (bool_decide (r_type room = LabRoom)))
                  || (bool_decide (c_type course = Theory)
                      && bool_decide (r_type room = LabRoom)
                      && negb (bool_decide (r_type room = LectureHall))) = false).
  { destruct (c_type course), (r_type room); try reflexivity; exfalso.
    - destruct Hkind as [_ H]. specialize (H eq_refl). discriminate.
    - destruct Hkind as [H _]. specialize (H eq_refl). discriminate. }
  rewrite Htype.
  assert (Hagree : forall b, In b table ->
            sql_overlap (t_start_time b) (t_end_time b)
                        (t_start_time entry) (t_end_time entry)
            = check_time_overlap (t_start_time b) (t_end_time b)
                                 (t_start_time entry) (t_end_time entry)).
  { intros b Hb. rewrite List.Forall_forall in Hvalid, Hwhole, Hproper.
    destruct (Hvalid b Hb) as [Hbs Hbe]. destruct (Hwhole b Hb) as [Wbs Wbe].
    destruct Hentry as [Hes Hee]. destruct Hwentry as [Wes Wee].
    apply sql_overlap_agrees; try assumption.
    - apply validated_is_proper; try assumption. now apply Hproper.
    - now apply validated_is_proper. }
  split.
  - intros Hout.
    destruct (found (List.find _ table)) eqn:Hroom; [discriminate |].
    destruct (found (List.find _ table)) eqn:Hinstr in Hout; [discriminate |].
    apply manual_entry_clashes_with_none; try assumption.
    + exact (found_none _ _ Hroom).
    + exact (found_none _ _ Hinstr).
  - intros Hfree. rewrite List.Forall_forall in Hfree.
    assert (Hnone : forall b, In b table ->
              bool_decide (t_day b = t_day entry)
              && (t_semester_id b =? t_semester_id entry)
              && sql_overlap (t_start_time b) (t_end_time b)
                             (t_start_time entry) (t_end_time entry) = true ->
              (t_room_id b =? t_room_id entry) = false
              /\ (t_instructor_id b =? t_instructor_id entry) = false).
    { intros b Hb Hc. specialize (Hfree b Hb). unfold clashes in Hfree.
      rewrite (Hagree b Hb) in Hc.
      apply andb_prop in Hc. destruct Hc as [Hc Hov].
      apply andb_prop in Hc. destruct Hc as [Hd Hs].
      rewrite Hs, Z.eqb_refl, Hd, Hov in Hfree. simpl in Hfree.
      rewrite andb_true_r in Hfree. now apply orb_false_elim in Hfree. }
    assert (Hroom : found (List.find
              (fun b => (t_room_id b =? t_room_id entry)
                        && bool_decide (t_day b = t_day entry)
                        && (t_semester_id b =? t_semester_id entry)
                        && sql_overlap (t_start_time b) (t_end_time b)
                                       (t_start_time entry) (t_end_time entry))
              table) = false).
    { apply found_false_iff. intros b Hb.
      destruct (t_room_id b =? t_room_id entry) eqn:Hr; [| reflexivity]. simpl.
      destruct (bool_decide (t_day b = t_day entry)
                && (t_semester_id b =? t_semester_id entry)
                && sql_overlap (t_start_time b) (t_end_time b)
                               (t_start_time entry) (t_end_time entry)) eqn:Hc;
        [| reflexivity].
      destruct (Hnone b Hb Hc) as [Habs _]. congruence. }
    assert (Hinstr : found (List.find
              (fun b => (t_instructor_id b =? t_instructor_id entry)
                        && bool_decide (t_day b = t_day entry)
                        && (t_semester_id b =? t_semester_id entry)
                        && sql_overlap (t_start_time b) (t_end_time b)
                                       (t_start_time entry) (t_end_time entry))
              table) = false).
    { apply found_false_iff. intros b Hb.
      destruct (t_instructor_id b =? t_instructor_id entry) eqn:Hi; [| reflexivity]. simpl.
      destruct (bool_decide (t_day b = t_day entry)
                && (t_semester_id b =? t_semester_id entry)
                && sql_overlap (t_start_time b) (t_end_time b)
                               (t_start_time entry) (t_end_time entry)) eqn:Hc;
        [| reflexivity].
      destruct (Hnone b Hb Hc) as [_ Habs]. congruence. }
    rewrite Hroom, Hinstr. reflexivity.
Qed.

Lemma X25_witness :
  fst (create_timetable_entry sample_catalog [1] sample_rendering manual_hour [stored_hour])
  = inr manual_hour
  <-> Forall (fun b => clashes (t_semester_id manual_hour) b manual_hour = false)
             [stored_hour].
Proof.
  apply X25_validated_entry_is_refused_only_for_a_clash.
  - repeat constructor; simpl; lia.
  - repeat constructor.
  - repeat constructor.
  - repeat constructor; simpl; lia.
  - repeat constructor.
  - reflexivity.
  - intros [H | [H | [H | H]]]; try discriminate. apply H. now left.
  - intros course room Hc Hr. vm_compute in Hc, Hr.
    inversion Hc; inversion Hr; subst. split; discriminate.
Defined.

(** The sample of the raised exception: two overlapping bookings of the
    stored instructor 1. *)
Example conflict_check_raises_for_a_stored_instructor :
  check_timetable_conflicts sample_catalog sample_rendering 1
    (number_rows [stored_hour; double_hour])
  = Raise name_error.
Proof. reflexivity. Qed.

